(** * ExpressLRS Configurator: firmware build pipeline, source validation
      and device catalog

    A shallow embedding of
    - [FirmwareService.buildFlashFirmware] (api/src/services/Firmware),
    - [validateFirmwareVersionData] (ui/views/ConfiguratorView),
    - [DeviceService.loadDevices] (api/src/services/Device),
    with the properties of the design document proved or refuted on it. *)

From Stdlib Require Import String List Bool Arith Lia.
Import ListNotations.

Local Open Scope string_scope.
Local Open Scope list_scope.

(* ================================================================== *)
(** ** JavaScript values shared by the three units *)

Module Js.

(** An [Error] object as far as the code looks at it: [name] and
    [message].  [new Error(m)] has name "Error". *)
Record Exn : Type := mkExn { exn_name : string; exn_message : string }.

Definition newError (m : string) : Exn := mkExn "Error" m.

Definition isEmpty (s : string) : bool :=
  match s with EmptyString => true | _ => false end.

(** [Error.prototype.toString], which a template literal [`${e}`] calls. *)
Definition toString (e : Exn) : string :=
  if isEmpty (exn_name e) then exn_message e
  else if isEmpty (exn_message e) then exn_name e
  else exn_name e ++ ": " ++ exn_message e.

(** Truthiness of a possibly missing string: [undefined], [null] and the
    empty string are falsy. *)
Definition truthy (o : option string) : bool :=
  match o with Some s => negb (isEmpty s) | None => false end.

(** The two values that have no properties: reading a property of one of
    them throws a [TypeError]. *)
Inductive Nullish : Type := Undefined | Null.

Definition Nullish_toString (n : Nullish) : string :=
  match n with Undefined => "undefined" | Null => "null" end.

(** A value that may be missing: [undefined] (also what reading an absent
    property gives), [null], or a value. *)
Inductive Maybe (A : Type) : Type :=
| Nil (n : Nullish)
| Val (a : A).
Arguments Nil {A} n.
Arguments Val {A} a.

(** A possibly missing string inside a template literal or used as a
    property key. *)
Definition render (x : Maybe string) : string :=
  match x with Val s => s | Nil n => Nullish_toString n end.

(** The error thrown on reading a property of [undefined] or [null]; its
    message is the engine's and differs between engines. *)
Definition typeError (message : string) : Exn := mkExn "TypeError" message.

(** One wording of that message, V8's older one. *)
Definition cannotRead (property : string) (n : Nullish) : string :=
  "Cannot read property '" ++ property ++ "' of " ++ Nullish_toString n.

Definition Maybe_truthy (x : Maybe string) : bool :=
  match x with Val s => negb (isEmpty s) | Nil _ => false end.

(** The names every object has from [Object.prototype]; each is a
    function, but for [__proto__], which is the prototype itself. *)
Definition objectPrototype : list string :=
  ["constructor"; "hasOwnProperty"; "isPrototypeOf"; "propertyIsEnumerable";
   "toLocaleString"; "toString"; "valueOf"; "__proto__";
   "__defineGetter__"; "__defineSetter__"; "__lookupGetter__";
   "__lookupSetter__"].

Definition inherited (k : string) : bool :=
  existsb (String.eqb k) objectPrototype.

(** What [obj[k]] gives for an object [obj] made by an object literal: its
    own property, a property of [Object.prototype], or [undefined]. *)
Inductive Property (A : Type) : Type :=
| Own (a : A)
| Inherited (name : string)
| Lacking.
Arguments Own {A} a.
Arguments Inherited {A} name.
Arguments Lacking {A}.

(** An inherited property is a function or an object: truthy. *)
Definition Property_truthy (x : Property string) : bool :=
  match x with
  | Own s => negb (isEmpty s)
  | Inherited _ => true
  | Lacking => false
  end.

(** What a [catch (e)] may receive.  A promise can be rejected with any
    value.  Of the caught value the code here reads a property and takes
    the rendering: [undefined] and [null], of which no property can be
    read, are kept apart; any other value is kept as an [Error] object
    with the same rendering.  Values whose rendering itself throws (a
    Symbol, an object whose [toString] throws) are left out. *)
Inductive Thrown : Type :=
| AnError (e : Exn)
| Nothing (n : Nullish).

(** [`${e}`] for a caught value. *)
Definition describe (e : Thrown) : string :=
  match e with AnError x => toString x | Nothing n => Nullish_toString n end.

(** What a call gives back to its caller: a value, or what it threw. *)
Inductive Settled (E A : Type) : Type :=
| Ok (a : A)
| Raise (e : E).
Arguments Ok {E A} a.
Arguments Raise {E A} e.

(** A call of code that throws [Error] objects only. *)
Definition Outcome (A : Type) : Type := Settled Exn A.

(** A call of a collaborator, or an awaited promise: it may throw, or be
    rejected with, any value. *)
Definition Awaited (A : Type) : Type := Settled Thrown A.

End Js.
Import Js.

(* ================================================================== *)
(** ** Models, enums and the lock of the API *)

(** Modelled from the spec: models/enum/FirmwareSource is not among the
    sources; the five variants are the ones the validator's switch names.
    An enum is a string at run time, [UnknownSource] stands for any other
    value reaching a switch. *)
Inductive FirmwareSource : Type :=
| GitTag | GitBranch | GitCommit | Local | GitPullRequest
| UnknownSource (raw : string).

Definition FirmwareSource_toString (s : FirmwareSource) : string :=
  match s with
  | GitTag => "GitTag" | GitBranch => "GitBranch" | GitCommit => "GitCommit"
  | Local => "Local" | GitPullRequest => "GitPullRequest"
  | UnknownSource raw => raw
  end.

(** Modelled from the spec: models/enum/BuildJobType, jobType in
    {Build, BuildAndFlash}. *)
Inductive BuildJobType : Type := Build | BuildAndFlash.

(** Modelled from the spec: models/enum/UserDefinesMode, with
    [UnknownMode] for a value outside the enum. *)
Inductive UserDefinesMode : Type :=
| Manual | UserInterface
| UnknownMode (raw : string).

Definition UserDefinesMode_toString (m : UserDefinesMode) : string :=
  match m with
  | Manual => "Manual" | UserInterface => "UserInterface"
  | UnknownMode raw => raw
  end.

(** Modelled from the spec: models/enum/BuildFirmwareErrorType, the error
    taxonomy of the design document. *)
Inductive BuildFirmwareErrorType : Type :=
| GenericError | PythonDependencyError | PlatformioDependencyError
| GitDependencyError | BuildError | FlashError.

Inductive BuildProgressNotificationType : Type := Info | Error.

(** Modelled from the spec: models/enum/FirmwareBuildStep, the ordered
    steps of a build. *)
Inductive BuildFirmwareStep : Type :=
| VERIFYING_BUILD_SYSTEM | DOWNLOADING_FIRMWARE | BUILDING_USER_DEFINES
| BUILDING_FIRMWARE | FLASHING_FIRMWARE.

(** library/FirmwareBuilder/Enum/DeviceTarget and UserDefineKey are enums of
    strings; the pipeline only passes them on. *)
Definition DeviceTarget : Type := string.
Definition UserDefineKey : Type := string.

Record UserDefine : Type := mkUserDefine {
  ud_type : string;
  key : UserDefineKey;
  enabled : bool;
  enumValues : option (list string);
  value : option string
}.

(** Modelled from the spec: models/BuildFlashFirmwareResult, whose
    constructor is (success, message?, errorType?, firmwareBinPath?). *)
Record BuildFlashFirmwareResult : Type := mkResult {
  success : bool;
  message : option string;
  errorType : option BuildFirmwareErrorType;
  firmwareBinPath : option string
}.

Record GitRepo : Type := mkGitRepo {
  url : string;
  cloneUrl : string;
  owner : string;
  repositoryName : string
}.

Record FirmwareVersionData : Type := mkFirmwareVersionData {
  source : FirmwareSource;
  gitTag : string;
  gitBranch : string;
  gitCommit : string;
  localPath : string
}.

Record BuildFlashFirmwareParams : Type := mkParams {
  type : BuildJobType;
  firmware : FirmwareVersionData;
  target : DeviceTarget;
  userDefinesMode : UserDefinesMode;
  userDefines : list UserDefine;
  userDefinesTxt : string
}.

Record BuildProgressNotificationPayload : Type := mkProgress {
  pn_type : BuildProgressNotificationType;
  pn_step : BuildFirmwareStep
}.

(** Result of a toolchain command (Platformio, FirmwareBuilder). *)
Record CommandResult : Type := mkCommandResult {
  cr_success : bool;
  stdout : string;
  stderr : string
}.

Record CompatResult : Type := mkCompat {
  compatible : bool;
  incompatibleKeys : list UserDefineKey
}.

(** Options of [new GitFirmwareDownloader({...})]. *)
Record GitFirmwareDownloader : Type := mkDownloader {
  baseDirectory : string;
  gitBinaryLocation : string
}.

Module Mutex.

(** Modelled from the spec: library/Mutex is not among the sources.  A
    binary lock: [tryLock] does not block and reports whether it took the
    lock, [unlock] releases it; releasing a lock that is not held is a
    programming error ([None]). *)
Record t : Type := mk { locked : bool }.

Definition new : t := mk false.

Definition isLocked (m : t) : bool := locked m.

Definition tryLock (m : t) : t * bool :=
  if locked m then (m, false) else (mk true, true).

Definition unlock (m : t) : option t :=
  if locked m then Some (mk false) else None.

End Mutex.

(* ================================================================== *)
(** ** FirmwareService: the build pipeline *)

Module Firmware.

(** Every interaction of the pipeline with a collaborator. *)
Inductive Call : Type :=
| PublishProgress (p : BuildProgressNotificationPayload)
| PublishLogs (data : string)
| CheckPython
| CheckCore
| Install
| FindGitExecutable (searchPath : string)
| CheckoutTag (dl : GitFirmwareDownloader) (repoUrl ref : string)
| CheckCompatibility (firmwarePath : string) (keys : list UserDefineKey)
| BuildUserDefinesTxt (uds : list UserDefine)
| GetPlatformioState
| BuilderBuild (tg : DeviceTarget) (defines firmwarePath : string)
| GetFirmwareBinPath (tg : DeviceTarget) (firmwarePath : string)
| BuilderFlash (tg : DeviceTarget) (firmwarePath : string).

Inductive Value : Type :=
| VUnit
| VCommand (r : CommandResult)
| VString (s : string)
| VCompat (c : CompatResult).

Inductive Answer : Type :=
| Gave (v : Value)
| Threw (e : Thrown).

Inductive LogLevel : Type := LevelLog | LevelError.

(** What a run leaves behind, in order of completion.  [Called]: a call
    whose result the pipeline consumes (awaited or synchronous).
    [Detached]: a call made from an output callback, whose promise nobody
    awaits.  [ThrowStmt]: an exception raised by the code of the pipeline
    itself, by a [throw] statement or by reading a property of [undefined]
    or [null].
    [Logged]: a line handed to the logger (its context object left out). *)
Inductive Entry : Type :=
| Logged (level : LogLevel) (msg : string)
| Called (c : Call) (a : Answer)
| Detached (c : Call) (a : Answer)
| ThrowStmt (e : Exn).

(** The collaborators of the service over a world [W] they may read and
    change: pubSub, Platformio, FirmwareBuilder, the git lookup and
    downloader and UserDefinesTxtFactory.  A command that takes an output
    callback also gives the chunks it hands to the callback.  With them
    comes the engine the service runs on, of which one thing shows: the
    message of the TypeError it throws when a property of [undefined] or
    [null] is read. *)
Record Backend (W : Type) : Type := mkBackend {
  pubSub_publishProgress :
    BuildProgressNotificationPayload -> W -> W * Awaited unit;
  pubSub_publishLogs : string -> W -> W * Awaited unit;
  platformio_checkPython : W -> W * Awaited CommandResult;
  platformio_checkCore : W -> W * Awaited CommandResult;
  platformio_install : W -> W * (list string * Awaited CommandResult);
  findGitExecutable : string -> W -> W * Awaited string;
  downloader_checkoutTag :
    GitFirmwareDownloader -> string -> string -> W -> W * Awaited string;
  builder_checkDefaultUserDefinesCompatibilityAtPath :
    string -> list UserDefineKey -> W -> W * Awaited CompatResult;
  userDefinesTxtFactory_build : list UserDefine -> W -> W * Awaited string;
  platformio_getPlatformioState : W -> W * Awaited string;
  builder_build :
    DeviceTarget -> string -> string ->
    W -> W * (list string * Awaited CommandResult);
  builder_getFirmwareBinPath :
    DeviceTarget -> string -> W -> W * Awaited string;
  builder_flash :
    DeviceTarget -> string -> W -> W * (list string * Awaited CommandResult);
  runtime_cannotRead : string -> Nullish -> string
}.

Arguments pubSub_publishProgress {W}.
Arguments pubSub_publishLogs {W}.
Arguments platformio_checkPython {W}.
Arguments platformio_checkCore {W}.
Arguments platformio_install {W}.
Arguments findGitExecutable {W}.
Arguments downloader_checkoutTag {W}.
Arguments builder_checkDefaultUserDefinesCompatibilityAtPath {W}.
Arguments userDefinesTxtFactory_build {W}.
Arguments platformio_getPlatformioState {W}.
Arguments builder_build {W}.
Arguments builder_getFirmwareBinPath {W}.
Arguments builder_flash {W}.
Arguments runtime_cannotRead {W}.

(** The service and what is around it. *)
Record St (W : Type) : Type := mkSt { world : W; mutex : Mutex.t }.
Arguments mkSt {W}.
Arguments world {W}.
Arguments mutex {W}.

(** How a statement completes: normally, by [return] or by [throw]. *)
Inductive Completion (A : Type) : Type :=
| Normal (a : A)
| Return (r : BuildFlashFirmwareResult)
| Throw (e : Thrown).
Arguments Normal {A} a.
Arguments Return {A} r.
Arguments Throw {A} e.

Definition M (W A : Type) : Type := St W -> St W * list Entry * Completion A.

Section Monad.
Context {W : Type}.

Definition pure {A} (a : A) : M W A := fun s => (s, [], Normal a).

Definition bind {A B} (m : M W A) (k : A -> M W B) : M W B :=
  fun s =>
    match m s with
    | (s1, t1, Normal a) =>
        match k a s1 with (s2, t2, c) => (s2, t1 ++ t2, c) end
    | (s1, t1, Return r) => (s1, t1, Return r)
    | (s1, t1, Throw e) => (s1, t1, Throw e)
    end.

Definition ret_ {A} (r : BuildFlashFirmwareResult) : M W A :=
  fun s => (s, [], Return r).

Definition throw {A} (e : Exn) : M W A :=
  fun s => (s, [ThrowStmt e], Throw (AnError e)).

(** [this.logger?.log] and [this.logger?.error]: the logger is a sink, it
    takes the line and does not throw. *)
Definition logger_log (msg : string) : M W unit :=
  fun s => (s, [Logged LevelLog msg], Normal tt).

Definition logger_error (msg : string) : M W unit :=
  fun s => (s, [Logged LevelError msg], Normal tt).

Definition answer {A} (inj : A -> Value) (o : Awaited A) : Answer :=
  match o with Ok a => Gave (inj a) | Raise e => Threw e end.

Definition complete {A} (o : Awaited A) : Completion A :=
  match o with Ok a => Normal a | Raise e => Throw e end.

(** A call the pipeline waits for. *)
Definition call {A} (c : Call) (inj : A -> Value)
    (op : W -> W * Awaited A) : M W A :=
  fun s =>
    match op (world s) with
    | (w1, o) => (mkSt w1 (mutex s), [Called c (answer inj o)], complete o)
    end.

(** [try { m } catch (e) { h e }] *)
Definition tryCatch {A} (m : M W A) (h : Thrown -> M W A) : M W A :=
  fun s =>
    match m s with
    | (s1, t1, Throw e) =>
        match h e s1 with (s2, t2, c) => (s2, t1 ++ t2, c) end
    | r => r
    end.

(** [try { m } catch (e) { h e } finally { f }]: [f] runs on every
    completion, and only an abrupt completion of [f] replaces the one of
    the try or catch block. *)
Definition tryCatchFinally {A} (m : M W A) (h : Thrown -> M W A)
    (f : M W unit) : M W A :=
  fun s =>
    match tryCatch m h s with
    | (s1, t1, c) =>
        match f s1 with
        | (s2, t2, Normal _) => (s2, t1 ++ t2, c)
        | (s2, t2, Return r) => (s2, t1 ++ t2, Return r)
        | (s2, t2, Throw e) => (s2, t1 ++ t2, Throw e)
        end
    end.

Definition floating (e : Entry) : Entry :=
  match e with Called c a => Detached c a | _ => e end.

(** A promise nobody awaits: its calls happen, its completion is lost. *)
Definition detach {A} (m : M W A) : M W unit :=
  fun s => match m s with (s1, t1, _) => (s1, map floating t1, Normal tt) end.

Fixpoint forEach {A} (xs : list A) (f : A -> M W unit) : M W unit :=
  match xs with
  | [] => pure tt
  | x :: xs' => bind (f x) (fun _ => forEach xs' f)
  end.

(** A command that streams its output to [onOutput] while it runs. *)
Definition stream (c : Call)
    (op : W -> W * (list string * Awaited CommandResult))
    (onOutput : string -> M W unit) : M W CommandResult :=
  fun s =>
    match op (world s) with
    | (w1, (chunks, o)) =>
        match forEach chunks onOutput (mkSt w1 (mutex s)) with
        | (s2, t, Normal _) => (s2, t ++ [Called c (answer VCommand o)], complete o)
        | (s2, t, Return r) => (s2, t, Return r)
        | (s2, t, Throw e) => (s2, t, Throw e)
        end
    end.

Definition mutex_isLocked : M W bool :=
  fun s => (s, [], Normal (Mutex.isLocked (mutex s))).

Definition mutex_tryLock : M W bool :=
  fun s =>
    match Mutex.tryLock (mutex s) with
    | (m, b) => (mkSt (world s) m, [], Normal b)
    end.

Definition mutex_unlock : M W unit :=
  fun s =>
    match Mutex.unlock (mutex s) with
    | Some m => (mkSt (world s) m, [], Normal tt)
    | None => throw (newError "mutex is not locked") s
    end.

End Monad.

Notation "x <- m ;; k" := (bind m (fun x => k))
  (at level 61, m at next level, right associativity).
Notation "m ;; k" := (bind m (fun _ => k))
  (at level 61, right associativity).

Section Service.
Local Open Scope string_scope.
Context {W : Type}.
(** The constructor's arguments: [this.PATH], [this.firmwaresPath] and
    the collaborators. *)
Variable PATH : string.
Variable firmwaresPath : string.
Variable B : Backend W.

Definition updateProgress (ty : BuildProgressNotificationType)
    (step : BuildFirmwareStep) : M W unit :=
  logger_log "build progress notification" ;;
  call (PublishProgress (mkProgress ty step)) (fun _ => VUnit)
       (pubSub_publishProgress B (mkProgress ty step)).

Definition updateLogs (data : string) : M W unit :=
  logger_log "logs stream output" ;;
  call (PublishLogs data) (fun _ => VUnit) (pubSub_publishLogs B data).

(** [(output) => { this.updateLogs(output); }] *)
Definition onOutput (output : string) : M W unit :=
  detach (updateLogs output).

(** [e.property] for a caught value [e], as far as it matters here: the
    read throws when [e] is [undefined] or [null]. *)
Definition readProperty (property : string) (e : Thrown) : M W unit :=
  match e with
  | AnError _ => pure tt
  | Nothing n => throw (typeError (runtime_cannotRead B property n))
  end.

Definition busyMessage : string :=
  "there is another build/flash request in progress...".

(** The [switch (params.firmware.source)] of the try block. *)
Definition resolveFirmwarePath (params : BuildFlashFirmwareParams)
    (gitRepo : GitRepo) (firmwareDownload : GitFirmwareDownloader)
    : M W string :=
  match source (firmware params) with
  | GitTag =>
      call (CheckoutTag firmwareDownload (url gitRepo)
              (gitTag (firmware params))) VString
           (downloader_checkoutTag B firmwareDownload (url gitRepo)
              (gitTag (firmware params)))
  | GitBranch =>
      call (CheckoutTag firmwareDownload (url gitRepo)
              (gitBranch (firmware params))) VString
           (downloader_checkoutTag B firmwareDownload (url gitRepo)
              (gitBranch (firmware params)))
  | GitCommit =>
      call (CheckoutTag firmwareDownload (url gitRepo)
              (gitTag (firmware params))) VString
           (downloader_checkoutTag B firmwareDownload (url gitRepo)
              (gitTag (firmware params)))
  | Local => pure (localPath (firmware params))
  | other =>
      throw (newError ("unsupported firmware source: "
                       ++ FirmwareSource_toString other))
  end.

Definition enabledKeys (uds : list UserDefine) : list UserDefineKey :=
  map key (filter enabled uds).

(** The body of [if (!coreCheck.success) { ... }]. *)
Definition installPlatformio : M W unit :=
  updateLogs "Failed to find Platformio on your computer. Trying to install it automatically..." ;;
  logger_error "platformio dependency check error" ;;
  platformioInstallResult <-
    stream Install (platformio_install B) onOutput ;;
  (if negb (cr_success platformioInstallResult) then
     logger_error "platformio installation error" ;;
     ret_ (mkResult false
             (Some ("platformio error: "
                    ++ stderr platformioInstallResult
                    ++ " " ++ stdout platformioInstallResult))
             (Some PlatformioDependencyError) None)
   else pure tt).

(** The body of [try { ... }]. *)
Definition tryBlock (params : BuildFlashFirmwareParams) (gitRepo : GitRepo)
    : M W Empty_set :=
  updateProgress Info VERIFYING_BUILD_SYSTEM ;;
  pythonCheck <- call CheckPython VCommand (platformio_checkPython B) ;;
  (if negb (cr_success pythonCheck) then
     logger_error "python dependency check error" ;;
     ret_ (mkResult false
             (Some ("Python dependency error: " ++ stderr pythonCheck
                    ++ " " ++ stdout pythonCheck))
             (Some PythonDependencyError) None)
   else pure tt) ;;
  coreCheck <- call CheckCore VCommand (platformio_checkCore B) ;;
  (if negb (cr_success coreCheck) then installPlatformio else pure tt) ;;
  gitPath <-
    tryCatch
      (call (FindGitExecutable PATH) VString (findGitExecutable B PATH))
      (fun e =>
         readProperty "stack" e ;;
         logger_error "failed to find git" ;;
         ret_ (mkResult false (Some (describe e))
                 (Some GitDependencyError) None)) ;;
  logger_log "git path" ;;
  let firmwareDownload := mkDownloader firmwaresPath gitPath in
  updateProgress Info DOWNLOADING_FIRMWARE ;;
  firmwarePath <- resolveFirmwarePath params gitRepo firmwareDownload ;;
  logger_log "firmware path" ;;
  updateProgress Info BUILDING_USER_DEFINES ;;
  (match userDefinesMode params with
   | UserInterface =>
       compatCheck <-
         call (CheckCompatibility firmwarePath
                 (enabledKeys (userDefines params))) VCompat
              (builder_checkDefaultUserDefinesCompatibilityAtPath B
                 firmwarePath (enabledKeys (userDefines params))) ;;
       (if negb (compatible compatCheck) then
          ret_ (mkResult false
                  (Some ("Downloaded firmware is not compatible with the following user defines: "
                         ++ String.concat "," (incompatibleKeys compatCheck)))
                  (Some BuildError) None)
        else pure tt)
   | _ => pure tt
   end) ;;
  userDefines <-
    match userDefinesMode params with
    | Manual => pure (userDefinesTxt params)
    | UserInterface =>
        call (BuildUserDefinesTxt (userDefines params)) VString
             (userDefinesTxtFactory_build B (userDefines params))
    | other =>
        throw (newError ("unsupported user defines mode: "
                         ++ UserDefinesMode_toString other))
    end ;;
  logger_log "user_defines.txt" ;;
  platformioStateJson <-
    call GetPlatformioState VString (platformio_getPlatformioState B) ;;
  logger_log "platformio state json" ;;
  updateProgress Info BUILDING_FIRMWARE ;;
  compileResult <-
    stream (BuilderBuild (target params) userDefines firmwarePath)
           (builder_build B (target params) userDefines firmwarePath)
           onOutput ;;
  (if negb (cr_success compileResult) then
     logger_error "compile error" ;;
     ret_ (mkResult false (Some (stderr compileResult))
             (Some BuildError) None)
   else pure tt) ;;
  (match type params with
   | Build =>
       firmwareBinPath <-
         call (GetFirmwareBinPath (target params) firmwarePath) VString
              (builder_getFirmwareBinPath B (target params) firmwarePath) ;;
       ret_ (mkResult true None None (Some firmwareBinPath))
   | _ => pure tt
   end) ;;
  updateProgress Info FLASHING_FIRMWARE ;;
  flashResult <-
    stream (BuilderFlash (target params) firmwarePath)
           (builder_flash B (target params) firmwarePath) onOutput ;;
  (if negb (cr_success flashResult) then
     logger_error "flash error" ;;
     ret_ (mkResult false (Some (stderr flashResult))
             (Some FlashError) None)
   else pure tt) ;;
  ret_ (mkResult true None None None).

(** The [catch (e) { ... }] of the pipeline: the arguments of
    [logger.error], among them [e.trace], are evaluated before the line is
    logged. *)
Definition catchBlock (e : Thrown) : M W Empty_set :=
  readProperty "trace" e ;;
  logger_error "generic error" ;;
  ret_ (mkResult false (Some ("Error: " ++ describe e))
          (Some GenericError) None).

(** The whole method body, from the first log line to [finally]. *)
Definition buildFlashFirmware_body (params : BuildFlashFirmwareParams)
    (gitRepo : GitRepo) : M W Empty_set :=
  logger_log "received build firmware request" ;;
  isLocked <- mutex_isLocked ;;
  (if isLocked then
     logger_error busyMessage ;;
     ret_ (mkResult false (Some busyMessage) (Some GenericError) None)
   else pure tt) ;;
  mutex_tryLock ;;
  tryCatchFinally (tryBlock params gitRepo) catchBlock mutex_unlock.

(** What the caller of [buildFlashFirmware] sees: the service and world
    afterwards, what the run left behind, and the resolved result or the
    exception the promise is rejected with. *)
Definition buildFlashFirmware (params : BuildFlashFirmwareParams)
    (gitRepo : GitRepo) (s : St W)
    : St W * list Entry * Awaited BuildFlashFirmwareResult :=
  match buildFlashFirmware_body params gitRepo s with
  | (s', t, Return r) => (s', t, Ok r)
  | (s', t, Throw e) => (s', t, Raise e)
  | (_, _, Normal x) => match x with end
  end.

End Service.

(** *** Reading a run *)

(** The progress notifications the pipeline published, in order. *)
Definition progressOf (e : Entry) : list BuildProgressNotificationPayload :=
  match e with Called (PublishProgress p) _ => [p] | _ => [] end.

Definition progressEvents (t : list Entry)
    : list BuildProgressNotificationPayload :=
  flat_map progressOf t.

Definition progressSteps (t : list Entry) : list BuildFirmwareStep :=
  map pn_step (progressEvents t).

(** The exception an entry stands for, when it stands for one: a call of
    the pipeline that threw, or an exception the pipeline raised itself. *)
Definition exnOf (e : Entry) : option Thrown :=
  match e with
  | Called _ (Threw x) => Some x
  | ThrowStmt x => Some (AnError x)
  | _ => None
  end.

Definition isRaise (e : Entry) : bool :=
  match exnOf e with Some _ => true | None => false end.

(** The exceptions thrown inside the pipeline during a run. *)
Definition raised (t : list Entry) : list Entry := filter isRaise t.

(** A call of the pipeline that threw, or was rejected with, [undefined]
    or [null]. *)
Definition isNullishThrow (e : Entry) : bool :=
  match e with Called _ (Threw (Nothing _)) => true | _ => false end.

Definition isGitLookup (e : Entry) : bool :=
  match e with Called (FindGitExecutable _) _ => true | _ => false end.

Definition isCheckout (e : Entry) : bool :=
  match e with Called (CheckoutTag _ _ _) _ => true | _ => false end.

Definition isFlash (e : Entry) : bool :=
  match e with Called (BuilderFlash _ _) _ => true | _ => false end.

(** The firmware path a call is given, for the calls that take one. *)
Definition firmwarePathOf (e : Entry) : list string :=
  match e with
  | Called (CheckCompatibility p _) _ => [p]
  | Called (BuilderBuild _ _ p) _ => [p]
  | Called (GetFirmwareBinPath _ p) _ => [p]
  | Called (BuilderFlash _ p) _ => [p]
  | _ => []
  end.

Definition firmwarePaths (t : list Entry) : list string :=
  flat_map firmwarePathOf t.

(** The ref handed to [checkoutTag], for a checkout. *)
Definition checkoutRefOf (e : Entry) : list string :=
  match e with
  | Called (CheckoutTag _ _ ref) _ => [ref]
  | _ => []
  end.

Definition checkoutRefs (t : list Entry) : list string :=
  flat_map checkoutRefOf t.

(** A step that failed: a call of the pipeline that threw, a [throw]
    statement, a command that came back with success=false, a
    compatibility check that came back incompatible. *)
Definition isFailure (e : Entry) : bool :=
  match e with
  | Called _ (Threw _) | ThrowStmt _ => true
  | Called _ (Gave (VCommand r)) => negb (cr_success r)
  | Called _ (Gave (VCompat c)) => negb (compatible c)
  | _ => false
  end.

(** The steps of a job that runs to its end, as the design document
    lists them. *)
Definition stepsOf (ty : BuildJobType) : list BuildFirmwareStep :=
  match ty with
  | Build =>
      [VERIFYING_BUILD_SYSTEM; DOWNLOADING_FIRMWARE; BUILDING_USER_DEFINES;
       BUILDING_FIRMWARE]
  | BuildAndFlash =>
      [VERIFYING_BUILD_SYSTEM; DOWNLOADING_FIRMWARE; BUILDING_USER_DEFINES;
       BUILDING_FIRMWARE; FLASHING_FIRMWARE]
  end.

Definition isBuild (e : Entry) : bool :=
  match e with Called (BuilderBuild _ _ _) _ => true | _ => false end.

(** Entries of the install block and of output callbacks: log lines,
    detached publications, and the calls of the block that came back. *)
Definition isIncidental (e : Entry) : bool :=
  match e with
  | Logged _ _ | Detached _ _ => true
  | Called (PublishLogs _) (Gave _) => true
  | Called Install (Gave _) => true
  | _ => false
  end.

(** A checkout that came back. *)
Definition isResolution (e : Entry) : bool :=
  match e with
  | Called (CheckoutTag _ _ _) (Gave _) => true
  | _ => false
  end.

(** Every entry of [t] is of kind [P]. *)
Definition Only (P : Entry -> bool) (t : list Entry) : Prop :=
  Forall (fun e => P e = true) t.

Definition genericError (e : Exn) : BuildFlashFirmwareResult :=
  mkResult false (Some ("Error: " ++ toString e)%string)
    (Some GenericError) None.

Definition gitDependencyError (e : Exn) : BuildFlashFirmwareResult :=
  mkResult false (Some (toString e)) (Some GitDependencyError) None.

(** The field of the descriptor that the selected variant names. *)
Definition fieldOfVariant (f : FirmwareVersionData) : option string :=
  match source f with
  | GitTag => Some (gitTag f)
  | GitBranch => Some (gitBranch f)
  | GitCommit => Some (gitCommit f)
  | Local => Some (localPath f)
  | _ => None
  end.

(** *** Weakest preconditions over [M] *)

Definition wp {W A} (m : M W A) (s : St W)
    (Q : St W -> list Entry -> Completion A -> Prop) : Prop :=
  match m s with (s', t, c) => Q s' t c end.

(** The postcondition of a method body, read by its caller. *)
Definition returning {W}
    (Q : St W -> list Entry -> Awaited BuildFlashFirmwareResult -> Prop)
    : St W -> list Entry -> Completion Empty_set -> Prop :=
  fun s t c =>
    match c with
    | Return r => Q s t (Ok r)
    | Throw e => Q s t (Raise e)
    | Normal x => match x with end
    end.

(** *** Sample collaborators *)

Module Sample.
Local Open Scope string_scope.

Definition ok {A} (a : A) : unit -> unit * Awaited A := fun w => (w, Ok a).
Definition ko {A} (m : string) : unit -> unit * Awaited A :=
  fun w => (w, Raise (AnError (newError m))).

Definition done : CommandResult := mkCommandResult true "ok" "".

Definition linkError : CommandResult :=
  mkCommandResult false "" "undefined reference".

Definition renderDefines (uds : list UserDefine) : string :=
  String.concat (String (Ascii.ascii_of_nat 10) "")
    (map (fun u => "-D" ++ key u) (filter enabled uds)).

(** A toolchain on which every step works; [git] says whether the git
    executable is on the search path, [compile] is what the compiler
    answers. *)
Definition backend (git : bool) (compile : CommandResult) : Backend unit :=
  mkBackend unit
    (fun _ => ok tt)
    (fun _ => ok tt)
    (ok done)
    (ok done)
    (fun w => (w, (["installing"], Ok done)))
    (fun _ => if git then ok "/usr/bin/git" else ko "git not found")
    (fun dl _ ref => ok (baseDirectory dl ++ "/" ++ ref))
    (fun _ _ => ok (mkCompat true []))
    (fun uds => ok (renderDefines uds))
    (ok "{}")
    (fun _ _ _ w => (w, (["compiling"; "linking"], Ok compile)))
    (fun tg p => ok (p ++ "/.pio/build/" ++ tg ++ "/firmware.bin"))
    (fun _ _ w => (w, (["uploading"], Ok done)))
    cannotRead.

(** A toolchain on which every step works, but for the Python check and
    the git lookup, whose promise is rejected with [python] and with [git]
    when these are given. *)
Definition unreasoned (python git : option Nullish) : Backend unit :=
  mkBackend unit
    (fun _ => ok tt)
    (fun _ => ok tt)
    (fun w => (w, match python with
                  | Some n => Raise (Nothing n)
                  | None => Ok done
                  end))
    (ok done)
    (fun w => (w, (["installing"], Ok done)))
    (fun _ w => (w, match git with
                    | Some n => Raise (Nothing n)
                    | None => Ok "/usr/bin/git"
                    end))
    (fun dl _ ref => ok (baseDirectory dl ++ "/" ++ ref))
    (fun _ _ => ok (mkCompat true []))
    (fun uds => ok (renderDefines uds))
    (ok "{}")
    (fun _ _ _ w => (w, (["compiling"; "linking"], Ok done)))
    (fun tg p => ok (p ++ "/.pio/build/" ++ tg ++ "/firmware.bin"))
    (fun _ _ w => (w, (["uploading"], Ok done)))
    cannotRead.

Definition repo : GitRepo :=
  mkGitRepo "https://github.com/ExpressLRS/ExpressLRS"
    "https://github.com/ExpressLRS/ExpressLRS.git" "ExpressLRS" "ExpressLRS".

Definition define : UserDefine :=
  mkUserDefine "Boolean" "REGULATORY_DOMAIN_EU_868" true None None.

Definition request (ty : BuildJobType) (f : FirmwareVersionData)
    : BuildFlashFirmwareParams :=
  mkParams ty f "HappyModel_ES915TX_via_STLINK" UserInterface [define] "".

Definition tagged : FirmwareVersionData :=
  mkFirmwareVersionData GitTag "1.0.0" "" "" "".

Definition pinned : FirmwareVersionData :=
  mkFirmwareVersionData GitCommit "1.0.0" "master" "9f1c2aa" "".

Definition onDisk : FirmwareVersionData :=
  mkFirmwareVersionData Local "" "" "" "/x".

Definition proposed : FirmwareVersionData :=
  mkFirmwareVersionData GitPullRequest "" "" "" "".

Definition idle : St unit := mkSt tt Mutex.new.
Definition busy : St unit := mkSt tt (Mutex.mk true).

Definition run (git : bool) (compile : CommandResult)
    (ty : BuildJobType) (f : FirmwareVersionData) (s : St unit) :=
  buildFlashFirmware "/usr/bin" "/firmwares" (backend git compile)
    (request ty f) repo s.

End Sample.

End Firmware.

(* ================================================================== *)
(** ** The configurator view: validation of the firmware source *)

Module Ui.

(** Modelled from the spec: the pull request model is not among the
    sources; of its fields the validator reads [headCommitHash] only. *)
Record PullRequest : Type := mkPullRequest {
  pr_number : nat;
  pr_title : string;
  headCommitHash : string
}.

(** The generated input type: every string field may be missing. *)
Record FirmwareVersionDataInput : Type := mkInput {
  source : FirmwareSource;
  gitTag : option string;
  gitBranch : option string;
  gitCommit : option string;
  localPath : option string;
  gitPullRequest : option PullRequest
}.

(** [x && x.length > 0] *)
Definition filled (x : option string) : bool :=
  truthy x && match x with
              | Some s => Nat.ltb 0 (String.length s)
              | None => false
              end.

(** [pr && pr.headCommitHash.length > 0] *)
Definition filledPullRequest (pr : option PullRequest) : bool :=
  match pr with
  | Some p => Nat.ltb 0 (String.length (headCommitHash p))
  | None => false
  end.

(** [const errors = []; if (!ok) errors.push(new Error(msg)); return errors] *)
Definition check (ok : bool) (msg : string) : Outcome (list Exn) :=
  Ok (if negb ok then [] ++ [newError msg] else []).

Definition validateFirmwareVersionData (data : FirmwareVersionDataInput)
    : Outcome (list Exn) :=
  match source data with
  | Local => check (filled (localPath data)) "Local path is empty"
  | GitCommit => check (filled (gitCommit data)) "Git commit hash is empty"
  | GitBranch => check (filled (gitBranch data)) "Git branch is not selected"
  | GitTag => check (filled (gitTag data)) "Firmware release is not selected"
  | GitPullRequest =>
      check (filledPullRequest (gitPullRequest data))
        "Firmware Pull Request is not selected"
  | UnknownSource raw =>
      Raise (newError ("unknown firmware data source: " ++ raw))
  end.

(** The five variants the design document knows. *)
Definition knownSources : list FirmwareSource :=
  [Local; GitCommit; GitBranch; GitTag; GitPullRequest].

(** The required field of the selected variant, as the design document
    has it: the path, hash or name, and for a pull request its head
    commit hash. *)
Definition requiredField (data : FirmwareVersionDataInput) : option string :=
  match source data with
  | Local => localPath data
  | GitCommit => gitCommit data
  | GitBranch => gitBranch data
  | GitTag => gitTag data
  | GitPullRequest => option_map headCommitHash (gitPullRequest data)
  | UnknownSource _ => None
  end.

(** A field is empty when it is missing or the empty string. *)
Definition isBlank (x : option string) : Prop := x = None \/ x = Some "".

Definition branchNotChosen : FirmwareVersionDataInput :=
  mkInput GitBranch (Some "1.0.0") (Some "") (Some "9f1c2aa") (Some "/x") None.

End Ui.

(* ================================================================== *)
(** ** DeviceService: the device catalog *)

Module Device.

(** The double quote of the error messages. *)
Definition dq : string := String (Ascii.ascii_of_nat 34) EmptyString.

(** A TypeScript string enum as the object it compiles to: its members,
    name to value. *)
Definition Enum : Type := list (string * string).

(** The member of [E] named [k], if [E] declares one. *)
Fixpoint member (E : Enum) (k : string) : option string :=
  match E with
  | [] => None
  | (name, v) :: rest => if String.eqb name k then Some v else member rest k
  end.

(** [E[k]]: the member named [k]; or, the enum being an ordinary object,
    what [Object.prototype] has under that name; or [undefined]. *)
Definition enumGet (E : Enum) (k : string) : Property string :=
  match member E k with
  | Some v => Own v
  | None => if inherited k then Inherited k else Lacking
  end.

(** An item of [targets] in devices.json: the properties are strings when
    they are there. *)
Record TargetJSON : Type := mkTargetJSON {
  tj_name : Maybe string;
  tj_flashingMethod : Maybe string
}.

(** An item of [devices] in devices.json; any property may be missing or
    [null]. *)
Record DeviceJSON : Type := mkDeviceJSON {
  dj_name : Maybe string;
  dj_category : Maybe string;
  dj_targets : Maybe (list TargetJSON);
  dj_userDefines : Maybe (list string);
  dj_wikiUrl : Maybe string;
  dj_deviceType : Maybe string
}.

Record Target : Type := mkTarget {
  tg_name : Maybe string;
  flashingMethod : Property string
}.

Record Device : Type := mkDevice {
  id : Maybe string;
  name : Maybe string;
  category : Maybe string;
  targets : list Target;
  userDefines : list (Property string);
  wikiUrl : Maybe string;
  deviceType : Property string
}.

(** [xs.map(f)] for a callback that may throw: the first throw ends it. *)
Fixpoint mapT {A B} (f : A -> Outcome B) (xs : list A) : Outcome (list B) :=
  match xs with
  | [] => Ok []
  | x :: xs' =>
      match f x with
      | Raise e => Raise e
      | Ok y =>
          match mapT f xs' with
          | Raise e => Raise e
          | Ok ys => Ok (y :: ys)
          end
      end
  end.

(** [!xs || xs.length === 0] *)
Definition lacking {A} (xs : Maybe (list A)) : bool :=
  match xs with
  | Nil _ => true
  | Val l => Nat.eqb (List.length l) 0
  end.

(** The items of a list that is there. *)
Definition items {A} (xs : Maybe (list A)) : list A :=
  match xs with Val l => l | Nil _ => [] end.

Section Catalog.
(** The enums the catalog is parsed against; they are not among the
    sources. *)
Variable FlashingMethod : Enum.
Variable UserDefineKey : Enum.
Variable DeviceType : Enum.

Definition parseTarget (item : TargetJSON) : Outcome Target :=
  if negb (Maybe_truthy (tj_name item)) then
    Raise (newError "target must have a name property")
  else
    let flashingMethod :=
      enumGet FlashingMethod (render (tj_flashingMethod item)) in
    if negb (Property_truthy flashingMethod) then
      Raise (newError ("error parsing target " ++ dq
                       ++ render (tj_name item) ++ dq ++ ": " ++ dq
                       ++ render (tj_flashingMethod item) ++ dq
                       ++ " is not a valid flashing method"))
    else Ok (mkTarget (tj_name item) flashingMethod).

Definition parseUserDefine (item : string) : Outcome (Property string) :=
  let userDefineKey := enumGet UserDefineKey item in
  if negb (Property_truthy userDefineKey) then
    Raise (newError (dq ++ item ++ dq ++ " is not a valid User Define"))
  else Ok userDefineKey.

(** The body of [try { ... }] for one catalog entry. *)
Definition parseDevice (value : DeviceJSON) : Outcome Device :=
  if negb (Maybe_truthy (dj_name value)) then
    Raise (newError "all devices must have a name property!")
  else if negb (Maybe_truthy (dj_category value)) then
    Raise (newError "category property is required!")
  else if lacking (dj_targets value) then
    Raise (newError "devices must have a list of targets defined!")
  else if lacking (dj_userDefines value) then
    Raise (newError "devices must have a list of supported user defines!")
  else
    match mapT parseTarget (items (dj_targets value)) with
    | Raise e => Raise e
    | Ok targets =>
        match mapT parseUserDefine (items (dj_userDefines value)) with
        | Raise e => Raise e
        | Ok userDefines =>
            let deviceType :=
              enumGet DeviceType (render (dj_deviceType value)) in
            if negb (Property_truthy deviceType) then
              Raise (newError (dq ++ render (dj_deviceType value) ++ dq
                               ++ " is not a valid device type"))
            else
              Ok (mkDevice (dj_name value) (dj_name value)
                    (dj_category value) targets userDefines
                    (dj_wikiUrl value) deviceType)
        end
    end.

(** One callback of [DeviceJSON.devices.map]: the try block with its
    catch, which logs the message and throws it again.  The first
    component is what went to [logger.error]. *)
Definition loadDevice (value : DeviceJSON) : list string * Outcome Device :=
  match parseDevice value with
  | Ok device => ([], Ok device)
  | Raise error =>
      let errormessage :=
        ("Issue encountered while parsing device " ++ dq
         ++ render (dj_name value) ++ dq
         ++ " in the device configuration file devices.json: "
         ++ exn_message error)%string in
      ([errormessage], Raise (newError errormessage))
  end.

Fixpoint loadDevices (catalog : list DeviceJSON)
    : list string * Outcome (list Device) :=
  match catalog with
  | [] => ([], Ok [])
  | value :: rest =>
      match loadDevice value with
      | (l, Raise e) => (l, Raise e)
      | (l, Ok device) =>
          match loadDevices rest with
          | (l', Raise e) => (l ++ l', Raise e)
          | (l', Ok ds) => (l ++ l', Ok (device :: ds))
          end
      end
  end.

Record DeviceService : Type := mkDeviceService { devices : list Device }.

(** [constructor]: [this.devices = this.loadDevices()] *)
Definition newDeviceService (catalog : list DeviceJSON)
    : list string * Outcome DeviceService :=
  match loadDevices catalog with
  | (l, Ok ds) => (l, Ok (mkDeviceService ds))
  | (l, Raise e) => (l, Raise e)
  end.

Definition getDevices (this : DeviceService) : list Device := devices this.

(** What the design document asks of a catalog entry: a name that does
    not parse is one that is not a member of its enum. *)
Definition unparseable (E : Enum) (k : Maybe string) : Prop :=
  member E (render k) = None.

Definition lacks {A} (xs : Maybe (list A)) : Prop :=
  (exists n, xs = Nil n) \/ xs = Val [].

Definition defective (value : DeviceJSON) : Prop :=
  Maybe_truthy (dj_name value) = false
  \/ Maybe_truthy (dj_category value) = false
  \/ lacks (dj_targets value)
  \/ lacks (dj_userDefines value)
  \/ (exists item, In item (items (dj_targets value))
                   /\ unparseable FlashingMethod (tj_flashingMethod item))
  \/ (exists item, In item (items (dj_userDefines value))
                   /\ unparseable UserDefineKey (Val item))
  \/ unparseable DeviceType (dj_deviceType value).

Definition wellStocked (d : Device) : Prop :=
  targets d <> [] /\ userDefines d <> [].

(** What the checks of [loadDevices] do turn away: a name under which the
    enum object has nothing, or the empty string. *)
Definition turnedAway (E : Enum) (k : Maybe string) : Prop :=
  Property_truthy (enumGet E (render k)) = false.

Definition refused (value : DeviceJSON) : Prop :=
  Maybe_truthy (dj_name value) = false
  \/ Maybe_truthy (dj_category value) = false
  \/ lacks (dj_targets value)
  \/ lacks (dj_userDefines value)
  \/ (exists item, In item (items (dj_targets value))
                   /\ (Maybe_truthy (tj_name item) = false
                       \/ turnedAway FlashingMethod (tj_flashingMethod item)))
  \/ (exists item, In item (items (dj_userDefines value))
                   /\ turnedAway UserDefineKey (Val item))
  \/ turnedAway DeviceType (dj_deviceType value).

End Catalog.

Module Fixture.

Definition flashingMethods : Enum :=
  [("BetaflightPassthrough", "BetaflightPassthrough"); ("DFU", "DFU");
   ("STLink", "STLink"); ("UART", "UART"); ("WIFI", "WIFI")].

Definition userDefineKeys : Enum :=
  [("REGULATORY_DOMAIN_EU_868", "REGULATORY_DOMAIN_EU_868");
   ("BINDING_PHRASE", "BINDING_PHRASE")].

Definition deviceTypes : Enum :=
  [("ExpressLRS", "ExpressLRS"); ("Backpack", "Backpack")].

Definition es915tx : DeviceJSON :=
  mkDeviceJSON (Val "HappyModel ES915TX") (Val "Happymodel 900 MHz")
    (Val [mkTargetJSON (Val "HappyModel_ES915TX_via_STLINK") (Val "STLink");
          mkTargetJSON (Val "HappyModel_ES915TX_via_WIFI") (Val "WIFI")])
    (Val ["REGULATORY_DOMAIN_EU_868"; "BINDING_PHRASE"])
    (Val "https://www.expresslrs.org/") (Val "ExpressLRS").

(** An entry whose only target names a flashing method that does not
    exist. *)
Definition misspelt : DeviceJSON :=
  mkDeviceJSON (Val "DIY 2400 RX") (Val "DIY 2.4 GHz")
    (Val [mkTargetJSON (Val "DIY_2400_RX_via_UART") (Val "Uart")])
    (Val ["BINDING_PHRASE"]) (Nil Undefined) (Val "ExpressLRS").

(** An entry whose only target names, as its flashing method, something
    every object has. *)
Definition borrowed : DeviceJSON :=
  mkDeviceJSON (Val "DIY 2400 RX") (Val "DIY 2.4 GHz")
    (Val [mkTargetJSON (Val "DIY_2400_RX_via_UART") (Val "constructor")])
    (Val ["BINDING_PHRASE"]) (Nil Undefined) (Val "ExpressLRS").

(** An entry without a name, written as [null]. *)
Definition nameless : DeviceJSON :=
  mkDeviceJSON (Nil Null) (Val "DIY 2.4 GHz")
    (Val [mkTargetJSON (Val "DIY_2400_RX_via_UART") (Val "UART")])
    (Val ["BINDING_PHRASE"]) (Nil Undefined) (Val "ExpressLRS").

Definition load : list DeviceJSON -> list string * Outcome (list Device) :=
  loadDevices flashingMethods userDefineKeys deviceTypes.

End Fixture.

End Device.

(* ================================================================== *)
(** ** More readings of a run of the pipeline *)

Module Observe.
Import Firmware.

Definition isCalled (e : Entry) : bool :=
  match e with Called _ _ => true | _ => false end.

(** The calls the pipeline made, with what came back, in order. *)
Definition called (t : list Entry) : list Entry := filter isCalled t.

Definition isCheckPython (e : Entry) : bool :=
  match e with Called CheckPython _ => true | _ => false end.

Definition isCheckCore (e : Entry) : bool :=
  match e with Called CheckCore _ => true | _ => false end.

Definition isInstall (e : Entry) : bool :=
  match e with Called Install _ => true | _ => false end.

Definition isCompatibilityCheck (e : Entry) : bool :=
  match e with Called (CheckCompatibility _ _) _ => true | _ => false end.

Definition isUserDefinesTxt (e : Entry) : bool :=
  match e with Called (BuildUserDefinesTxt _) _ => true | _ => false end.

(** What an output callback leaves behind: log lines and publications
    nobody waits for. *)
Definition isBackground (e : Entry) : bool :=
  match e with Logged _ _ | Detached _ _ => true | _ => false end.

(** The chunks published from output callbacks, in order. *)
Definition chunkOf (e : Entry) : list string :=
  match e with Detached (PublishLogs data) _ => [data] | _ => [] end.

Definition streamed (t : list Entry) : list string := flat_map chunkOf t.

(** The chunks the install of Platformio handed to its output callback in
    the run that left [t]: none when the run made no install; otherwise
    those of the one install it made. *)
Definition installOutput {W} (B : Backend W) (t : list Entry)
    (chunks : list string) : Prop :=
  (filter isInstall t = [] /\ chunks = [])
  \/ exists w w1 o,
       platformio_install B w = (w1, (chunks, o))
       /\ filter isInstall t = [Called Install (answer VCommand o)].

(** The same for the compile. *)
Definition buildOutput {W} (B : Backend W) (t : list Entry)
    (chunks : list string) : Prop :=
  (filter isBuild t = [] /\ chunks = [])
  \/ exists tg defs p w w1 o,
       builder_build B tg defs p w = (w1, (chunks, o))
       /\ filter isBuild t
          = [Called (BuilderBuild tg defs p) (answer VCommand o)].

(** The same for the flash. *)
Definition flashOutput {W} (B : Backend W) (t : list Entry)
    (chunks : list string) : Prop :=
  (filter isFlash t = [] /\ chunks = [])
  \/ exists tg p w w1 o,
       builder_flash B tg p w = (w1, (chunks, o))
       /\ filter isFlash t = [Called (BuilderFlash tg p) (answer VCommand o)].

(** The two shapes of a result: done, with nothing to report but perhaps
    the binary; or failed, with a message and a kind, and no binary. *)
Definition wellFormed (r : BuildFlashFirmwareResult) : Prop :=
  (success r = true /\ message r = None /\ errorType r = None)
  \/ (success r = false /\ message r <> None /\ errorType r <> None
      /\ firmwareBinPath r = None).

(** [l] is the beginning of [full]. *)
Definition startOf {A} (l full : list A) : Prop := exists rest, full = l ++ rest.

Definition pythonDependencyError (r : CommandResult) : BuildFlashFirmwareResult :=
  mkResult false
    (Some ("Python dependency error: " ++ stderr r ++ " " ++ stdout r)%string)
    (Some PythonDependencyError) None.

Definition platformioDependencyError (r : CommandResult)
    : BuildFlashFirmwareResult :=
  mkResult false
    (Some ("platformio error: " ++ stderr r ++ " " ++ stdout r)%string)
    (Some PlatformioDependencyError) None.

Definition incompatibleError (c : CompatResult) : BuildFlashFirmwareResult :=
  mkResult false
    (Some ("Downloaded firmware is not compatible with the following user defines: "
           ++ String.concat "," (incompatibleKeys c))%string)
    (Some BuildError) None.

Definition flashError (r : CommandResult) : BuildFlashFirmwareResult :=
  mkResult false (Some (stderr r)) (Some FlashError) None.

(** A request with a variant the switches of the pipeline do not handle. *)
Definition unsupported (params : BuildFlashFirmwareParams) : Prop :=
  match source (firmware params) with
  | GitPullRequest | UnknownSource _ => True
  | _ => match userDefinesMode params with
         | UnknownMode _ => True
         | _ => False
         end
  end.

End Observe.

(** A toolchain on which the answer of every step can be set. *)
Module Bench.
Import Firmware.
Local Open Scope string_scope.

Record Toolchain : Type := mkToolchain {
  python : CommandResult;
  core : CommandResult;
  install : CommandResult;
  git : bool;
  compat : CompatResult;
  compile : CommandResult;
  flash : CommandResult
}.

Definition backend (T : Toolchain) : Backend unit :=
  mkBackend unit
    (fun _ => Sample.ok tt)
    (fun _ => Sample.ok tt)
    (Sample.ok (python T))
    (Sample.ok (core T))
    (fun w => (w, (["installing"], Ok (install T))))
    (fun _ => if git T then Sample.ok "/usr/bin/git"
              else Sample.ko "git not found")
    (fun dl _ ref => Sample.ok (baseDirectory dl ++ "/" ++ ref))
    (fun _ _ => Sample.ok (compat T))
    (fun uds => Sample.ok (Sample.renderDefines uds))
    (Sample.ok "{}")
    (fun _ _ _ w => (w, (["compiling"; "linking"], Ok (compile T))))
    (fun tg p => Sample.ok (p ++ "/.pio/build/" ++ tg ++ "/firmware.bin"))
    (fun _ _ w => (w, (["uploading"], Ok (flash T))))
    cannotRead.

Definition failed (what : string) : CommandResult :=
  mkCommandResult false "" what.

Definition sound : Toolchain :=
  mkToolchain Sample.done Sample.done Sample.done true (mkCompat true [])
    Sample.done Sample.done.

Definition noPython : Toolchain :=
  mkToolchain (failed "python3 not found") Sample.done Sample.done true
    (mkCompat true []) Sample.done Sample.done.

Definition noCore (installed : CommandResult) : Toolchain :=
  mkToolchain Sample.done (failed "platformio not found") installed true
    (mkCompat true []) Sample.done Sample.done.

Definition noGit : Toolchain :=
  mkToolchain Sample.done Sample.done Sample.done false (mkCompat true [])
    Sample.done Sample.done.

Definition oldFirmware : Toolchain :=
  mkToolchain Sample.done Sample.done Sample.done true
    (mkCompat false ["REGULATORY_DOMAIN_EU_868"]) Sample.done Sample.done.

Definition noPort : Toolchain :=
  mkToolchain Sample.done Sample.done Sample.done true (mkCompat true [])
    Sample.done (failed "could not open port").

Definition byHand (ty : BuildJobType) (f : FirmwareVersionData)
    : BuildFlashFirmwareParams :=
  mkParams ty f "HappyModel_ES915TX_via_STLINK" Manual []
    "-DREGULATORY_DOMAIN_EU_868".

Definition run (T : Toolchain) (params : BuildFlashFirmwareParams) :=
  buildFlashFirmware "/usr/bin" "/firmwares" (backend T) params Sample.repo
    Sample.idle.

(** The entries of a run. *)
Definition traceOf {S A} (r : S * list Entry * A) : list Entry := snd (fst r).

End Bench.

(* ================================================================== *)
(** ** The configurator view: state and handlers *)

Module View.

(** *** Progress notifications and logs *)

Section Console.
(** A progress notification as the subscription delivers it; the handlers
    only store it. *)
Variable N : Type.

(** [progressNotificationsRef], [progressNotifications],
    [lastProgressNotification], [logsRef] and [logs]. *)
Record Console : Type := mkConsole {
  progressNotificationsRef : list N;
  progressNotifications : list N;
  lastProgressNotification : option N;
  logsRef : list string;
  logs : string
}.

Definition initial : Console := mkConsole [] [] None [] "".

(** [onSubscriptionData] of the progress subscription; [args] is
    [options.subscriptionData.data?.buildProgressNotifications]. *)
Definition onProgress (args : option N) (c : Console) : Console :=
  match args with
  | Some a =>
      let newNotificationsList := progressNotificationsRef c ++ [a] in
      mkConsole newNotificationsList newNotificationsList (Some a)
        (logsRef c) (logs c)
  | None => c
  end.

(** The callback given to [eventsBatcherRef.current.onBatch]. *)
Definition onBatch (newLogs : list string) (c : Console) : Console :=
  let newLogsList := logsRef c ++ newLogs in
  mkConsole (progressNotificationsRef c) (progressNotifications c)
    (lastProgressNotification c) newLogsList (String.concat "" newLogsList).

(** The part of [reset] that clears the console. *)
Definition resetConsole (c : Console) : Console := mkConsole [] [] None [] "".

Inductive ConsoleEvent : Type :=
| Progress (args : option N)
| Batch (newLogs : list string)
| Reset.

Definition handle (c : Console) (ev : ConsoleEvent) : Console :=
  match ev with
  | Progress args => onProgress args c
  | Batch newLogs => onBatch newLogs c
  | Reset => resetConsole c
  end.

Definition handleAll (evs : list ConsoleEvent) (c : Console) : Console :=
  fold_left handle evs c.

(** The notifications an event sequence delivers since its last reset. *)
Definition delivered (evs : list ConsoleEvent) : list N :=
  fold_left
    (fun acc ev =>
       match ev with
       | Progress (Some a) => acc ++ [a]
       | Progress None => acc
       | Batch _ => acc
       | Reset => []
       end) evs [].

(** The chunks an event sequence brought since its last reset. *)
Definition batched (evs : list ConsoleEvent) : list string :=
  fold_left
    (fun acc ev =>
       match ev with
       | Progress _ => acc
       | Batch newLogs => acc ++ newLogs
       | Reset => []
       end) evs [].

(** The last element of a list, if any. *)
Definition lastOf {A} (l : list A) : option A :=
  match rev l with [] => None | a :: _ => Some a end.

End Console.

Arguments mkConsole {N}.
Arguments progressNotificationsRef {N}.
Arguments progressNotifications {N}.
Arguments lastProgressNotification {N}.
Arguments logsRef {N}.
Arguments logs {N}.
Arguments initial {N}.
Arguments onProgress {N}.
Arguments onBatch {N}.
Arguments resetConsole {N}.
Arguments Progress {N}.
Arguments Batch {N}.
Arguments Reset {N}.
Arguments handle {N}.
Arguments handleAll {N}.
Arguments delivered {N}.
Arguments batched {N}.

(** *** The Lua script of a transmitter target *)

(** [item.indexOf('_TX_') > -1] *)
Definition isTX (item : string) : bool :=
  match index 0 "_TX_" item with Some _ => true | None => false end.

Definition luaUrl (ref : string) : string :=
  "https://raw.githubusercontent.com/ExpressLRS/ExpressLRS/" ++ ref
  ++ "/src/lua/ELRS.lua".

(** [firmwareVersionData] as the effect below reads it: the refs go into
    a template literal, which tells a field that is [null] from one that
    is not there. *)
Record VersionRefs : Type := mkRefs {
  vr_source : FirmwareSource;
  vr_gitTag : Maybe string;
  vr_gitBranch : Maybe string;
  vr_gitCommit : Maybe string;
  vr_gitPullRequest : Maybe Ui.PullRequest
}.

(** [gitPullRequest?.headCommitHash] *)
Definition headOf (pr : Maybe Ui.PullRequest) : Maybe string :=
  match pr with
  | Val p => Val (Ui.headCommitHash p)
  | Nil _ => Nil Undefined
  end.

(** What the effect on [deviceTarget] and [firmwareVersionData] sets
    [luaScriptLocation] to, or the error it throws. *)
Definition luaScriptLocation (deviceTarget : option string)
    (firmwareVersionData : option VersionRefs) : Outcome string :=
  match deviceTarget, firmwareVersionData with
  | Some target, Some data =>
      if negb (isTX target) then Ok ""
      else
        match vr_source data with
        | Local => Ok ""
        | GitCommit => Ok (luaUrl (render (vr_gitCommit data)))
        | GitBranch => Ok (luaUrl (render (vr_gitBranch data)))
        | GitTag => Ok (luaUrl (render (vr_gitTag data)))
        | GitPullRequest =>
            Ok (luaUrl (render (headOf (vr_gitPullRequest data))))
        | UnknownSource raw =>
            Raise (newError ("unknown firmware data source: " ++ raw))
        end
  | _, _ => Ok ""
  end.

(** The ref the selected variant names. *)
Definition refOf (data : VersionRefs) : Maybe string :=
  match vr_source data with
  | GitTag => vr_gitTag data
  | GitBranch => vr_gitBranch data
  | GitCommit => vr_gitCommit data
  | GitPullRequest => headOf (vr_gitPullRequest data)
  | _ => Nil Undefined
  end.

(** *** Targets and the device they are flashed through *)

(** The flashing methods the view tells apart; any other is a string of
    its own. *)
Inductive FlashingMethod : Type :=
| BetaflightPassthrough | UART | WIFI
| OtherFlashingMethod (raw : string).

Record Target : Type := mkTarget {
  tg_name : string;
  flashingMethod : FlashingMethod
}.

(** A device of [availableFirmwareTargets]; the view reads its name and
    its targets. *)
Record Device : Type := mkDevice {
  dev_name : string;
  targets : list Target
}.

(** [item.name === deviceTarget] *)
Definition named (deviceTarget : option string) (item : Target) : bool :=
  match deviceTarget with
  | Some n => String.eqb (tg_name item) n
  | None => false
  end.

(** [deviceTargets?.forEach((device) => { target =
      device.targets.find(...) || target; })] *)
Definition selectedTarget (deviceTargets : option (list Device))
    (deviceTarget : option string) : option Target :=
  match deviceTargets with
  | None => None
  | Some devices =>
      fold_left
        (fun target device =>
           match find (named deviceTarget) (targets device) with
           | Some found => Some found
           | None => target
           end)
        devices None
  end.

(** What the effect on [deviceTarget] and [deviceTargets] sets
    [serialPortRequired] and [wifiDeviceRequired] to. *)
Definition serialPortRequiredFor (deviceTargets : option (list Device))
    (deviceTarget : option string) : bool :=
  match selectedTarget deviceTargets deviceTarget with
  | Some target =>
      match flashingMethod target with
      | BetaflightPassthrough | UART => true
      | _ => false
      end
  | None => false
  end.

Definition wifiDeviceRequiredFor (deviceTargets : option (list Device))
    (deviceTarget : option string) : bool :=
  match selectedTarget deviceTargets deviceTarget with
  | Some target =>
      match flashingMethod target with
      | WIFI => true
      | _ => false
      end
  | None => false
  end.

(** *** Sending a job *)

Inductive ViewState : Type := Configuration | Compiling.

Record DeviceOptionsFormData : Type := mkOptions {
  fd_userDefinesTxt : string;
  fd_userDefinesMode : UserDefinesMode;
  fd_userDefineOptions : list UserDefine
}.

Record GitRepository : Type := mkGitRepository {
  gr_url : string;
  gr_owner : string;
  gr_repositoryName : string;
  gr_rawRepoUrl : string;
  gr_srcFolder : string
}.

Record BuildFlashFirmwareInput : Type := mkInput {
  in_type : BuildJobType;
  in_firmware : Ui.FirmwareVersionDataInput;
  in_target : string;
  in_userDefinesTxt : string;
  in_userDefinesMode : UserDefinesMode;
  in_userDefines : list UserDefine;
  in_serialDevice : option string;
  in_gitRepository : GitRepository
}.

(** The state of the view that [sendJob] reads and writes. *)
Record Form : Type := mkForm {
  viewState : ViewState;
  currentJobType : BuildJobType;
  firmwareVersionData : option Ui.FirmwareVersionDataInput;
  firmwareVersionErrors : list Exn;
  deviceTarget : option string;
  deviceTargetErrors : list Exn;
  deviceOptionsFormData : option DeviceOptionsFormData;
  deviceOptionsValidationErrors : option (list Exn);
  serialPortRequired : bool;
  serialDevice : option string;
  wifiDeviceRequired : bool;
  wifiDevice : option string
}.

(** The part of [reset] that empties the three error lists. *)
Definition resetForm (f : Form) : Form :=
  mkForm (viewState f) (currentJobType f) (firmwareVersionData f) []
    (deviceTarget f) [] (deviceOptionsFormData f) (Some [])
    (serialPortRequired f) (serialDevice f) (wifiDeviceRequired f) (wifiDevice f).

Definition setCurrentJobType (ty : BuildJobType) (f : Form) : Form :=
  mkForm (viewState f) ty (firmwareVersionData f) (firmwareVersionErrors f)
    (deviceTarget f) (deviceTargetErrors f) (deviceOptionsFormData f)
    (deviceOptionsValidationErrors f)
    (serialPortRequired f) (serialDevice f) (wifiDeviceRequired f) (wifiDevice f).

Definition setFirmwareVersionErrors (es : list Exn) (f : Form) : Form :=
  mkForm (viewState f) (currentJobType f) (firmwareVersionData f) es
    (deviceTarget f) (deviceTargetErrors f) (deviceOptionsFormData f)
    (deviceOptionsValidationErrors f)
    (serialPortRequired f) (serialDevice f) (wifiDeviceRequired f) (wifiDevice f).

Definition setDeviceTargetErrors (es : list Exn) (f : Form) : Form :=
  mkForm (viewState f) (currentJobType f) (firmwareVersionData f)
    (firmwareVersionErrors f) (deviceTarget f) es (deviceOptionsFormData f)
    (deviceOptionsValidationErrors f)
    (serialPortRequired f) (serialDevice f) (wifiDeviceRequired f) (wifiDevice f).

Definition setDeviceOptionsValidationErrors (es : list Exn) (f : Form) : Form :=
  mkForm (viewState f) (currentJobType f) (firmwareVersionData f)
    (firmwareVersionErrors f) (deviceTarget f) (deviceTargetErrors f)
    (deviceOptionsFormData f) (Some es)
    (serialPortRequired f) (serialDevice f) (wifiDeviceRequired f) (wifiDevice f).

Definition setViewState (v : ViewState) (f : Form) : Form :=
  mkForm v (currentJobType f) (firmwareVersionData f)
    (firmwareVersionErrors f) (deviceTarget f) (deviceTargetErrors f)
    (deviceOptionsFormData f) (deviceOptionsValidationErrors f)
    (serialPortRequired f) (serialDevice f) (wifiDeviceRequired f) (wifiDevice f).

(** [uploadPort] of [sendJob]. *)
Definition uploadPort (f : Form) : option string :=
  match serialPortRequired f, serialDevice f with
  | true, Some port => Some port
  | _, _ =>
      match wifiDeviceRequired f, wifiDevice f with
      | true, Some port => Some port
      | _, _ => None
      end
  end.

(** [userDefineOptions.map((item) => ({ key, value, enabled, enumValues,
    type }))] *)
Definition copyUserDefine (item : UserDefine) : UserDefine :=
  mkUserDefine (ud_type item) (key item) (enabled item) (enumValues item)
    (value item).

Section SendJob.
(** [new UserDefinesValidator().validate], which is not among the sources,
    the repository the view was given, and the type of the progress
    notifications. *)
Variable validate : list UserDefine -> list Exn.
Variable gitRepo : GitRepository.
Variable N : Type.

(** [reset()] *)
Definition reset (v : Form * Console N) : Form * Console N :=
  (resetForm (fst v), resetConsole (snd v)).

(** [sendJob(type)]: the view afterwards, how the call ended, and the
    input of the mutation when one was sent. *)
Definition sendJob (ty : BuildJobType) (v : Form * Console N)
    : (Form * Console N) * Outcome unit * option BuildFlashFirmwareInput :=
  let f := setCurrentJobType ty (fst (reset v)) in
  let c := snd (reset v) in
  match firmwareVersionData f with
  | None =>
      ((setFirmwareVersionErrors [newError "Please select firmware source"] f,
        c), Ok tt, None)
  | Some data =>
      match Ui.validateFirmwareVersionData data with
      | Raise e => ((f, c), Raise e, None)
      | Ok sourceErrors =>
          if Nat.ltb 0 (List.length sourceErrors) then
            ((setFirmwareVersionErrors sourceErrors f, c), Ok tt, None)
          else
            match deviceTarget f with
            | None =>
                ((setDeviceTargetErrors
                    [newError "Please select a device target"] f, c),
                 Ok tt, None)
            | Some target =>
                match deviceOptionsFormData f with
                | None =>
                    ((setDeviceTargetErrors
                        [newError "Please configure your device options"] f,
                      c), Ok tt, None)
                | Some options =>
                    let errs :=
                      match fd_userDefinesMode options with
                      | UserInterface => validate (fd_userDefineOptions options)
                      | _ => []
                      end in
                    if Nat.ltb 0 (List.length errs) then
                      ((setDeviceOptionsValidationErrors errs f, c),
                       Ok tt, None)
                    else
                      ((setViewState Compiling f, c), Ok tt,
                       Some (mkInput ty data target
                               (fd_userDefinesTxt options)
                               (fd_userDefinesMode options)
                               (map copyUserDefine
                                  (fd_userDefineOptions options))
                               (uploadPort f) gitRepo))
                end
            end
      end
  end.

End SendJob.

(** *** Devices found on the network *)

(** A JavaScript object made by [{}] and used as a map from names to
    values, as the list of its own properties; its prototype is
    [Object.prototype].  Setting a name that is there replaces its value in
    place, setting a new name adds it at the end. *)
Definition Dict (V : Type) : Type := list (string * V).

(** The own property [k], when there is one. *)
Fixpoint own {V} (k : string) (d : Dict V) : option V :=
  match d with
  | [] => None
  | (k', v) :: rest => if String.eqb k' k then Some v else own k rest
  end.

(** [obj[k]]: the own property, or else what [Object.prototype] has under
    the name. *)
Definition get {V} (k : string) (d : Dict V) : Property V :=
  match own k d with
  | Some v => Own v
  | None => if inherited k then Inherited k else Lacking
  end.

Fixpoint put {V} (k : string) (v : V) (d : Dict V) : Dict V :=
  match d with
  | [] => [(k, v)]
  | (k', v') :: rest =>
      if String.eqb k' k then (k', v) :: rest else (k', v') :: put k v rest
  end.

(** [obj[k] = v] for an object [v].  Under every name but one this sets an
    own property.  The name "__proto__" is a setter of [Object.prototype]:
    the assignment stores nothing and gives [obj] the prototype [v], and
    what reading [obj] gives from then on is not what a [Dict] gives.  Such
    an object is not followed: the assignment has no result here. *)
Definition set {V} (k : string) (v : V) (d : Dict V) : option (Dict V) :=
  if String.eqb k "__proto__" then None else Some (put k v d).

(** [delete obj[k]]: of the own properties only. *)
Definition remove {V} (k : string) (d : Dict V) : Dict V :=
  filter (fun kv => negb (String.eqb (fst kv) k)) d.

Definition keys {V} (d : Dict V) : list string := map fst d.

(** Of a device found by multicast DNS the view reads its name, its
    address and the target its firmware was built for. *)
Record MulticastDnsInformation : Type := mkMulticastDns {
  mdns_name : string;
  mdns_ip : string;
  mdns_target : string
}.

Inductive MulticastDnsEventType : Type :=
| DeviceAdded | DeviceUpdated | DeviceRemoved
| OtherEvent (raw : string).

Record MulticastDnsMonitorUpdate : Type := mkUpdate {
  up_type : MulticastDnsEventType;
  up_data : MulticastDnsInformation
}.

(** [multicastDnsDevices] and [multicastDnsNewDevices]. *)
Record Network : Type := mkNetwork {
  multicastDnsDevices : Dict MulticastDnsInformation;
  multicastDnsNewDevices : list MulticastDnsInformation
}.

(** [forEach((item) => { obj[item.name] = item; })] *)
Fixpoint setAll (items : list MulticastDnsInformation)
    (d : Dict MulticastDnsInformation) : option (Dict MulticastDnsInformation) :=
  match items with
  | [] => Some d
  | item :: rest =>
      match set (mdns_name item) item d with
      | Some d' => setAll rest d'
      | None => None
      end
  end.

(** The effect on the answer of the list query, which writes into the
    object the state holds; no result when an assignment has none. *)
Definition onDevicesList (items : list MulticastDnsInformation) (n : Network)
    : option Network :=
  match setAll items (multicastDnsDevices n) with
  | Some d => Some (mkNetwork d (multicastDnsNewDevices n))
  | None => None
  end.

(** [onSubscriptionData] of the monitor subscription: the state after it,
    the copy made by [{ ...multicastDnsDevices }] being the own properties
    again; no result when an assignment has none. *)
Definition onMonitorUpdate (data : option MulticastDnsMonitorUpdate)
    (n : Network) : option Network :=
  match data with
  | None => Some n
  | Some update =>
      let multicastDnsDevicesCopy := multicastDnsDevices n in
      match up_type update with
      | DeviceAdded =>
          match set (mdns_name (up_data update)) (up_data update)
                  multicastDnsDevicesCopy with
          | Some copy =>
              Some (mkNetwork copy
                      (map (fun item => item) (multicastDnsNewDevices n)
                       ++ [up_data update]))
          | None => None
          end
      | DeviceUpdated =>
          match set (mdns_name (up_data update)) (up_data update)
                  multicastDnsDevicesCopy with
          | Some copy => Some (mkNetwork copy (multicastDnsNewDevices n))
          | None => None
          end
      | DeviceRemoved =>
          Some (mkNetwork
                  (remove (mdns_name (up_data update)) multicastDnsDevicesCopy)
                  (multicastDnsNewDevices n))
      | OtherEvent _ =>
          Some (mkNetwork multicastDnsDevicesCopy (multicastDnsNewDevices n))
      end
  end.

(** One update after another, each handled in the state the one before
    left. *)
Fixpoint onMonitorUpdates (updates : list MulticastDnsMonitorUpdate)
    (n : Network) : option Network :=
  match updates with
  | [] => Some n
  | update :: rest =>
      match onMonitorUpdate (Some update) n with
      | Some n' => onMonitorUpdates rest n'
      | None => None
      end
  end.

(** What a sequence of updates says about the name [k], given what was
    known of it before. *)
Definition lastWord (k : string) (updates : list MulticastDnsMonitorUpdate)
    (before : option MulticastDnsInformation)
    : option MulticastDnsInformation :=
  fold_left
    (fun known update =>
       if String.eqb (mdns_name (up_data update)) k then
         match up_type update with
         | DeviceAdded | DeviceUpdated => Some (up_data update)
         | DeviceRemoved => None
         | OtherEvent _ => known
         end
       else known)
    updates before.

(** The devices a sequence of updates announces. *)
Definition announced (updates : list MulticastDnsMonitorUpdate)
    : list MulticastDnsInformation :=
  flat_map
    (fun update =>
       match up_type update with
       | DeviceAdded => [up_data update]
       | _ => []
       end) updates.

(** No device of the updates is called "__proto__". *)
Definition plainNames (updates : list MulticastDnsMonitorUpdate) : Prop :=
  Forall (fun update => mdns_name (up_data update) <> "__proto__") updates.

Definition isWifi (target : Target) : bool :=
  match flashingMethod target with WIFI => true | _ => false end.

(** [device.targets.find((target) => target.flashingMethod === WIFI)] *)
Definition find_wifi (device : Device) : option Target :=
  find isWifi (targets device).

Section WifiDevice.
(** [String.prototype.toUpperCase]. *)
Variable toUpperCase : string -> string.
(** The engine's message for the TypeError of reading a property of
    [undefined]. *)
Variable unreadable : string -> string.

(** [target.name.toUpperCase().startsWith(targetName)] *)
Definition builtFor (targetName : string) (target : Target) : bool :=
  prefix targetName (toUpperCase (tg_name target)).

(** [onWifiDeviceChange(deviceName)]: what [deviceTarget] and [wifiDevice]
    are set to, or the error thrown before they are.  What the object has
    under an inherited name is a function, or [Object.prototype] itself:
    it has no [target]. *)
Definition onWifiDeviceChange (deviceTargets : option (list Device))
    (devices : Dict MulticastDnsInformation) (deviceName : string)
    : Outcome (option string * string) :=
  match get deviceName devices with
  | Lacking => Raise (typeError (unreadable "target"))
  | Inherited _ => Raise (typeError (unreadable "toUpperCase"))
  | Own dnsDevice =>
      let targetName := toUpperCase (mdns_target dnsDevice) in
      let device :=
        match deviceTargets with
        | None => None
        | Some items =>
            find (fun item =>
                    match find (builtFor targetName) (targets item) with
                    | Some _ => true
                    | None => false
                    end) items
        end in
      match device with
      | None => Ok (None, mdns_ip dnsDevice)
      | Some d =>
          if truthy (option_map tg_name (find_wifi d)) then
            Ok (option_map tg_name (find_wifi d), mdns_ip dnsDevice)
          else
            match targets d with
            | [] => Raise (typeError (unreadable "name"))
            | first :: _ =>
                Ok (if truthy (Some (tg_name first))
                    then Some (tg_name first) else None,
                    mdns_ip dnsDevice)
            end
      end
  end.

(** A listed device one of whose targets is built for what [d] reports. *)
Definition offers (d : MulticastDnsInformation) (device : Device) : bool :=
  existsb (builtFor (toUpperCase (mdns_target d))) (targets device).

End WifiDevice.

(** [x] is the first item of [l] that [p] holds of. *)
Definition firstThat {A} (p : A -> bool) (l : list A) (x : A) : Prop :=
  exists before after,
    l = before ++ x :: after
    /\ Forall (fun y => p y = false) before
    /\ p x = true.

End View.

(* ================================================================== *)
(** ** More readings of the device catalog *)

Module CatalogReading.
Import Device.

Section Reading.
Variable FlashingMethod : Enum.
Variable UserDefineKey : Enum.
Variable DeviceType : Enum.

(** The device [d] is the entry [value] with its names looked up in the
    enum objects. *)
Definition loadedFrom (value : DeviceJSON) (d : Device) : Prop :=
  id d = dj_name value
  /\ name d = dj_name value
  /\ category d = dj_category value
  /\ wikiUrl d = dj_wikiUrl value
  /\ map tg_name (targets d) = map tj_name (items (dj_targets value))
  /\ map flashingMethod (targets d)
     = map (fun item =>
              enumGet FlashingMethod (render (tj_flashingMethod item)))
         (items (dj_targets value))
  /\ userDefines d = map (enumGet UserDefineKey) (items (dj_userDefines value))
  /\ deviceType d = enumGet DeviceType (render (dj_deviceType value)).

(** The message the catch of [loadDevices] makes of an error [e] met on
    the entry [value]. *)
Definition issue (value : DeviceJSON) (e : Exn) : string :=
  ("Issue encountered while parsing device " ++ dq ++ render (dj_name value)
   ++ dq ++ " in the device configuration file devices.json: "
   ++ exn_message e)%string.

End Reading.

End CatalogReading.

(* ================================================================== *)
(** ** Facts about the pipeline *)

Module FirmwareFacts.
Import Firmware.

Lemma Only_flat_map {X} P (f : Entry -> list X) t :
  (forall e, P e = true -> f e = []) -> Only P t -> flat_map f t = [].
Proof.
  intros Hf H. induction H as [|e t He _ IH]; [reflexivity|].
  simpl. now rewrite (Hf e He), IH.
Qed.

Lemma Only_filter P q t :
  (forall e, P e = true -> q e = false) -> Only P t -> filter q t = [].
Proof.
  intros Hq H. induction H as [|e t He _ IH]; [reflexivity|].
  simpl. now rewrite (Hq e He), IH.
Qed.

Lemma In_kind (q : Entry -> bool) e t :
  In e t -> q e = true -> In e (filter q t).
Proof. intros. apply filter_In. auto. Qed.

Section Rules.
Context {W : Type}.
Implicit Types s : St W.

Lemma wp_pure {A} (a : A) s Q : Q s [] (Normal a) -> wp (pure a) s Q.
Proof. exact (fun H => H). Qed.

Lemma wp_ret {A} r s (Q : St W -> list Entry -> Completion A -> Prop) :
  Q s [] (Return r) -> wp (ret_ r) s Q.
Proof. exact (fun H => H). Qed.

Lemma wp_throw {A} e s (Q : St W -> list Entry -> Completion A -> Prop) :
  Q s [ThrowStmt e] (Throw (AnError e)) -> wp (throw e) s Q.
Proof. exact (fun H => H). Qed.

Lemma wp_log msg s Q :
  Q s [Logged LevelLog msg] (Normal tt) -> wp (logger_log msg) s Q.
Proof. exact (fun H => H). Qed.

Lemma wp_error msg s Q :
  Q s [Logged LevelError msg] (Normal tt) -> wp (logger_error msg) s Q.
Proof. exact (fun H => H). Qed.

Lemma wp_bind {A B} (m : M W A) (k : A -> M W B) s Q :
  wp m s (fun s1 t1 c =>
            match c with
            | Normal a => wp (k a) s1 (fun s2 t2 c2 => Q s2 (t1 ++ t2) c2)
            | Return r => Q s1 t1 (Return r)
            | Throw e => Q s1 t1 (Throw e)
            end) ->
  wp (bind m k) s Q.
Proof.
  unfold wp, bind. destruct (m s) as [[s1 t1] [a|r|e]]; auto.
  destruct (k a s1) as [[s2 t2] c2]. auto.
Qed.

(** Sequencing after a block of which only the kind of its entries
    matters when it completes normally: what follows is explored once,
    whatever way the block took. *)
Lemma wp_bind_join {A B} P (m : M W A) (k : A -> M W B) s Q :
  wp m s (fun s1 t1 c =>
            match c with
            | Normal a => mutex s1 = mutex s /\ Only P t1
            | Return r => Q s1 t1 (Return r)
            | Throw e => Q s1 t1 (Throw e)
            end) ->
  (forall w1 t1 a, Only P t1 ->
     wp (k a) (mkSt w1 (mutex s)) (fun s2 t2 c2 => Q s2 (t1 ++ t2) c2)) ->
  wp (bind m k) s Q.
Proof.
  unfold wp, bind. intros Hm Hk.
  destruct (m s) as [[[w1 m1] t1] [a|r|e]]; auto.
  destruct Hm as [Hmx Ht]. simpl in Hmx. subst m1.
  specialize (Hk w1 t1 a Ht).
  destruct (k a (mkSt w1 (mutex s))) as [[s2 t2] c2]. exact Hk.
Qed.

Lemma wp_call {A} c (inj : A -> Value) op s Q :
  (forall w1 o, op (world s) = (w1, o) ->
     Q (mkSt w1 (mutex s)) [Called c (answer inj o)] (complete o)) ->
  wp (call c inj op) s Q.
Proof.
  unfold wp, call. intros H. destruct (op (world s)) as [w1 o]. auto.
Qed.

Lemma wp_tryCatch {A} (m : M W A) h s Q :
  wp m s (fun s1 t1 c =>
            match c with
            | Throw e => wp (h e) s1 (fun s2 t2 c2 => Q s2 (t1 ++ t2) c2)
            | _ => Q s1 t1 c
            end) ->
  wp (tryCatch m h) s Q.
Proof.
  unfold wp, tryCatch. destruct (m s) as [[s1 t1] [a|r|e]]; auto.
  destruct (h e s1) as [[s2 t2] c2]. auto.
Qed.

Lemma wp_tryCatchFinally {A} (m : M W A) h f s Q :
  wp (tryCatch m h) s
     (fun s1 t1 c =>
        wp f s1 (fun s2 t2 cf =>
                   match cf with
                   | Normal _ => Q s2 (t1 ++ t2) c
                   | Return r => Q s2 (t1 ++ t2) (Return r)
                   | Throw e => Q s2 (t1 ++ t2) (Throw e)
                   end)) ->
  wp (tryCatchFinally m h f) s Q.
Proof.
  unfold wp, tryCatchFinally. destruct (tryCatch m h s) as [[s1 t1] c].
  destruct (f s1) as [[s2 t2] [u|r|e]]; auto.
Qed.

Lemma wp_isLocked s Q :
  Q s [] (Normal (Mutex.isLocked (mutex s))) -> wp mutex_isLocked s Q.
Proof. exact (fun H => H). Qed.

Lemma wp_tryLock s Q :
  Q (mkSt (world s) (fst (Mutex.tryLock (mutex s)))) []
    (Normal (snd (Mutex.tryLock (mutex s)))) ->
  wp mutex_tryLock s Q.
Proof.
  unfold wp, mutex_tryLock. destruct (Mutex.tryLock (mutex s)); auto.
Qed.

Lemma wp_unlock_held s Q :
  Mutex.isLocked (mutex s) = true ->
  Q (mkSt (world s) (Mutex.mk false)) [] (Normal tt) ->
  wp mutex_unlock s Q.
Proof.
  unfold wp, mutex_unlock, Mutex.unlock, Mutex.isLocked.
  intros ->. auto.
Qed.

Variable B : Backend W.

Lemma onOutput_run x s :
  onOutput B x s =
    (mkSt (fst (pubSub_publishLogs B x (world s))) (mutex s),
     [Logged LevelLog "logs stream output";
      Detached (PublishLogs x)
        (answer (fun _ => VUnit) (snd (pubSub_publishLogs B x (world s))))],
     Normal tt).
Proof.
  unfold onOutput, detach, updateLogs, bind, logger_log, call.
  destruct (pubSub_publishLogs B x (world s)) as [w1 o]. reflexivity.
Qed.

Lemma forEach_onOutput chunks s :
  exists w t,
    forEach chunks (onOutput B) s = (mkSt w (mutex s), t, Normal tt)
    /\ Only isIncidental t.
Proof.
  revert s. induction chunks as [|x xs IH]; intros s.
  - exists (world s), []. destruct s. split; [reflexivity|constructor].
  - simpl. unfold bind. rewrite onOutput_run.
    destruct (IH (mkSt (fst (pubSub_publishLogs B x (world s))) (mutex s)))
      as (w & t & E & Hb).
    simpl in E. rewrite E. eexists _, _. split; [reflexivity|].
    repeat constructor. exact Hb.
Qed.

(** A streaming command: whatever the callbacks did is incidental, and
    the command's own completion comes last. *)
Lemma wp_stream c op s Q :
  (forall w1 chunks o w2 t,
     op (world s) = (w1, (chunks, o)) -> Only isIncidental t ->
     Q (mkSt w2 (mutex s)) (t ++ [Called c (answer VCommand o)])
       (complete o)) ->
  wp (stream c op (onOutput B)) s Q.
Proof.
  unfold wp, stream. intros H.
  destruct (op (world s)) as [w1 [chunks o]] eqn:Hop.
  destruct (forEach_onOutput chunks (mkSt w1 (mutex s)))
    as (w2 & t & E & Hb).
  rewrite E. simpl. eapply H; eauto.
Qed.

Variable PATH firmwaresPath : string.

Lemma run_wp params gitRepo s Q :
  wp (buildFlashFirmware_body PATH firmwaresPath B params gitRepo) s
     (returning Q) ->
  forall s' t o,
    buildFlashFirmware PATH firmwaresPath B params gitRepo s = (s', t, o) ->
    Q s' t o.
Proof.
  unfold wp, buildFlashFirmware, returning.
  destruct (buildFlashFirmware_body PATH firmwaresPath B params gitRepo s)
    as [[s1 t1] [[]|r|e]]; intros H s' t o E; inversion E; subst; exact H.
Qed.

End Rules.

Ltac wp_red :=
  cbv beta iota zeta
      delta [complete answer world mutex returning fst snd
             Mutex.isLocked Mutex.tryLock Mutex.locked].

(** Keeps what is left to do out of the way while a statement runs. *)
Ltac wp_hide :=
  lazymatch goal with
  | |- wp _ _ ?Q => let p := fresh "post" in set (p := Q)
  end.

(** One step of symbolic execution. *)
Ltac wp_step :=
  lazymatch goal with
  | |- wp (bind _ _) _ _ => apply wp_bind; wp_hide
  | |- wp (pure _) _ _ => apply wp_pure
  | |- wp (ret_ _) _ _ => apply wp_ret
  | |- wp (throw _) _ _ => apply wp_throw
  | |- wp (readProperty _ _ ?e) _ _ =>
      unfold readProperty; try (is_var e; destruct e)
  | |- wp (logger_log _) _ _ => apply wp_log
  | |- wp (logger_error _) _ _ => apply wp_error
  | |- wp (call _ _ _) _ _ =>
      let w := fresh "w" in let o := fresh "o" in let H := fresh "Hop" in
      apply wp_call; intros w o H; destruct o
  | |- wp (stream _ _ _) _ _ =>
      let w := fresh "w" in let o := fresh "o" in let H := fresh "Hop" in
      let t := fresh "t" in let Hb := fresh "Hcb" in
      apply wp_stream; intros ? ? o w t H Hb; destruct o
  | |- wp (tryCatch _ _) _ _ => apply wp_tryCatch; wp_hide
  | |- wp (tryCatchFinally _ _ _) _ _ => apply wp_tryCatchFinally; wp_hide
  | |- wp mutex_isLocked _ _ => apply wp_isLocked
  | |- wp mutex_tryLock _ _ => apply wp_tryLock
  | |- wp mutex_unlock _ _ => apply wp_unlock_held; [reflexivity|]
  | |- wp (updateProgress _ _ _) _ _ => unfold updateProgress
  | |- wp (updateLogs _ _) _ _ => unfold updateLogs
  | |- wp (catchBlock _ _) _ _ => unfold catchBlock
  | |- wp (installPlatformio _) _ _ => unfold installPlatformio
  | |- wp (tryBlock _ _ _ _ _) _ _ => unfold tryBlock
  | |- wp (resolveFirmwarePath _ _ _ _) _ _ => unfold resolveFirmwarePath
  | |- wp (buildFlashFirmware_body _ _ _ _ _) _ _ =>
      unfold buildFlashFirmware_body
  | |- wp (if negb (cr_success ?r) then _ else _) _ _ =>
      let b := fresh "b" in
      destruct r as [b ? ?]; destruct b; cbn [negb cr_success]
  | |- wp (if negb (compatible ?r) then _ else _) _ _ =>
      let b := fresh "b" in
      destruct r as [b ?]; destruct b; cbn [negb compatible]
  | |- wp (match ?x with _ => _ end) _ _ =>
      lazymatch goal with
      | H : x = _ |- _ => rewrite H
      | _ => let E := fresh "E" in destruct x eqn:E
      end
  | |- _ /\ Only _ _ =>
      split;
      [ reflexivity
      | unfold Only in *; repeat rewrite Forall_app; repeat split;
        first [assumption | repeat constructor] ]
  | |- ?p _ _ _ => is_var p; subst p
  end.

(** The two blocks after which the paths are joined. *)
Ltac wp_join :=
  lazymatch goal with
  | |- wp (bind (if _ then installPlatformio _ else _) _) _ _ =>
      let t := fresh "t" in let H := fresh "Hinc" in
      apply (wp_bind_join isIncidental); [wp_hide|intros ? t ? H]
  | |- wp (bind (resolveFirmwarePath _ ?p _ _) _) _ _ =>
      lazymatch goal with
      | H : source (firmware p) = _ |- _ => fail
      | _ =>
          let t := fresh "t" in let H := fresh "Hres" in
          apply (wp_bind_join isResolution); [wp_hide|intros ? t ? H]
      end
  end.

(** Every path to its end. *)
Ltac wp_run := repeat (first [wp_join | wp_step]; wp_red).

(** Starts the exploration of a goal
    [forall s' t o, buildFlashFirmware ... s = (s', t, o) -> _]. *)
Ltac explore B PATH firmwaresPath params gitRepo :=
  refine (run_wp B PATH firmwaresPath params gitRepo _ _ _); wp_run.

Ltac kind_case :=
  let e := fresh "e" in
  intros e; destruct e as [? ?|[] []|? ?|?]; cbv; congruence.

Ltac trace_cbn :=
  cbn [app flat_map filter map In progressOf isRaise exnOf isFlash isCheckout
       isGitLookup isBuild pn_step firmwarePathOf checkoutRefOf
       isNullishThrow].

(** Brings a reading of a path's trace to the list of what it reads. *)
Ltac trace_norm :=
  unfold progressSteps, progressEvents, raised, firmwarePaths, checkoutRefs;
  repeat first
    [ progress trace_cbn
    | rewrite flat_map_app
    | rewrite filter_app
    | match goal with
      | H : Only ?P ?t |- context [flat_map ?f ?t] =>
          rewrite (Only_flat_map P f t ltac:(kind_case) H)
      | H : Only ?P ?t |- context [filter ?q ?t] =>
          rewrite (Only_filter P q t ltac:(kind_case) H)
      end ].

Ltac trace_norm_in H :=
  unfold progressSteps, progressEvents, raised, firmwarePaths, checkoutRefs
    in H;
  repeat first
    [ progress
        cbn [app flat_map filter map In progressOf isRaise exnOf isFlash
             isCheckout isGitLookup isBuild pn_step firmwarePathOf
             checkoutRefOf isNullishThrow] in H
    | rewrite flat_map_app in H
    | rewrite filter_app in H
    | match type of H with
      | context [flat_map ?f ?t] =>
          match goal with
          | Ho : Only ?P t |- _ =>
              rewrite (Only_flat_map P f t ltac:(kind_case) Ho) in H
          end
      | context [filter ?q ?t] =>
          match goal with
          | Ho : Only ?P t |- _ =>
              rewrite (Only_filter P q t ltac:(kind_case) Ho) in H
          end
      end ].

(** Finds the failed step that [H : filter isFailure _ = []] denies. *)
Ltac no_failure H :=
  first
    [ discriminate H
    | let H1 := fresh in
      let H2 := fresh in
      apply app_eq_nil in H; destruct H as [H1 H2];
      first [no_failure H1 | no_failure H2] ].

End FirmwareFacts.

(* ================================================================== *)
(** ** The build pipeline: properties *)

Module FirmwareLemmas.
Import Firmware FirmwareFacts.

Section Pipeline.
Context {W : Type}.
Variable PATH firmwaresPath : string.
Variable B : Backend W.

(** An accepted request leaves the guard free. *)
Lemma run_releases params gitRepo (s s' : St W) t o :
  Mutex.isLocked (mutex s) = false ->
  buildFlashFirmware PATH firmwaresPath B params gitRepo s = (s', t, o) ->
  Mutex.isLocked (mutex s') = false.
Proof.
  intros Hfree E. revert s' t o E. destruct s as [w [l]].
  simpl in Hfree. subst l.
  explore B PATH firmwaresPath params gitRepo.
  all: reflexivity.
Qed.

(** An accepted request gets as far as its first progress notification. *)
Lemma run_enters params gitRepo (s s' : St W) t o :
  Mutex.isLocked (mutex s) = false ->
  buildFlashFirmware PATH firmwaresPath B params gitRepo s = (s', t, o) ->
  exists rest, progressSteps t = VERIFYING_BUILD_SYSTEM :: rest.
Proof.
  intros Hfree E. revert s' t o E. destruct s as [w [l]].
  simpl in Hfree. subst l.
  explore B PATH firmwaresPath params gitRepo.
  all: trace_norm; eexists; reflexivity.
Qed.

(** A run that returns success=true published the steps of its job type,
    in order and each once. *)
Lemma progress_of_success params gitRepo (s s' : St W) t o r :
  buildFlashFirmware PATH firmwaresPath B params gitRepo s = (s', t, o) ->
  o = Ok r ->
  success r = true ->
  progressEvents t = map (mkProgress Info) (stepsOf (type params)).
Proof.
  intros E. revert r. revert s' t o E. destruct s as [w [[|]]].
  all: explore B PATH firmwaresPath params gitRepo.
  all: intros r' Hr Hs; inversion Hr; subst r'; try discriminate Hs.
  all: trace_norm; reflexivity.
Qed.

(** An accepted request no step of which fails returns success=true. *)
Lemma no_failed_step_succeeds params gitRepo (s s' : St W) t o :
  Mutex.isLocked (mutex s) = false ->
  buildFlashFirmware PATH firmwaresPath B params gitRepo s = (s', t, o) ->
  filter isFailure t = [] ->
  exists r, o = Ok r /\ success r = true.
Proof.
  intros Hfree E. revert s' t o E. destruct s as [w [l]].
  simpl in Hfree. subst l.
  explore B PATH firmwaresPath params gitRepo.
  all: intros H; repeat rewrite filter_app in H;
    cbn [filter isFailure app negb cr_success compatible] in H.
  all: try (eexists; split; reflexivity).
  all: no_failure H.
Qed.

(** The ref of every checkout is the one the arm of the source switch
    passes: the tag for GitTag, the branch for GitBranch, and the tag again
    for GitCommit; the other sources make no checkout. *)
Lemma checkout_ref_of_source params gitRepo (s s' : St W) t o ref :
  buildFlashFirmware PATH firmwaresPath B params gitRepo s = (s', t, o) ->
  In ref (checkoutRefs t) ->
  match source (firmware params) with
  | GitTag => ref = gitTag (firmware params)
  | GitBranch => ref = gitBranch (firmware params)
  | GitCommit => ref = gitTag (firmware params)
  | _ => False
  end.
Proof.
  intros E. revert s' t o E.
  destruct (source (firmware params)) eqn:Hsrc; destruct s as [w [[|]]].
  all: explore B PATH firmwaresPath params gitRepo.
  all: intros Hin; trace_norm_in Hin; intuition congruence.
Qed.

End Pipeline.
End FirmwareLemmas.

Import Firmware FirmwareFacts.

(** C1.  A request accepted by [buildFlashFirmware] (the guard was free at
    entry) leaves the guard released when the call returns, whatever the
    collaborators did: success, a typed failure, or an exception.  Hence
    the guard can be taken again, and the next request, whatever it is,
    enters the pipeline. *)
Theorem C1_guard_released_on_every_exit
    (W : Type) (PATH firmwaresPath : string) (B : Backend W)
    params gitRepo (s s' : St W) t o :
  Mutex.isLocked (mutex s) = false ->
  buildFlashFirmware PATH firmwaresPath B params gitRepo s = (s', t, o) ->
  Mutex.isLocked (mutex s') = false
  /\ Mutex.tryLock (mutex s') = (Mutex.mk true, true)
  /\ forall params2 gitRepo2 s2 t2 o2,
       buildFlashFirmware PATH firmwaresPath B params2 gitRepo2 s'
         = (s2, t2, o2) ->
       Mutex.isLocked (mutex s2) = false
       /\ exists rest, progressSteps t2 = VERIFYING_BUILD_SYSTEM :: rest.
Proof.
  intros Hfree E.
  pose proof (FirmwareLemmas.run_releases PATH firmwaresPath B _ _ _ _ _ _
                Hfree E) as Hrel.
  split; [exact Hrel|]. split.
  - unfold Mutex.tryLock. unfold Mutex.isLocked in Hrel. now rewrite Hrel.
  - intros params2 gitRepo2 s2 t2 o2 E2. split.
    + exact (FirmwareLemmas.run_releases PATH firmwaresPath B _ _ _ _ _ _
               Hrel E2).
    + exact (FirmwareLemmas.run_enters PATH firmwaresPath B _ _ _ _ _ _
               Hrel E2).
Qed.

(** A failed compile on an idle service leaves the guard free. *)
Lemma C1_witness :
  Mutex.isLocked (mutex Sample.idle) = false
  /\ Mutex.isLocked
       (mutex (fst (fst (Sample.run true Sample.linkError BuildAndFlash
                           Sample.tagged Sample.idle)))) = false.
Proof.
  split; [reflexivity|].
  refine (proj1 (C1_guard_released_on_every_exit unit "/usr/bin" "/firmwares"
                   (Sample.backend true Sample.linkError)
                   (Sample.request BuildAndFlash Sample.tagged) Sample.repo
                   Sample.idle _ _ _ _ _)).
  - reflexivity.
  - vm_compute. reflexivity.
Defined.

(** C2.  A request submitted while the guard is held is turned away at
    once: the result is success=false with GenericError, the service and
    the world are exactly as before (the guard still held by the build in
    flight), and nothing was published or called; only two log lines were
    written. *)
Theorem C2_busy_request_rejected
    (W : Type) (PATH firmwaresPath : string) (B : Backend W)
    params gitRepo (s : St W) :
  Mutex.isLocked (mutex s) = true ->
  buildFlashFirmware PATH firmwaresPath B params gitRepo s
  = (s,
     [Logged LevelLog "received build firmware request";
      Logged LevelError "there is another build/flash request in progress..."],
     Ok (mkResult false
           (Some "there is another build/flash request in progress...")
           (Some GenericError) None)).
Proof.
  destruct s as [w [l]]. simpl. intros ->. reflexivity.
Qed.

(** A request on a busy service. *)
Lemma C2_witness :
  Mutex.isLocked (mutex Sample.busy) = true
  /\ Sample.run true Sample.done Build Sample.tagged Sample.busy
     = (Sample.busy,
        [Logged LevelLog "received build firmware request";
         Logged LevelError "there is another build/flash request in progress..."],
        Ok (mkResult false
              (Some "there is another build/flash request in progress...")
              (Some GenericError) None)).
Proof.
  split; [reflexivity|].
  apply (C2_busy_request_rejected unit "/usr/bin" "/firmwares"
           (Sample.backend true Sample.done)
           (Sample.request Build Sample.tagged) Sample.repo Sample.busy).
  reflexivity.
Defined.

(** C3.  The request [Sample.pinned] selects GitCommit with
    gitCommit = "9f1c2aa" and gitTag = "1.0.0": the field matching the
    selected variant is "9f1c2aa", and the one checkout the pipeline makes
    is of "1.0.0", the gitTag field. *)
Theorem C3_git_commit_checks_out_git_tag :
  source Sample.pinned = GitCommit
  /\ fieldOfVariant Sample.pinned = Some "9f1c2aa"
  /\ checkoutRefs
       (snd (fst (Sample.run true Sample.done Build Sample.pinned Sample.idle)))
     = [gitTag Sample.pinned]
  /\ gitTag Sample.pinned <> gitCommit Sample.pinned.
Proof.
  repeat split; try (vm_compute; reflexivity). discriminate.
Qed.

(** C4.  On a request no step of which fails (it was accepted, no call
    threw, no command came back with success=false, the defines were
    compatible, no switch fell to its throwing default) the pipeline
    returns success=true; and whenever it returns success=true, the progress
    notifications it published are exactly, in order and each once,
    VerifyingBuildSystem, DownloadingFirmware, BuildingUserDefines,
    BuildingFirmware for jobType=Build, and those four followed by
    FlashingFirmware for jobType=BuildAndFlash, all of type Info. *)
Theorem C4_progress_sequence
    (W : Type) (PATH firmwaresPath : string) (B : Backend W)
    params gitRepo (s s' : St W) t o :
  buildFlashFirmware PATH firmwaresPath B params gitRepo s = (s', t, o) ->
  (Mutex.isLocked (mutex s) = false ->
   filter isFailure t = [] ->
   progressEvents t = map (mkProgress Info) (stepsOf (type params)))
  /\ (forall r,
        o = Ok r -> success r = true ->
        progressEvents t = map (mkProgress Info) (stepsOf (type params))).
Proof.
  intros E. split.
  - intros Hfree Hnone.
    destruct (FirmwareLemmas.no_failed_step_succeeds PATH firmwaresPath B
                _ _ _ _ _ _ Hfree E Hnone) as (r & Hr & Hs).
    exact (FirmwareLemmas.progress_of_success PATH firmwaresPath B
             _ _ _ _ _ _ _ E Hr Hs).
  - intros r Hr Hs.
    exact (FirmwareLemmas.progress_of_success PATH firmwaresPath B
             _ _ _ _ _ _ _ E Hr Hs).
Qed.

(** A BuildAndFlash of a tag on a toolchain that works. *)
Lemma C4_witness :
  progressEvents
    (snd (fst (Sample.run true Sample.done BuildAndFlash Sample.tagged
                 Sample.idle)))
  = map (mkProgress Info)
      [VERIFYING_BUILD_SYSTEM; DOWNLOADING_FIRMWARE; BUILDING_USER_DEFINES;
       BUILDING_FIRMWARE; FLASHING_FIRMWARE].
Proof.
  refine (proj1 (C4_progress_sequence unit "/usr/bin" "/firmwares"
                   (Sample.backend true Sample.done)
                   (Sample.request BuildAndFlash Sample.tagged) Sample.repo
                   Sample.idle _ _ _ _) _ _).
  - vm_compute. reflexivity.
  - reflexivity.
  - vm_compute. reflexivity.
Defined.

(** The end-to-end scenario of the design document: a Build of a tag with
    one enabled define, on a toolchain that works, gives the path of the
    binary and stops after BuildingFirmware. *)
Example build_of_a_tag :
  snd (Sample.run true Sample.done Build Sample.tagged Sample.idle)
  = Ok (mkResult true None None
          (Some "/firmwares/1.0.0/.pio/build/HappyModel_ES915TX_via_STLINK/firmware.bin"))
  /\ progressSteps
       (snd (fst (Sample.run true Sample.done Build Sample.tagged Sample.idle)))
     = [VERIFYING_BUILD_SYSTEM; DOWNLOADING_FIRMWARE; BUILDING_USER_DEFINES;
        BUILDING_FIRMWARE].
Proof. split; vm_compute; reflexivity. Qed.

(** C5.  When the compile operation of the builder was called and came
    back with success=false, [buildFlashFirmware] returns success=false,
    errorType=BuildError and, as message, the stderr of the compile
    operation as it is; and no flash was attempted. *)
Theorem C5_compile_failure
    (W : Type) (PATH firmwaresPath : string) (B : Backend W)
    params gitRepo (s s' : St W) t o tg defs path cr :
  buildFlashFirmware PATH firmwaresPath B params gitRepo s = (s', t, o) ->
  In (Called (BuilderBuild tg defs path) (Gave (VCommand cr))) t ->
  cr_success cr = false ->
  o = Ok (mkResult false (Some (stderr cr)) (Some BuildError) None)
  /\ filter isFlash t = [].
Proof.
  intros E. revert s' t o E. destruct s as [w [[|]]].
  all: explore B PATH firmwaresPath params gitRepo.
  all: intros Hin Hcr; apply In_kind with (q := isBuild) in Hin;
    [|reflexivity]; trace_norm_in Hin.
  all: try (exfalso; exact Hin).
  all: destruct Hin as [Hin|[]]; inversion Hin; subst; try discriminate Hcr.
  all: split; [reflexivity|trace_norm; reflexivity].
Qed.

(** A BuildAndFlash whose compile ends in a link error. *)
Lemma C5_witness :
  snd (Sample.run true Sample.linkError BuildAndFlash Sample.tagged Sample.idle)
  = Ok (mkResult false (Some "undefined reference") (Some BuildError) None)
  /\ filter isFlash
       (snd (fst (Sample.run true Sample.linkError BuildAndFlash Sample.tagged
                    Sample.idle))) = [].
Proof.
  refine (C5_compile_failure unit "/usr/bin" "/firmwares"
            (Sample.backend true Sample.linkError)
            (Sample.request BuildAndFlash Sample.tagged) Sample.repo
            Sample.idle _ _ _
            "HappyModel_ES915TX_via_STLINK" "-DREGULATORY_DOMAIN_EU_868"
            "/firmwares/1.0.0" Sample.linkError _ _ _).
  - vm_compute. reflexivity.
  - vm_compute. tauto.
  - reflexivity.
Defined.

(** C6, as stated, fails: with no git executable on the search path the
    lookup throws inside the pipeline, after the guard was taken, and the
    result carries GitDependencyError, not GenericError.  And a rejection
    that carries no value leaves the method as an exception: the catch
    block reads a property of what it caught before it builds the
    result. *)
Lemma C6_counterexample :
  raised (snd (fst (Sample.run false Sample.done Build Sample.tagged
                      Sample.idle)))
  = [Called (FindGitExecutable "/usr/bin")
       (Threw (AnError (newError "git not found")))]
  /\ snd (Sample.run false Sample.done Build Sample.tagged Sample.idle)
     = Ok (mkResult false (Some "Error: git not found")
             (Some GitDependencyError) None)
  /\ ~ (exists r,
          snd (Sample.run false Sample.done Build Sample.tagged Sample.idle)
          = Ok r
          /\ errorType r = Some GenericError)
  /\ snd (buildFlashFirmware "/usr/bin" "/firmwares"
            (Sample.unreasoned (Some Undefined) None)
            (Sample.request Build Sample.tagged) Sample.repo Sample.idle)
     = Raise (AnError (typeError (cannotRead "trace" Undefined))).
Proof.
  split; [vm_compute; reflexivity|]. split; [vm_compute; reflexivity|].
  split; [|vm_compute; reflexivity].
  intros [r [Hr He]]. vm_compute in Hr. inversion Hr. subst r.
  discriminate He.
Qed.

(** C6, amended.  In a run in which nothing is thrown that is [undefined]
    or [null], no exception leaves [buildFlashFirmware]: it returns a
    result.  At most one exception is thrown inside the pipeline in such a
    run, and it becomes that result: from the lookup of the git
    executable, success=false with GitDependencyError and the exception's
    description as message; from anywhere else (a collaborator the pipeline
    waits for, or the throwing default arm of the source or user-defines
    switch), success=false with GenericError and the message "Error: "
    followed by the exception's description. *)
Theorem C6_exceptions_become_results
    (W : Type) (PATH firmwaresPath : string) (B : Backend W)
    params gitRepo (s s' : St W) t o :
  buildFlashFirmware PATH firmwaresPath B params gitRepo s = (s', t, o) ->
  filter isNullishThrow t = [] ->
  exists r,
    o = Ok r
    /\ (raised t = []
        \/ exists x e,
             raised t = [x] /\ exnOf x = Some (AnError e)
             /\ r = if isGitLookup x then gitDependencyError e
                    else genericError e).
Proof.
  intros E. revert s' t o E. destruct s as [w [[|]]].
  all: explore B PATH firmwaresPath params gitRepo.
  all: intros Hnone; trace_norm_in Hnone; try discriminate Hnone.
  all: eexists; split; [reflexivity|]; trace_norm.
  all: first [ left; reflexivity
             | right; eexists _, _; repeat split; reflexivity ].
Qed.

(** A request for a source the switch does not handle. *)
Lemma C6_witness :
  exists r,
    snd (Sample.run true Sample.done Build Sample.proposed Sample.idle) = Ok r
    /\ (raised (snd (fst (Sample.run true Sample.done Build Sample.proposed
                            Sample.idle))) = []
        \/ exists x e,
             raised (snd (fst (Sample.run true Sample.done Build
                                 Sample.proposed Sample.idle))) = [x]
             /\ exnOf x = Some (AnError e)
             /\ r = if isGitLookup x then gitDependencyError e
                    else genericError e).
Proof.
  refine (C6_exceptions_become_results unit "/usr/bin" "/firmwares"
            (Sample.backend true Sample.done)
            (Sample.request Build Sample.proposed) Sample.repo
            Sample.idle _ _ _ _ _).
  - vm_compute. reflexivity.
  - vm_compute. reflexivity.
Defined.

(** A source outside the switch ends in GenericError with the description
    of the thrown error. *)
Example unsupported_source_is_generic_error :
  snd (Sample.run true Sample.done Build Sample.proposed Sample.idle)
  = Ok (mkResult false
          (Some "Error: Error: unsupported firmware source: GitPullRequest")
          (Some GenericError) None).
Proof. vm_compute. reflexivity. Qed.

(** C7, as stated, fails: a build from a local path looks the git
    executable up all the same, and without git on the search path it ends
    in GitDependencyError before the local path is ever used. *)
Lemma C7_counterexample :
  source Sample.onDisk = Local
  /\ filter isGitLookup
       (snd (fst (Sample.run true Sample.done Build Sample.onDisk Sample.idle)))
     = [Called (FindGitExecutable "/usr/bin") (Gave (VString "/usr/bin/git"))]
  /\ snd (Sample.run false Sample.done Build Sample.onDisk Sample.idle)
     = Ok (mkResult false (Some "Error: git not found")
             (Some GitDependencyError) None).
Proof. repeat split; vm_compute; reflexivity. Qed.

(** C7, amended.  For a request whose source is Local the pipeline makes no
    checkout, and every call that takes the firmware path (compatibility
    check, compile, binary path, flash) is given the [localPath] of the
    request as it is; nothing else is done with the path.  The lookup of
    the git executable is not skipped: a run that reaches the download step
    has made it, once, on the service's search path, and a run in which
    the lookup throws an error ends there, with GitDependencyError and the
    description of the error as message, before the download step. *)
Theorem C7_local_source_used_as_is
    (W : Type) (PATH firmwaresPath : string) (B : Backend W)
    params gitRepo (s s' : St W) t o :
  source (firmware params) = Local ->
  buildFlashFirmware PATH firmwaresPath B params gitRepo s = (s', t, o) ->
  filter isCheckout t = []
  /\ (forall p, In p (firmwarePaths t) -> p = localPath (firmware params))
  /\ (In DOWNLOADING_FIRMWARE (progressSteps t) ->
      exists a, filter isGitLookup t = [Called (FindGitExecutable PATH) a])
  /\ (forall p e,
        In (Called (FindGitExecutable p) (Threw (AnError e))) t ->
        o = Ok (gitDependencyError e)
        /\ ~ In DOWNLOADING_FIRMWARE (progressSteps t)).
Proof.
  intros Hsrc E. revert s' t o E. destruct s as [w [[|]]].
  all: explore B PATH firmwaresPath params gitRepo.
  all: split; [trace_norm; reflexivity|].
  all: split; [intros ? Hp; trace_norm_in Hp; intuition congruence|].
  all: split.
  all: lazymatch goal with
       | |- In _ _ -> _ =>
           intros Hd; trace_norm_in Hd; trace_norm;
           first [ exfalso; intuition discriminate | eexists; reflexivity ]
       | |- _ =>
           intros ? ? Hin; apply (In_kind isGitLookup) in Hin; [|reflexivity];
           trace_norm_in Hin; try contradiction
       end.
  all: destruct Hin as [Hin|[]]; inversion Hin; subst.
  all: split; [reflexivity|].
  all: intros Hd; trace_norm_in Hd; intuition discriminate.
Qed.

(** A BuildAndFlash from the local path /x. *)
Lemma C7_witness :
  filter isCheckout
    (snd (fst (Sample.run true Sample.done BuildAndFlash Sample.onDisk
                 Sample.idle))) = []
  /\ (forall p,
        In p (firmwarePaths
                (snd (fst (Sample.run true Sample.done BuildAndFlash
                             Sample.onDisk Sample.idle)))) ->
        p = "/x")
  /\ (In DOWNLOADING_FIRMWARE
        (progressSteps
           (snd (fst (Sample.run true Sample.done BuildAndFlash Sample.onDisk
                        Sample.idle)))) ->
      exists a,
        filter isGitLookup
          (snd (fst (Sample.run true Sample.done BuildAndFlash Sample.onDisk
                       Sample.idle)))
        = [Called (FindGitExecutable "/usr/bin") a])
  /\ (forall p e,
        In (Called (FindGitExecutable p) (Threw (AnError e)))
          (snd (fst (Sample.run true Sample.done BuildAndFlash Sample.onDisk
                       Sample.idle))) ->
        snd (Sample.run true Sample.done BuildAndFlash Sample.onDisk
               Sample.idle)
        = Ok (gitDependencyError e)
        /\ ~ In DOWNLOADING_FIRMWARE
               (progressSteps
                  (snd (fst (Sample.run true Sample.done BuildAndFlash
                               Sample.onDisk Sample.idle))))).
Proof.
  refine (C7_local_source_used_as_is unit "/usr/bin" "/firmwares"
            (Sample.backend true Sample.done)
            (Sample.request BuildAndFlash Sample.onDisk) Sample.repo
            Sample.idle _ _ _ _ _).
  - reflexivity.
  - vm_compute. reflexivity.
Defined.

(** C10.  A BuildAndFlash request whose compile and flash both came back
    with success=true returns success=true and nothing else: no message,
    no errorType, no firmwareBinPath.  A successful result carries a
    firmwareBinPath only when jobType=Build. *)
Theorem C10_binary_path_only_for_build
    (W : Type) (PATH firmwaresPath : string) (B : Backend W)
    params gitRepo (s s' : St W) t o :
  buildFlashFirmware PATH firmwaresPath B params gitRepo s = (s', t, o) ->
  (type params = BuildAndFlash ->
   forall tg defs path cr tg' path' fr,
     In (Called (BuilderBuild tg defs path) (Gave (VCommand cr))) t ->
     cr_success cr = true ->
     In (Called (BuilderFlash tg' path') (Gave (VCommand fr))) t ->
     cr_success fr = true ->
     o = Ok (mkResult true None None None))
  /\ (forall r p,
        o = Ok r -> success r = true -> firmwareBinPath r = Some p ->
        type params = Build).
Proof.
  intros E. revert s' t o E. destruct s as [w [[|]]].
  all: explore B PATH firmwaresPath params gitRepo.
  all: split;
    [ intros Hty tg defs path cr tg' path' fr Hb Hcr Hf Hfr;
      apply In_kind with (q := isFlash) in Hf; [|reflexivity];
      trace_norm_in Hf; try (exfalso; exact Hf);
      destruct Hf as [Hf|[]]; inversion Hf; subst; try discriminate Hfr;
      reflexivity
    | intros r p Hr Hs Hp; inversion Hr; subst r; try discriminate Hp;
      try discriminate Hs; reflexivity ].
Qed.

(** A BuildAndFlash of a tag on a toolchain that works: no binary path. *)
Lemma C10_witness :
  snd (Sample.run true Sample.done BuildAndFlash Sample.tagged Sample.idle)
  = Ok (mkResult true None None None).
Proof.
  refine (proj1 (C10_binary_path_only_for_build unit "/usr/bin" "/firmwares"
                   (Sample.backend true Sample.done)
                   (Sample.request BuildAndFlash Sample.tagged) Sample.repo
                   Sample.idle _ _ _ _)
            _ "HappyModel_ES915TX_via_STLINK" "-DREGULATORY_DOMAIN_EU_868"
            "/firmwares/1.0.0" Sample.done
            "HappyModel_ES915TX_via_STLINK" "/firmwares/1.0.0" Sample.done
            _ _ _ _).
  - vm_compute. reflexivity.
  - reflexivity.
  - vm_compute. tauto.
  - reflexivity.
  - vm_compute. tauto.
  - reflexivity.
Defined.

(* ================================================================== *)
(** ** Validation of the firmware source: properties *)

Module UiFacts.
Import Ui.

Lemma filled_blank (x : option string) : filled x = false <-> isBlank x.
Proof.
  unfold isBlank. destruct x as [[|c s]|]; simpl; split; intros H; auto;
    try discriminate; destruct H as [H|H]; discriminate.
Qed.

Lemma check_errors (ok : bool) (msg : string) :
  exists errors,
    check ok msg = Ok errors /\ (errors <> [] <-> ok = false).
Proof.
  unfold check. destruct ok; simpl; eexists; (split; [reflexivity|]);
    split; intros H; congruence.
Qed.

(** What the validator reads: the source and the required field of the
    selected variant. *)
Lemma validate_reads (data : FirmwareVersionDataInput) :
  validateFirmwareVersionData data
  = match source data with
    | Local => check (filled (requiredField data)) "Local path is empty"
    | GitCommit =>
        check (filled (requiredField data)) "Git commit hash is empty"
    | GitBranch =>
        check (filled (requiredField data)) "Git branch is not selected"
    | GitTag =>
        check (filled (requiredField data)) "Firmware release is not selected"
    | GitPullRequest =>
        check (filled (requiredField data))
          "Firmware Pull Request is not selected"
    | UnknownSource raw =>
        Raise (newError ("unknown firmware data source: " ++ raw))
    end.
Proof.
  unfold validateFirmwareVersionData, requiredField.
  destruct (source data); try reflexivity.
  destruct (gitPullRequest data) as [[n ti [|c s]]|]; reflexivity.
Qed.

End UiFacts.

(** C8.  For an input whose source is one of the five known variants,
    [validateFirmwareVersionData] returns a list of errors and does not
    throw; the list is non-empty exactly when the required field of the
    selected variant is missing or empty; and the fields of the other
    variants do not matter: an input with the same source and the same
    required field gets the same answer. *)
Theorem C8_validation_reads_selected_field (data : Ui.FirmwareVersionDataInput) :
  In (Ui.source data) Ui.knownSources ->
  exists errors,
    Ui.validateFirmwareVersionData data = Ok errors
    /\ (errors <> [] <-> Ui.isBlank (Ui.requiredField data))
    /\ forall data',
         Ui.source data' = Ui.source data ->
         Ui.requiredField data' = Ui.requiredField data ->
         Ui.validateFirmwareVersionData data' = Ok errors.
Proof.
  intros Hknown.
  assert (Hsame : forall data',
             Ui.source data' = Ui.source data ->
             Ui.requiredField data' = Ui.requiredField data ->
             Ui.validateFirmwareVersionData data'
             = Ui.validateFirmwareVersionData data).
  { intros data' Hs Hf. rewrite !UiFacts.validate_reads, Hs, Hf. reflexivity. }
  rewrite UiFacts.validate_reads in *.
  destruct (Ui.source data) eqn:Hsrc;
    try (simpl in Hknown; exfalso; intuition discriminate).
  all: match goal with
       | |- context [Ui.check ?b ?m] =>
           destruct (UiFacts.check_errors b m) as (errors & Hc & Hne)
       end.
  all: exists errors; rewrite Hc in *; split; [reflexivity|]; split;
    [ rewrite Hne; apply UiFacts.filled_blank
    | intros data' Hs Hf; rewrite (Hsame data' Hs Hf); reflexivity ].
Qed.

(** GitBranch with an empty branch and every other field filled. *)
Lemma C8_witness :
  In (Ui.source Ui.branchNotChosen) Ui.knownSources
  /\ exists errors,
       Ui.validateFirmwareVersionData Ui.branchNotChosen = Ok errors
       /\ (errors <> [] <-> Ui.isBlank (Ui.requiredField Ui.branchNotChosen))
       /\ forall data',
            Ui.source data' = Ui.source Ui.branchNotChosen ->
            Ui.requiredField data' = Ui.requiredField Ui.branchNotChosen ->
            Ui.validateFirmwareVersionData data' = Ok errors.
Proof.
  split; [simpl; tauto|].
  apply (C8_validation_reads_selected_field Ui.branchNotChosen).
  simpl. tauto.
Defined.

(** The example of the design document: GitBranch with an empty branch is
    turned down with a message that says so, whatever the other fields. *)
Example empty_branch_is_rejected :
  Ui.validateFirmwareVersionData Ui.branchNotChosen
  = Ok [newError "Git branch is not selected"].
Proof. reflexivity. Qed.

(* ================================================================== *)
(** ** The device catalog: properties *)

Module DeviceFacts.
Import Device.

Lemma mapT_ok_length {A B} (f : A -> Outcome B) xs ys :
  mapT f xs = Ok ys -> List.length ys = List.length xs.
Proof.
  revert ys. induction xs as [|x xs IH]; intros ys H; simpl in H.
  - inversion H. reflexivity.
  - destruct (f x) as [y|e]; [|discriminate].
    destruct (mapT f xs) as [ys'|e]; [|discriminate].
    inversion H. simpl. now rewrite (IH ys').
Qed.

Lemma mapT_ok_each {A B} (f : A -> Outcome B) xs ys :
  mapT f xs = Ok ys -> forall x, In x xs -> exists y, f x = Ok y.
Proof.
  revert ys. induction xs as [|x xs IH]; intros ys H z Hz; simpl in H.
  - destruct Hz.
  - destruct (f x) as [y|e] eqn:Hx; [|discriminate].
    destruct (mapT f xs) as [ys'|e]; [|discriminate].
    destruct Hz as [<-|Hz]; [eauto|]. eapply IH; eauto.
Qed.

(** A map that throws throws what one of its items threw. *)
Lemma mapT_raise {A B} (f : A -> Outcome B) xs e :
  mapT f xs = Raise e -> exists x, In x xs /\ f x = Raise e.
Proof.
  induction xs as [|x xs IH]; simpl; intros H; [discriminate|].
  destruct (f x) as [y|e'] eqn:Hx.
  - destruct (mapT f xs) as [ys|e'']; [discriminate|].
    inversion H. subst e''. destruct (IH eq_refl) as (z & Hz & Hfz).
    exists z. auto.
  - inversion H. subst e'. exists x. auto.
Qed.

Lemma lacking_false {A} (xs : Maybe (list A)) :
  lacking xs = false -> exists l, xs = Val l /\ l <> [].
Proof.
  destruct xs as [n|[|x l]]; simpl; intros H; try discriminate.
  exists (x :: l). split; [reflexivity|discriminate].
Qed.

Lemma lacking_true {A} (xs : Maybe (list A)) : lacking xs = true -> lacks xs.
Proof.
  destruct xs as [n|[|x l]]; simpl; intros H; try discriminate.
  - left. eauto.
  - now right.
Qed.

Lemma lacks_lacking {A} (xs : Maybe (list A)) : lacks xs -> lacking xs = true.
Proof. intros [[n ->]| ->]; reflexivity. Qed.

Section CatalogFacts.
Variable FlashingMethod UserDefineKey DeviceType : Enum.

Lemma parseTarget_ok item tg :
  parseTarget FlashingMethod item = Ok tg ->
  Maybe_truthy (tj_name item) = true
  /\ ~ turnedAway FlashingMethod (tj_flashingMethod item).
Proof.
  unfold parseTarget, turnedAway.
  destruct (Maybe_truthy (tj_name item)); simpl; [|discriminate].
  destruct (Property_truthy
              (enumGet FlashingMethod (render (tj_flashingMethod item))));
    simpl; [|discriminate].
  intros _. split; [reflexivity|discriminate].
Qed.

Lemma parseTarget_raise item e :
  parseTarget FlashingMethod item = Raise e ->
  Maybe_truthy (tj_name item) = false
  \/ turnedAway FlashingMethod (tj_flashingMethod item).
Proof.
  unfold parseTarget, turnedAway.
  destruct (Maybe_truthy (tj_name item)); simpl; [|now left].
  destruct (Property_truthy
              (enumGet FlashingMethod (render (tj_flashingMethod item))));
    simpl; [discriminate|now right].
Qed.

Lemma parseUserDefine_ok item k :
  parseUserDefine UserDefineKey item = Ok k ->
  ~ turnedAway UserDefineKey (Val item).
Proof.
  unfold parseUserDefine, turnedAway. simpl.
  destruct (Property_truthy (enumGet UserDefineKey item)); simpl;
    [|discriminate].
  intros _. discriminate.
Qed.

Lemma parseUserDefine_raise item e :
  parseUserDefine UserDefineKey item = Raise e ->
  turnedAway UserDefineKey (Val item).
Proof.
  unfold parseUserDefine, turnedAway. simpl.
  destruct (Property_truthy (enumGet UserDefineKey item)); simpl;
    [discriminate|reflexivity].
Qed.

(** An entry that parses has at least one target and one user define, and
    nothing the checks turn away. *)
Lemma parseDevice_ok value d :
  parseDevice FlashingMethod UserDefineKey DeviceType value = Ok d ->
  wellStocked d
  /\ ~ refused FlashingMethod UserDefineKey DeviceType value.
Proof.
  unfold parseDevice.
  destruct (Maybe_truthy (dj_name value)) eqn:Hn; simpl; [|discriminate].
  destruct (Maybe_truthy (dj_category value)) eqn:Hc; simpl; [|discriminate].
  destruct (lacking (dj_targets value)) eqn:Ht; [discriminate|].
  destruct (lacking (dj_userDefines value)) eqn:Hu; [discriminate|].
  destruct (lacking_false _ Ht) as (ts & Hts & Htne).
  destruct (lacking_false _ Hu) as (us & Hus & Hune).
  rewrite Hts, Hus in *. cbn [items].
  destruct (mapT (parseTarget FlashingMethod) ts) as [targets|e] eqn:Hmt;
    [|discriminate].
  destruct (mapT (parseUserDefine UserDefineKey) us) as [defines|e] eqn:Hmu;
    [|discriminate].
  destruct (Property_truthy
              (enumGet DeviceType (render (dj_deviceType value)))) eqn:Hd;
    simpl; [|discriminate].
  intros H. inversion H. subst d. clear H. split.
  - split; simpl; intros Hnil.
    + apply mapT_ok_length in Hmt. rewrite Hnil in Hmt.
      destruct ts; [congruence|discriminate].
    + apply mapT_ok_length in Hmu. rewrite Hnil in Hmu.
      destruct us; [congruence|discriminate].
  - unfold refused, turnedAway. rewrite Hts, Hus. cbn [items].
    intros [H|[H|[H|[H|[H|[H|H]]]]]]; try congruence.
    + apply lacks_lacking in H. simpl in H. simpl in Ht. congruence.
    + apply lacks_lacking in H. simpl in H. simpl in Hu. congruence.
    + destruct H as (item & Hin & Hbad).
      destruct (mapT_ok_each _ _ _ Hmt item Hin) as [tg Htg].
      destruct (parseTarget_ok _ _ Htg) as [Hname Hfm].
      destruct Hbad as [Hbad|Hbad]; [congruence|exact (Hfm Hbad)].
    + destruct H as (item & Hin & Hbad).
      destruct (mapT_ok_each _ _ _ Hmu item Hin) as [k Hk].
      exact (parseUserDefine_ok _ _ Hk Hbad).
Qed.

(** An entry that does not parse has something the checks turn away. *)
Lemma parseDevice_raise value e :
  parseDevice FlashingMethod UserDefineKey DeviceType value = Raise e ->
  refused FlashingMethod UserDefineKey DeviceType value.
Proof.
  unfold parseDevice, refused.
  destruct (Maybe_truthy (dj_name value)) eqn:Hn; simpl; [|now left].
  destruct (Maybe_truthy (dj_category value)) eqn:Hc; simpl;
    [|right; now left].
  destruct (lacking (dj_targets value)) eqn:Ht;
    [intros _; right; right; left; now apply lacking_true|].
  destruct (lacking (dj_userDefines value)) eqn:Hu;
    [intros _; right; right; right; left; now apply lacking_true|].
  destruct (mapT (parseTarget FlashingMethod) (items (dj_targets value)))
    as [targets|e1] eqn:Hmt.
  2:{ intros _. do 4 right. left.
      destruct (mapT_raise _ _ _ Hmt) as (item & Hin & Hitem).
      exists item. split; [exact Hin|]. exact (parseTarget_raise _ _ Hitem). }
  destruct (mapT (parseUserDefine UserDefineKey)
              (items (dj_userDefines value))) as [defines|e2] eqn:Hmu.
  2:{ intros _. do 5 right. left.
      destruct (mapT_raise _ _ _ Hmu) as (item & Hin & Hitem).
      exists item. split; [exact Hin|].
      exact (parseUserDefine_raise _ _ Hitem). }
  destruct (Property_truthy
              (enumGet DeviceType (render (dj_deviceType value)))) eqn:Hd;
    simpl; [discriminate|].
  intros _. do 6 right. exact Hd.
Qed.

Lemma loadDevice_ok value l d :
  loadDevice FlashingMethod UserDefineKey DeviceType value = (l, Ok d) ->
  parseDevice FlashingMethod UserDefineKey DeviceType value = Ok d.
Proof.
  unfold loadDevice.
  destruct (parseDevice FlashingMethod UserDefineKey DeviceType value);
    intros H; inversion H; reflexivity.
Qed.

Lemma loadDevice_raise value l e :
  loadDevice FlashingMethod UserDefineKey DeviceType value = (l, Raise e) ->
  exists cause,
    parseDevice FlashingMethod UserDefineKey DeviceType value = Raise cause.
Proof.
  unfold loadDevice.
  destruct (parseDevice FlashingMethod UserDefineKey DeviceType value);
    intros H; inversion H; eauto.
Qed.

(** A catalog that loads has only entries the checks let pass, and as
    many devices as entries. *)
Lemma loadDevices_ok catalog log ds :
  loadDevices FlashingMethod UserDefineKey DeviceType catalog = (log, Ok ds) ->
  Forall wellStocked ds
  /\ Forall (fun v => ~ refused FlashingMethod UserDefineKey DeviceType v)
       catalog
  /\ List.length ds = List.length catalog.
Proof.
  revert log ds. induction catalog as [|v rest IH]; intros log ds H; simpl in H.
  - inversion H. repeat split; constructor.
  - destruct (loadDevice FlashingMethod UserDefineKey DeviceType v)
      as [l [d|e]] eqn:Hv; [|discriminate].
    destruct (loadDevices FlashingMethod UserDefineKey DeviceType rest)
      as [l' [ds'|e]] eqn:Hr; [|discriminate].
    inversion H. subst. clear H.
    destruct (IH _ _ eq_refl) as (Hw & Hd & Hlen).
    destruct (parseDevice_ok _ _ (loadDevice_ok _ _ _ Hv)) as [Hwd Hnd].
    repeat split; try constructor; auto. simpl. now rewrite Hlen.
Qed.

(** A catalog that does not load has an entry the checks turn away. *)
Lemma loadDevices_raise catalog log e :
  loadDevices FlashingMethod UserDefineKey DeviceType catalog
  = (log, Raise e) ->
  Exists (refused FlashingMethod UserDefineKey DeviceType) catalog.
Proof.
  revert log. induction catalog as [|v rest IH]; intros log H; simpl in H.
  - discriminate.
  - destruct (loadDevice FlashingMethod UserDefineKey DeviceType v)
      as [l [d|e']] eqn:Hv.
    + destruct (loadDevices FlashingMethod UserDefineKey DeviceType rest)
        as [l' [ds'|e'']] eqn:Hr; [discriminate|].
      inversion H. subst. apply Exists_cons_tl. eapply IH. reflexivity.
    + apply Exists_cons_hd.
      destruct (loadDevice_raise _ _ _ Hv) as [cause Hcause].
      exact (parseDevice_raise _ _ Hcause).
Qed.

End CatalogFacts.
End DeviceFacts.

(** C9.  The entry [Device.Fixture.borrowed] gives "constructor" as the
    flashing method of its only target, which names no member of the
    FlashingMethod enum: by the claim the entry is defective.  The check of
    [loadDevices] looks the name up in the enum object and tests what
    comes back, and under that name an object holds what it inherits: the
    catalog is loaded, after a sound entry and with nothing logged, and
    the target carries the inherited value as its flashing method. *)
Theorem C9_inherited_name_is_loaded :
  Device.defective Device.Fixture.flashingMethods
    Device.Fixture.userDefineKeys Device.Fixture.deviceTypes
    Device.Fixture.borrowed
  /\ exists sound,
       Device.Fixture.load [Device.Fixture.es915tx; Device.Fixture.borrowed]
       = ([],
          Ok [sound;
              Device.mkDevice (Val "DIY 2400 RX") (Val "DIY 2400 RX")
                (Val "DIY 2.4 GHz")
                [Device.mkTarget (Val "DIY_2400_RX_via_UART")
                   (Inherited "constructor")]
                [Own "BINDING_PHRASE"] (Nil Undefined) (Own "ExpressLRS")]).
Proof.
  split.
  - unfold Device.defective. do 4 right. left.
    exists (Device.mkTargetJSON (Val "DIY_2400_RX_via_UART")
              (Val "constructor")).
    split; [left; reflexivity|reflexivity].
  - eexists. vm_compute. reflexivity.
Qed.

(* ================================================================== *)
(** ** The build pipeline: what each step leaves behind *)

Module ObserveFacts.
Import Firmware FirmwareFacts Observe.

(** What an entry of one kind cannot be. *)
Lemma background_isFlash e : isBackground e = true -> isFlash e = false.
Proof. revert e. kind_case. Qed.

Lemma background_isCheckout e : isBackground e = true -> isCheckout e = false.
Proof. revert e. kind_case. Qed.

Lemma background_isGitLookup e : isBackground e = true -> isGitLookup e = false.
Proof. revert e. kind_case. Qed.

Lemma background_isBuild e : isBackground e = true -> isBuild e = false.
Proof. revert e. kind_case. Qed.

Lemma background_isRaise e : isBackground e = true -> isRaise e = false.
Proof. revert e. kind_case. Qed.

Lemma background_isCalled e : isBackground e = true -> isCalled e = false.
Proof. revert e. kind_case. Qed.

Lemma background_isCheckPython e : isBackground e = true -> isCheckPython e = false.
Proof. revert e. kind_case. Qed.

Lemma background_isCheckCore e : isBackground e = true -> isCheckCore e = false.
Proof. revert e. kind_case. Qed.

Lemma background_isInstall e : isBackground e = true -> isInstall e = false.
Proof. revert e. kind_case. Qed.

Lemma background_isCompatibilityCheck e : isBackground e = true -> isCompatibilityCheck e = false.
Proof. revert e. kind_case. Qed.

Lemma background_isUserDefinesTxt e : isBackground e = true -> isUserDefinesTxt e = false.
Proof. revert e. kind_case. Qed.

Lemma background_progressOf e : isBackground e = true -> progressOf e = [].
Proof. revert e. kind_case. Qed.

Lemma background_firmwarePathOf e : isBackground e = true -> firmwarePathOf e = [].
Proof. revert e. kind_case. Qed.

Lemma background_checkoutRefOf e : isBackground e = true -> checkoutRefOf e = [].
Proof. revert e. kind_case. Qed.

Lemma incidental_isFlash e : isIncidental e = true -> isFlash e = false.
Proof. revert e. kind_case. Qed.

Lemma incidental_isCheckout e : isIncidental e = true -> isCheckout e = false.
Proof. revert e. kind_case. Qed.

Lemma incidental_isGitLookup e : isIncidental e = true -> isGitLookup e = false.
Proof. revert e. kind_case. Qed.

Lemma incidental_isBuild e : isIncidental e = true -> isBuild e = false.
Proof. revert e. kind_case. Qed.

Lemma incidental_isRaise e : isIncidental e = true -> isRaise e = false.
Proof. revert e. kind_case. Qed.

Lemma incidental_isCheckPython e : isIncidental e = true -> isCheckPython e = false.
Proof. revert e. kind_case. Qed.

Lemma incidental_isCheckCore e : isIncidental e = true -> isCheckCore e = false.
Proof. revert e. kind_case. Qed.

Lemma incidental_isCompatibilityCheck e : isIncidental e = true -> isCompatibilityCheck e = false.
Proof. revert e. kind_case. Qed.

Lemma incidental_isUserDefinesTxt e : isIncidental e = true -> isUserDefinesTxt e = false.
Proof. revert e. kind_case. Qed.

Lemma incidental_progressOf e : isIncidental e = true -> progressOf e = [].
Proof. revert e. kind_case. Qed.

Lemma incidental_firmwarePathOf e : isIncidental e = true -> firmwarePathOf e = [].
Proof. revert e. kind_case. Qed.

Lemma incidental_checkoutRefOf e : isIncidental e = true -> checkoutRefOf e = [].
Proof. revert e. kind_case. Qed.

Lemma resolution_isFlash e : isResolution e = true -> isFlash e = false.
Proof. revert e. kind_case. Qed.

Lemma resolution_isGitLookup e : isResolution e = true -> isGitLookup e = false.
Proof. revert e. kind_case. Qed.

Lemma resolution_isBuild e : isResolution e = true -> isBuild e = false.
Proof. revert e. kind_case. Qed.

Lemma resolution_isRaise e : isResolution e = true -> isRaise e = false.
Proof. revert e. kind_case. Qed.

Lemma resolution_isCheckPython e : isResolution e = true -> isCheckPython e = false.
Proof. revert e. kind_case. Qed.

Lemma resolution_isCheckCore e : isResolution e = true -> isCheckCore e = false.
Proof. revert e. kind_case. Qed.

Lemma resolution_isInstall e : isResolution e = true -> isInstall e = false.
Proof. revert e. kind_case. Qed.

Lemma resolution_isCompatibilityCheck e : isResolution e = true -> isCompatibilityCheck e = false.
Proof. revert e. kind_case. Qed.

Lemma resolution_isUserDefinesTxt e : isResolution e = true -> isUserDefinesTxt e = false.
Proof. revert e. kind_case. Qed.

Lemma resolution_progressOf e : isResolution e = true -> progressOf e = [].
Proof. revert e. kind_case. Qed.

Lemma resolution_firmwarePathOf e : isResolution e = true -> firmwarePathOf e = [].
Proof. revert e. kind_case. Qed.

Lemma resolution_chunkOf e : isResolution e = true -> chunkOf e = [].
Proof. revert e. kind_case. Qed.

Lemma background_isNullishThrow e :
  isBackground e = true -> isNullishThrow e = false.
Proof. revert e. kind_case. Qed.

Lemma incidental_isNullishThrow e :
  isIncidental e = true -> isNullishThrow e = false.
Proof. revert e. kind_case. Qed.

Lemma resolution_isNullishThrow e :
  isResolution e = true -> isNullishThrow e = false.
Proof. revert e. kind_case. Qed.

Create HintDb kinds.
#[export] Hint Resolve
  background_isFlash background_isCheckout background_isGitLookup
  background_isBuild background_isRaise background_isCalled
  background_isCheckPython background_isCheckCore background_isInstall
  background_isCompatibilityCheck background_isUserDefinesTxt
  background_progressOf background_firmwarePathOf background_checkoutRefOf
  incidental_isFlash incidental_isCheckout incidental_isGitLookup
  incidental_isBuild incidental_isRaise incidental_isCheckPython
  incidental_isCheckCore incidental_isCompatibilityCheck
  incidental_isUserDefinesTxt incidental_progressOf incidental_firmwarePathOf
  incidental_checkoutRefOf resolution_isFlash resolution_isGitLookup
  resolution_isBuild resolution_isRaise resolution_isCheckPython
  resolution_isCheckCore resolution_isInstall resolution_isCompatibilityCheck
  resolution_isUserDefinesTxt resolution_progressOf resolution_firmwarePathOf
  resolution_chunkOf background_isNullishThrow incidental_isNullishThrow
  resolution_isNullishThrow
  : kinds.

Ltac kind_of := solve [auto with kinds] || kind_case.

Section Streams.
Context {W : Type}.
Variable B : Backend W.

Lemma forEach_onOutput_streams chunks (s : St W) :
  exists w t,
    forEach chunks (onOutput B) s = (mkSt w (mutex s), t, Normal tt)
    /\ Only isBackground t /\ streamed t = chunks.
Proof.
  revert s. induction chunks as [|x xs IH]; intros s.
  - exists (world s), []. destruct s. repeat split. constructor.
  - simpl. unfold bind. rewrite onOutput_run.
    destruct (IH (mkSt (fst (pubSub_publishLogs B x (world s))) (mutex s)))
      as (w & t & E & Hb & Hs).
    simpl in E. rewrite E. eexists _, _. split; [reflexivity|]. split.
    + repeat constructor. exact Hb.
    + unfold streamed in *. simpl. now rewrite Hs.
Qed.

(** As [wp_stream], keeping that callbacks leave background entries only
    and publish the chunks of the command. *)
Lemma wp_stream_chunks c op (s : St W) Q :
  (forall w1 chunks o w2 t,
     op (world s) = (w1, (chunks, o)) ->
     Only isBackground t -> streamed t = chunks ->
     Q (mkSt w2 (mutex s)) (t ++ [Called c (answer VCommand o)])
       (complete o)) ->
  wp (stream c op (onOutput B)) s Q.
Proof.
  unfold wp, stream. intros H.
  destruct (op (world s)) as [w1 [chunks o]] eqn:Hop.
  destruct (forEach_onOutput_streams chunks (mkSt w1 (mutex s)))
    as (w2 & t & E & Hb & Hs).
  rewrite E. simpl. eapply H; eauto.
Qed.

End Streams.

Ltac wp_stream_step :=
  lazymatch goal with
  | |- wp (stream _ _ _) _ _ =>
      let w := fresh "w" in let o := fresh "o" in let H := fresh "Hop" in
      let t := fresh "t" in let Hb := fresh "Hcb" in
      let Hs := fresh "Hst" in
      apply wp_stream_chunks; intros ? ? o w t H Hb Hs; destruct o
  end.

(** As [wp_join], for the checkout block only: the install block is
    followed path by path. *)
Ltac wp_join_checkout :=
  lazymatch goal with
  | |- wp (bind (resolveFirmwarePath _ ?p _ _) _) _ _ =>
      lazymatch goal with
      | H : source (firmware p) = _ |- _ => fail
      | _ =>
          let t := fresh "t" in let H := fresh "Hres" in
          apply (wp_bind_join isResolution); [wp_hide|intros ? t ? H]
      end
  end.

(** Every path, the install block included, joined after the checkout. *)
Ltac explore_install B PATH firmwaresPath params gitRepo :=
  refine (run_wp B PATH firmwaresPath params gitRepo _ _ _);
  repeat (first [wp_join_checkout | wp_stream_step | wp_step]; wp_red).

Ltac obs_unfold :=
  unfold progressSteps, progressEvents, raised, firmwarePaths, checkoutRefs,
    called, streamed.

Ltac obs_norm :=
  obs_unfold;
  repeat first
    [ progress
        cbn [app flat_map filter map In progressOf isRaise exnOf isFlash
             isCheckout isGitLookup isBuild pn_step firmwarePathOf
             checkoutRefOf isCalled isCheckPython isCheckCore isInstall
             isCompatibilityCheck isUserDefinesTxt chunkOf isBackground
             isNullishThrow]
    | rewrite flat_map_app
    | rewrite filter_app
    | match goal with
      | H : Only ?P ?t |- context [flat_map ?f ?t] =>
          rewrite (Only_flat_map P f t ltac:(kind_of) H)
      | H : Only ?P ?t |- context [filter ?q ?t] =>
          rewrite (Only_filter P q t ltac:(kind_of) H)
      end ].

Ltac obs_norm_in H :=
  unfold progressSteps, progressEvents, raised, firmwarePaths, checkoutRefs,
    called, streamed in H;
  repeat first
    [ progress
        cbn [app flat_map filter map In progressOf isRaise exnOf isFlash
             isCheckout isGitLookup isBuild pn_step firmwarePathOf
             checkoutRefOf isCalled isCheckPython isCheckCore isInstall
             isCompatibilityCheck isUserDefinesTxt chunkOf isBackground
             isNullishThrow] in H
    | rewrite flat_map_app in H
    | rewrite filter_app in H
    | match type of H with
      | context [flat_map ?f ?t] =>
          match goal with
          | Ho : Only ?P t |- _ =>
              rewrite (Only_flat_map P f t ltac:(kind_of) Ho) in H
          end
      | context [filter ?q ?t] =>
          match goal with
          | Ho : Only ?P t |- _ =>
              rewrite (Only_filter P q t ltac:(kind_of) Ho) in H
          end
      end ].

(** From [H : In e t] to the one entry of kind [q] that [e] is, or to
    nothing when the path has none. *)
Ltac the_entry H q :=
  apply (In_kind q) in H; [|reflexivity];
  obs_norm_in H;
  first [ exfalso; exact H
        | destruct H as [H|[]]; inversion H; subst ].

(** Names the chunks the three streaming commands handed over on the
    path at hand, from the calls the path has made. *)
Ltac chunks_handed_over :=
  let install k :=
    lazymatch goal with
    | H : platformio_install _ _ = (_, (?chunks, _)) |- _ => k chunks
    | _ => k (@nil string)
    end in
  let build k :=
    lazymatch goal with
    | H : builder_build _ _ _ _ _ = (_, (?chunks, _)) |- _ => k chunks
    | _ => k (@nil string)
    end in
  let flash k :=
    lazymatch goal with
    | H : builder_flash _ _ _ _ = (_, (?chunks, _)) |- _ => k chunks
    | _ => k (@nil string)
    end in
  install ltac:(fun ci =>
    build ltac:(fun cb =>
      flash ltac:(fun cf => exists ci, cb, cf))).

Lemma kind_In (q : Entry -> bool) e t : In e (filter q t) -> In e t.
Proof. intros H. apply filter_In in H. tauto. Qed.

End ObserveFacts.

Import Firmware FirmwareFacts Observe ObserveFacts.

(** X1.  [buildFlashFirmware] returns a result of one of two shapes:
    success=true with no message and no errorType, or success=false with a
    message and an errorType and no binary path.  With what is thrown
    being an [Error], [undefined] or [null], there is one way for it not
    to return: a call the pipeline waits for, other than the lookup of the
    git executable, throws [undefined] or [null]; then the catch block
    throws on reading [e.trace], and that TypeError is what the caller
    gets. *)
Theorem X1_result_is_well_formed
    (W : Type) (PATH firmwaresPath : string) (B : Backend W)
    params gitRepo (s s' : St W) t o :
  buildFlashFirmware PATH firmwaresPath B params gitRepo s = (s', t, o) ->
  match o with
  | Ok r => wellFormed r
  | Raise e =>
      exists c n,
        filter isNullishThrow t = [Called c (Threw (Nothing n))]
        /\ isGitLookup (Called c (Threw (Nothing n))) = false
        /\ e = AnError (typeError (runtime_cannotRead B "trace" n))
  end.
Proof.
  intros E. revert s' t o E. destruct s as [w [[|]]].
  all: explore B PATH firmwaresPath params gitRepo.
  all: first
    [ unfold wellFormed; cbn;
      first [ left; repeat split; reflexivity
            | right; repeat split; discriminate ]
    | eexists _, _; split; [obs_norm; reflexivity|];
      split; reflexivity ].
Qed.

(** A Python check whose promise is rejected with [null]. *)
Lemma X1_witness :
  match
    snd (buildFlashFirmware "/usr/bin" "/firmwares"
           (Sample.unreasoned (Some Null) None)
           (Sample.request Build Sample.tagged) Sample.repo Sample.idle)
  with
  | Ok r => wellFormed r
  | Raise e =>
      exists c n,
        filter isNullishThrow
          (snd (fst (buildFlashFirmware "/usr/bin" "/firmwares"
                       (Sample.unreasoned (Some Null) None)
                       (Sample.request Build Sample.tagged) Sample.repo
                       Sample.idle)))
        = [Called c (Threw (Nothing n))]
        /\ isGitLookup (Called c (Threw (Nothing n))) = false
        /\ e = AnError (typeError (cannotRead "trace" n))
  end.
Proof.
  refine (X1_result_is_well_formed unit "/usr/bin" "/firmwares"
            (Sample.unreasoned (Some Null) None)
            (Sample.request Build Sample.tagged) Sample.repo
            Sample.idle
            (fst (fst (buildFlashFirmware "/usr/bin" "/firmwares"
                         (Sample.unreasoned (Some Null) None)
                         (Sample.request Build Sample.tagged) Sample.repo
                         Sample.idle)))
            (snd (fst (buildFlashFirmware "/usr/bin" "/firmwares"
                         (Sample.unreasoned (Some Null) None)
                         (Sample.request Build Sample.tagged) Sample.repo
                         Sample.idle)))
            (snd (buildFlashFirmware "/usr/bin" "/firmwares"
                    (Sample.unreasoned (Some Null) None)
                    (Sample.request Build Sample.tagged) Sample.repo
                    Sample.idle))
            _).
  vm_compute. reflexivity.
Defined.

(** X2.  On every run, however it ends, the progress notifications
    published so far are a beginning of the list of steps of the job type,
    all of type Info: the steps come in their fixed order, none twice, none
    skipped, and a Build never announces FlashingFirmware. *)
Theorem X2_progress_is_a_prefix
    (W : Type) (PATH firmwaresPath : string) (B : Backend W)
    params gitRepo (s s' : St W) t o :
  buildFlashFirmware PATH firmwaresPath B params gitRepo s = (s', t, o) ->
  startOf (progressEvents t) (map (mkProgress Info) (stepsOf (type params))).
Proof.
  intros E. revert s' t o E.
  destruct (type params) eqn:Hty; destruct s as [w [[|]]].
  all: explore B PATH firmwaresPath params gitRepo.
  all: obs_norm; unfold startOf; cbn [stepsOf map]; eexists; reflexivity.
Qed.

Lemma X2_witness :
  startOf
    (progressEvents
       (snd (fst (Sample.run true Sample.linkError BuildAndFlash Sample.tagged
                    Sample.idle))))
    (map (mkProgress Info) (stepsOf BuildAndFlash)).
Proof.
  refine (X2_progress_is_a_prefix unit "/usr/bin" "/firmwares"
            (Sample.backend true Sample.linkError)
            (Sample.request BuildAndFlash Sample.tagged) Sample.repo
            Sample.idle _ _ _ _).
  vm_compute. reflexivity.
Defined.

(** X3.  When the Python check comes back with success=false the request
    ends there: the result is PythonDependencyError with the check's
    stderr and stdout in the message, and nothing but the first progress
    notification and the check itself was called. *)
Theorem X3_python_failure_stops_the_run
    (W : Type) (PATH firmwaresPath : string) (B : Backend W)
    params gitRepo (s s' : St W) t o cr :
  buildFlashFirmware PATH firmwaresPath B params gitRepo s = (s', t, o) ->
  In (Called CheckPython (Gave (VCommand cr))) t ->
  cr_success cr = false ->
  o = Ok (pythonDependencyError cr)
  /\ called t
     = [Called (PublishProgress (mkProgress Info VERIFYING_BUILD_SYSTEM))
          (Gave VUnit);
        Called CheckPython (Gave (VCommand cr))].
Proof.
  intros E. revert s' t o E. destruct s as [w [[|]]].
  all: explore B PATH firmwaresPath params gitRepo.
  all: intros Hin Hcr; the_entry Hin isCheckPython; try discriminate Hcr.
  split; [reflexivity|]. obs_norm. destruct a. reflexivity.
Qed.

Lemma X3_witness :
  snd (Bench.run Bench.noPython (Sample.request Build Sample.tagged))
  = Ok (pythonDependencyError (Bench.failed "python3 not found"))
  /\ called
       (Bench.traceOf
          (Bench.run Bench.noPython (Sample.request Build Sample.tagged)))
     = [Called (PublishProgress (mkProgress Info VERIFYING_BUILD_SYSTEM))
          (Gave VUnit);
        Called CheckPython (Gave (VCommand (Bench.failed "python3 not found")))].
Proof.
  refine (X3_python_failure_stops_the_run unit "/usr/bin" "/firmwares"
            (Bench.backend Bench.noPython)
            (Sample.request Build Sample.tagged) Sample.repo Sample.idle
            _ _ _ (Bench.failed "python3 not found") _ _ _).
  - vm_compute. reflexivity.
  - vm_compute. tauto.
  - reflexivity.
Defined.

(** X4.  Platformio is installed only when the core check came back with
    success=false: a run whose core check succeeded makes no install call,
    and every install call follows a failed core check. *)
Theorem X4_install_only_when_core_is_missing
    (W : Type) (PATH firmwaresPath : string) (B : Backend W)
    params gitRepo (s s' : St W) t o :
  buildFlashFirmware PATH firmwaresPath B params gitRepo s = (s', t, o) ->
  (forall cr,
     In (Called CheckCore (Gave (VCommand cr))) t -> cr_success cr = true ->
     filter isInstall t = [])
  /\ (forall a,
        In (Called Install a) t ->
        exists cr,
          In (Called CheckCore (Gave (VCommand cr))) t
          /\ cr_success cr = false).
Proof.
  intros E. revert s' t o E. destruct s as [w [[|]]].
  all: explore_install B PATH firmwaresPath params gitRepo.
  all: split.
  all: try (intros cr Hin Hcr; the_entry Hin isCheckCore;
            try discriminate Hcr; obs_norm; reflexivity).
  all: intros ans Hin; the_entry Hin isInstall.
  all: eexists; split;
    first [ apply (kind_In isCheckCore); obs_norm; left; reflexivity
          | reflexivity ].
Qed.

Lemma X4_witness :
  filter isInstall
    (Bench.traceOf
       (Bench.run Bench.sound (Sample.request Build Sample.tagged)))
  = []
  /\ exists cr,
       In (Called CheckCore (Gave (VCommand cr)))
         (Bench.traceOf
            (Bench.run (Bench.noCore Sample.done)
               (Sample.request Build Sample.tagged)))
       /\ cr_success cr = false.
Proof.
  split.
  - refine (proj1 (X4_install_only_when_core_is_missing unit "/usr/bin"
                     "/firmwares" (Bench.backend Bench.sound)
                     (Sample.request Build Sample.tagged) Sample.repo
                     Sample.idle _ _ _ _) Sample.done _ _).
    + vm_compute. reflexivity.
    + vm_compute. tauto.
    + reflexivity.
  - refine (proj2 (X4_install_only_when_core_is_missing unit "/usr/bin"
                     "/firmwares" (Bench.backend (Bench.noCore Sample.done))
                     (Sample.request Build Sample.tagged) Sample.repo
                     Sample.idle _ _ _ _) (Gave (VCommand Sample.done)) _).
    + vm_compute. reflexivity.
    + vm_compute. tauto.
Defined.

(** X5.  When the install of Platformio comes back with success=false the
    request ends in PlatformioDependencyError with the install's stderr and
    stdout in the message, before the git executable is looked up. *)
Theorem X5_install_failure_stops_the_run
    (W : Type) (PATH firmwaresPath : string) (B : Backend W)
    params gitRepo (s s' : St W) t o ir :
  buildFlashFirmware PATH firmwaresPath B params gitRepo s = (s', t, o) ->
  In (Called Install (Gave (VCommand ir))) t ->
  cr_success ir = false ->
  o = Ok (platformioDependencyError ir)
  /\ filter isGitLookup t = []
  /\ progressSteps t = [VERIFYING_BUILD_SYSTEM].
Proof.
  intros E. revert s' t o E. destruct s as [w [[|]]].
  all: explore_install B PATH firmwaresPath params gitRepo.
  all: intros Hin Hcr; the_entry Hin isInstall; try discriminate Hcr.
  all: split; [reflexivity|]; split; obs_norm; reflexivity.
Qed.

Lemma X5_witness :
  snd (Bench.run (Bench.noCore (Bench.failed "no network"))
         (Sample.request Build Sample.tagged))
  = Ok (platformioDependencyError (Bench.failed "no network"))
  /\ filter isGitLookup
       (Bench.traceOf
          (Bench.run (Bench.noCore (Bench.failed "no network"))
             (Sample.request Build Sample.tagged)))
     = []
  /\ progressSteps
       (Bench.traceOf
          (Bench.run (Bench.noCore (Bench.failed "no network"))
             (Sample.request Build Sample.tagged)))
     = [VERIFYING_BUILD_SYSTEM].
Proof.
  refine (X5_install_failure_stops_the_run unit "/usr/bin" "/firmwares"
            (Bench.backend (Bench.noCore (Bench.failed "no network")))
            (Sample.request Build Sample.tagged) Sample.repo Sample.idle
            _ _ _ (Bench.failed "no network") _ _ _).
  - vm_compute. reflexivity.
  - vm_compute. tauto.
  - reflexivity.
Defined.

(** X6.  When the lookup of the git executable throws, it was made on the
    service's search path and the request ends there: the download step is
    never announced and nothing is checked out.  For an error thrown the
    result is GitDependencyError with the description of the error as
    message.  When the lookup throws [undefined] or [null], the handler
    itself throws on reading [e.stack], and the request ends in
    GenericError with the description of that TypeError. *)
Theorem X6_git_lookup_failure_stops_the_run
    (W : Type) (PATH firmwaresPath : string) (B : Backend W)
    params gitRepo (s s' : St W) t o p e :
  buildFlashFirmware PATH firmwaresPath B params gitRepo s = (s', t, o) ->
  In (Called (FindGitExecutable p) (Threw e)) t ->
  p = PATH
  /\ o = Ok (match e with
             | AnError x => gitDependencyError x
             | Nothing n =>
                 genericError (typeError (runtime_cannotRead B "stack" n))
             end)
  /\ progressSteps t = [VERIFYING_BUILD_SYSTEM]
  /\ filter isCheckout t = [].
Proof.
  intros E. revert s' t o E. destruct s as [w [[|]]].
  all: explore B PATH firmwaresPath params gitRepo.
  all: intros Hin; the_entry Hin isGitLookup.
  all: repeat split; obs_norm; reflexivity.
Qed.

(** A lookup whose promise is rejected with [undefined]. *)
Lemma X6_witness :
  snd (buildFlashFirmware "/usr/bin" "/firmwares"
         (Sample.unreasoned None (Some Undefined))
         (Sample.request Build Sample.onDisk) Sample.repo Sample.idle)
  = Ok (genericError (typeError (cannotRead "stack" Undefined)))
  /\ progressSteps
       (snd (fst (buildFlashFirmware "/usr/bin" "/firmwares"
                    (Sample.unreasoned None (Some Undefined))
                    (Sample.request Build Sample.onDisk) Sample.repo
                    Sample.idle)))
     = [VERIFYING_BUILD_SYSTEM]
  /\ filter isCheckout
       (snd (fst (buildFlashFirmware "/usr/bin" "/firmwares"
                    (Sample.unreasoned None (Some Undefined))
                    (Sample.request Build Sample.onDisk) Sample.repo
                    Sample.idle)))
     = [].
Proof.
  refine (proj2 (X6_git_lookup_failure_stops_the_run unit "/usr/bin"
                   "/firmwares" (Sample.unreasoned None (Some Undefined))
                   (Sample.request Build Sample.onDisk) Sample.repo
                   Sample.idle _ _ _ "/usr/bin" (Nothing Undefined)
                   _ _)).
  - vm_compute. reflexivity.
  - vm_compute. tauto.
Defined.

(** X7.  In UserInterface mode the compatibility check is asked about the
    keys of the enabled defines of the request, in their order, and about
    no other key.  When it answers incompatible, the request ends in
    BuildError naming the incompatible keys, and nothing is compiled. *)
Theorem X7_incompatible_defines_stop_the_run
    (W : Type) (PATH firmwaresPath : string) (B : Backend W)
    params gitRepo (s s' : St W) t o p keys a :
  buildFlashFirmware PATH firmwaresPath B params gitRepo s = (s', t, o) ->
  In (Called (CheckCompatibility p keys) a) t ->
  userDefinesMode params = UserInterface
  /\ keys = map key (filter enabled (userDefines params))
  /\ (forall c,
        a = Gave (VCompat c) -> compatible c = false ->
        o = Ok (incompatibleError c) /\ filter isBuild t = []).
Proof.
  intros E. revert s' t o E. destruct s as [w [[|]]].
  all: explore B PATH firmwaresPath params gitRepo.
  all: intros Hin; the_entry Hin isCompatibilityCheck.
  all: split; [reflexivity|]; split; [reflexivity|].
  all: intros c Hc Hno; inversion Hc; subst c; try discriminate Hno.
  all: split; [reflexivity|obs_norm; reflexivity].
Qed.

Lemma X7_witness :
  snd (Bench.run Bench.oldFirmware (Sample.request Build Sample.tagged))
  = Ok (incompatibleError (mkCompat false ["REGULATORY_DOMAIN_EU_868"]))
  /\ filter isBuild
       (Bench.traceOf
          (Bench.run Bench.oldFirmware (Sample.request Build Sample.tagged)))
     = [].
Proof.
  refine (proj2 (proj2 (X7_incompatible_defines_stop_the_run unit "/usr/bin"
                          "/firmwares" (Bench.backend Bench.oldFirmware)
                          (Sample.request Build Sample.tagged) Sample.repo
                          Sample.idle _ _ _ "/firmwares/1.0.0"
                          ["REGULATORY_DOMAIN_EU_868"]
                          (Gave (VCompat
                                   (mkCompat false
                                      ["REGULATORY_DOMAIN_EU_868"])))
                          _ _))
            (mkCompat false ["REGULATORY_DOMAIN_EU_868"]) _ _).
  - vm_compute. reflexivity.
  - vm_compute. tauto.
  - reflexivity.
  - reflexivity.
Defined.

(** X8.  In Manual mode the defines are neither checked nor generated: no
    compatibility check and no call of the text factory is made, and the
    compile is given the text of the request as it is, for the target of
    the request. *)
Theorem X8_manual_defines_are_passed_verbatim
    (W : Type) (PATH firmwaresPath : string) (B : Backend W)
    params gitRepo (s s' : St W) t o :
  userDefinesMode params = Manual ->
  buildFlashFirmware PATH firmwaresPath B params gitRepo s = (s', t, o) ->
  filter isCompatibilityCheck t = []
  /\ filter isUserDefinesTxt t = []
  /\ forall tg defs p a,
       In (Called (BuilderBuild tg defs p) a) t ->
       tg = target params /\ defs = userDefinesTxt params.
Proof.
  intros Hmode E. revert s' t o E. destruct s as [w [[|]]].
  all: explore B PATH firmwaresPath params gitRepo.
  all: split; [obs_norm; reflexivity|]; split; [obs_norm; reflexivity|].
  all: intros tg defs p ans Hin; the_entry Hin isBuild.
  all: split; reflexivity.
Qed.

Lemma X8_witness :
  filter isCompatibilityCheck
    (Bench.traceOf (Bench.run Bench.sound (Bench.byHand Build Sample.onDisk)))
  = []
  /\ filter isUserDefinesTxt
       (Bench.traceOf
          (Bench.run Bench.sound (Bench.byHand Build Sample.onDisk)))
     = []
  /\ forall tg defs p a,
       In (Called (BuilderBuild tg defs p) a)
         (Bench.traceOf
            (Bench.run Bench.sound (Bench.byHand Build Sample.onDisk))) ->
       tg = "HappyModel_ES915TX_via_STLINK"
       /\ defs = "-DREGULATORY_DOMAIN_EU_868".
Proof.
  refine (X8_manual_defines_are_passed_verbatim unit "/usr/bin" "/firmwares"
            (Bench.backend Bench.sound) (Bench.byHand Build Sample.onDisk)
            Sample.repo Sample.idle _ _ _ _ _).
  - reflexivity.
  - vm_compute. reflexivity.
Defined.

(** X9.  In UserInterface mode a compile is made only after the
    compatibility check answered compatible, and with the text the factory
    built from the defines of the request. *)
Theorem X9_compile_uses_the_generated_defines
    (W : Type) (PATH firmwaresPath : string) (B : Backend W)
    params gitRepo (s s' : St W) t o tg defs p a :
  userDefinesMode params = UserInterface ->
  buildFlashFirmware PATH firmwaresPath B params gitRepo s = (s', t, o) ->
  In (Called (BuilderBuild tg defs p) a) t ->
  In (Called (BuildUserDefinesTxt (userDefines params)) (Gave (VString defs))) t
  /\ exists c,
       In (Called (CheckCompatibility p (enabledKeys (userDefines params)))
             (Gave (VCompat c))) t
       /\ compatible c = true.
Proof.
  intros Hmode E. revert s' t o E. destruct s as [w [[|]]].
  all: explore B PATH firmwaresPath params gitRepo.
  all: intros Hin; the_entry Hin isBuild.
  all: split;
    [ apply (kind_In isUserDefinesTxt); obs_norm; left; reflexivity
    | eexists; split;
      first [ apply (kind_In isCompatibilityCheck); obs_norm; left; reflexivity
            | reflexivity ] ].
Qed.

Lemma X9_witness :
  In (Called (BuildUserDefinesTxt [Sample.define])
        (Gave (VString "-DREGULATORY_DOMAIN_EU_868")))
    (Bench.traceOf
       (Bench.run Bench.sound (Sample.request Build Sample.tagged)))
  /\ exists c,
       In (Called (CheckCompatibility "/firmwares/1.0.0"
                     (enabledKeys [Sample.define]))
             (Gave (VCompat c)))
         (Bench.traceOf
            (Bench.run Bench.sound (Sample.request Build Sample.tagged)))
       /\ compatible c = true.
Proof.
  refine (X9_compile_uses_the_generated_defines unit "/usr/bin" "/firmwares"
            (Bench.backend Bench.sound) (Sample.request Build Sample.tagged)
            Sample.repo Sample.idle _ _ _
            "HappyModel_ES915TX_via_STLINK" "-DREGULATORY_DOMAIN_EU_868"
            "/firmwares/1.0.0" (Gave (VCommand Sample.done)) _ _ _).
  - reflexivity.
  - vm_compute. reflexivity.
  - vm_compute. tauto.
Defined.

(** X10.  For a git source, every call that takes the firmware path
    (compatibility check, compile, binary path, flash) is given the path
    the checkout returned, and that checkout was made from the repository
    url of the request by a downloader set up with the service's firmwares
    directory and the git executable the lookup found. *)
Theorem X10_git_sources_build_what_was_checked_out
    (W : Type) (PATH firmwaresPath : string) (B : Backend W)
    params gitRepo (s s' : St W) t o p :
  In (source (firmware params)) [GitTag; GitBranch; GitCommit] ->
  buildFlashFirmware PATH firmwaresPath B params gitRepo s = (s', t, o) ->
  In p (firmwarePaths t) ->
  exists gitPath ref,
    In (Called (FindGitExecutable PATH) (Gave (VString gitPath))) t
    /\ In (Called (CheckoutTag (mkDownloader firmwaresPath gitPath)
                     (url gitRepo) ref) (Gave (VString p))) t.
Proof.
  intros Hsrc E. revert s' t o E.
  destruct (source (firmware params)) eqn:Hs;
    try (exfalso; simpl in Hsrc; intuition discriminate);
    clear Hsrc; destruct s as [w [[|]]].
  all: explore B PATH firmwaresPath params gitRepo.
  all: intros Hin; obs_norm_in Hin; try (exfalso; exact Hin).
  all: eexists _, _; split;
    [ apply (kind_In isGitLookup); obs_norm; left; reflexivity
    | apply (kind_In isCheckout); obs_norm; left;
      repeat (destruct Hin as [Hin|Hin]; [subst p; reflexivity|]);
      destruct Hin ].
Qed.

Lemma X10_witness :
  exists gitPath ref,
    In (Called (FindGitExecutable "/usr/bin") (Gave (VString gitPath)))
      (Bench.traceOf
         (Bench.run Bench.sound (Sample.request Build Sample.pinned)))
    /\ In (Called (CheckoutTag (mkDownloader "/firmwares" gitPath)
                     (url Sample.repo) ref)
             (Gave (VString "/firmwares/1.0.0")))
         (Bench.traceOf
            (Bench.run Bench.sound (Sample.request Build Sample.pinned))).
Proof.
  refine (X10_git_sources_build_what_was_checked_out unit "/usr/bin"
            "/firmwares" (Bench.backend Bench.sound)
            (Sample.request Build Sample.pinned) Sample.repo Sample.idle
            _ _ _ "/firmwares/1.0.0" _ _ _).
  - vm_compute. tauto.
  - vm_compute. reflexivity.
  - vm_compute. tauto.
Defined.

(** X11.  A flash is attempted only for a job that is not Build, for the
    target of the request, on the path a compile was given that came back
    with success=true.  When the flash comes back with success=false the
    request ends in FlashError with the flash's stderr as message. *)
Theorem X11_flash_follows_a_successful_compile
    (W : Type) (PATH firmwaresPath : string) (B : Backend W)
    params gitRepo (s s' : St W) t o tg p a :
  buildFlashFirmware PATH firmwaresPath B params gitRepo s = (s', t, o) ->
  In (Called (BuilderFlash tg p) a) t ->
  type params = BuildAndFlash
  /\ tg = target params
  /\ (exists defs cr,
        In (Called (BuilderBuild tg defs p) (Gave (VCommand cr))) t
        /\ cr_success cr = true)
  /\ (forall fr,
        a = Gave (VCommand fr) -> cr_success fr = false ->
        o = Ok (flashError fr)).
Proof.
  intros E. revert s' t o E. destruct s as [w [[|]]].
  all: explore B PATH firmwaresPath params gitRepo.
  all: intros Hin; the_entry Hin isFlash.
  all: split; [reflexivity|]; split; [reflexivity|]; split.
  all: first
    [ eexists _, _; split;
      first [ apply (kind_In isBuild); obs_norm; left; reflexivity
            | reflexivity ]
    | intros fr Hfr Hno; inversion Hfr; subst fr; try discriminate Hno;
      reflexivity ].
Qed.

Lemma X11_witness :
  snd (Bench.run Bench.noPort (Sample.request BuildAndFlash Sample.tagged))
  = Ok (flashError (Bench.failed "could not open port")).
Proof.
  refine (proj2 (proj2 (proj2
            (X11_flash_follows_a_successful_compile unit "/usr/bin"
               "/firmwares" (Bench.backend Bench.noPort)
               (Sample.request BuildAndFlash Sample.tagged) Sample.repo
               Sample.idle _ _ _ "HappyModel_ES915TX_via_STLINK"
               "/firmwares/1.0.0"
               (Gave (VCommand (Bench.failed "could not open port")))
               _ _)))
            (Bench.failed "could not open port") _ _).
  - vm_compute. reflexivity.
  - vm_compute. tauto.
  - reflexivity.
  - reflexivity.
Defined.

(** X12.  A request whose source or user-defines mode the switches of the
    pipeline do not handle never succeeds, and nothing is compiled or
    flashed for it. *)
Theorem X12_unsupported_variants_never_build
    (W : Type) (PATH firmwaresPath : string) (B : Backend W)
    params gitRepo (s s' : St W) t o :
  unsupported params ->
  buildFlashFirmware PATH firmwaresPath B params gitRepo s = (s', t, o) ->
  (forall r, o = Ok r -> success r = false)
  /\ filter isBuild t = []
  /\ filter isFlash t = [].
Proof.
  unfold unsupported. intros Hun E. revert s' t o E.
  destruct (source (firmware params)) eqn:Hs;
    try (destruct (userDefinesMode params) eqn:Hm; try (exfalso; exact Hun));
    clear Hun; destruct s as [w [[|]]].
  all: explore B PATH firmwaresPath params gitRepo.
  all: split; [intros ? Hr; inversion Hr; reflexivity|];
    split; obs_norm; reflexivity.
Qed.

Lemma X12_witness :
  (forall r,
     snd (Bench.run Bench.sound (Sample.request Build Sample.proposed)) = Ok r ->
     success r = false)
  /\ filter isBuild
       (Bench.traceOf
          (Bench.run Bench.sound (Sample.request Build Sample.proposed)))
     = []
  /\ filter isFlash
       (Bench.traceOf
          (Bench.run Bench.sound (Sample.request Build Sample.proposed)))
     = [].
Proof.
  refine (X12_unsupported_variants_never_build unit "/usr/bin" "/firmwares"
            (Bench.backend Bench.sound) (Sample.request Build Sample.proposed)
            Sample.repo Sample.idle _ _ _ _ _).
  - vm_compute. tauto.
  - vm_compute. reflexivity.
Defined.

(** X13.  The output of the toolchain reaches the log in full and in
    order.  In every run, the chunks published from output callbacks are
    those the install of Platformio handed over, then those of the
    compile, then those of the flash, each command counted when the run
    made it: nothing is dropped, repeated or reordered, whether the
    publications succeed or throw, and whatever the command itself comes
    back with. *)
Theorem X13_output_is_streamed_in_order
    (W : Type) (PATH firmwaresPath : string) (B : Backend W)
    params gitRepo (s s' : St W) t o :
  buildFlashFirmware PATH firmwaresPath B params gitRepo s = (s', t, o) ->
  exists installed compiled flashed,
    installOutput B t installed
    /\ buildOutput B t compiled
    /\ flashOutput B t flashed
    /\ streamed t = installed ++ compiled ++ flashed.
Proof.
  intros E. revert s' t o E. destruct s as [w [[|]]].
  all: explore_install B PATH firmwaresPath params gitRepo.
  all: chunks_handed_over.
  all: repeat match goal with
              | H : streamed _ = _ |- _ => unfold streamed in H
              end.
  all: split; [|split; [|split]].
  all: lazymatch goal with
       | |- _ = _ =>
           obs_norm;
           repeat match goal with
                  | H : flat_map chunkOf _ = _ |- _ => rewrite H; clear H
                  end;
           cbn [app]; rewrite ?app_nil_r; reflexivity
       | |- _ =>
           first
             [ left; split; [obs_norm; reflexivity|reflexivity]
             | right; repeat eexists; [eassumption|obs_norm; reflexivity] ]
       end.
Qed.

Lemma X13_witness :
  exists installed compiled flashed,
    installOutput (Bench.backend (Bench.noCore Sample.done))
      (Bench.traceOf
         (Bench.run (Bench.noCore Sample.done)
            (Sample.request BuildAndFlash Sample.tagged)))
      installed
    /\ buildOutput (Bench.backend (Bench.noCore Sample.done))
         (Bench.traceOf
            (Bench.run (Bench.noCore Sample.done)
               (Sample.request BuildAndFlash Sample.tagged)))
         compiled
    /\ flashOutput (Bench.backend (Bench.noCore Sample.done))
         (Bench.traceOf
            (Bench.run (Bench.noCore Sample.done)
               (Sample.request BuildAndFlash Sample.tagged)))
         flashed
    /\ streamed
         (Bench.traceOf
            (Bench.run (Bench.noCore Sample.done)
               (Sample.request BuildAndFlash Sample.tagged)))
       = installed ++ compiled ++ flashed.
Proof.
  refine (X13_output_is_streamed_in_order unit "/usr/bin" "/firmwares"
            (Bench.backend (Bench.noCore Sample.done))
            (Sample.request BuildAndFlash Sample.tagged) Sample.repo
            Sample.idle _ _ _ _).
  vm_compute. reflexivity.
Defined.

(** The chunks of that run. *)
Example output_of_an_install_a_compile_and_a_flash :
  streamed
    (Bench.traceOf
       (Bench.run (Bench.noCore Sample.done)
          (Sample.request BuildAndFlash Sample.tagged)))
  = ["installing"; "compiling"; "linking"; "uploading"].
Proof. vm_compute. reflexivity. Qed.

(* ================================================================== *)
(** ** The configurator view: properties *)

Module ViewFacts.
Import View.

Section ConsoleFacts.
Context {N : Type}.

Lemma handleAll_snoc (evs : list (ConsoleEvent N)) ev c :
  handleAll (evs ++ [ev]) c = handle (handleAll evs c) ev.
Proof. unfold handleAll. now rewrite fold_left_app. Qed.

Lemma lastOf_snoc {A} (l : list A) a : lastOf (l ++ [a]) = Some a.
Proof. unfold lastOf. now rewrite rev_app_distr. Qed.

(** What the console holds after a sequence of events. *)
Lemma console_after (evs : list (ConsoleEvent N)) :
  let c := handleAll evs initial in
  progressNotificationsRef c = delivered evs
  /\ progressNotifications c = delivered evs
  /\ lastProgressNotification c = lastOf (delivered evs)
  /\ logsRef c = batched evs
  /\ logs c = String.concat "" (batched evs).
Proof.
  induction evs as [|ev evs IH] using rev_ind.
  - repeat split.
  - cbv zeta in *. rewrite handleAll_snoc.
    unfold delivered, batched in *. rewrite !fold_left_app. cbn [fold_left].
    destruct (handleAll evs initial) as [ref shown last lines text].
    cbn [progressNotificationsRef progressNotifications
         lastProgressNotification logsRef logs] in IH.
    destruct IH as (Href & Hst & Hlast & Hlogs & Hjoin). subst.
    destruct ev as [[a|]|newLogs|]; cbn; repeat split; auto.
    now rewrite lastOf_snoc.
Qed.

End ConsoleFacts.

End ViewFacts.

(** X14.  After any sequence of progress notifications, log batches and
    resets, the list of notifications shown is the list kept in the ref,
    it holds the notifications delivered since the last reset in their
    order, and the notification of the progress bar is the last of them
    (none when there is none). *)
Theorem X14_progress_bar_follows_the_list
    (N : Type) (evs : list (View.ConsoleEvent N)) :
  View.progressNotifications (View.handleAll evs View.initial)
  = View.progressNotificationsRef (View.handleAll evs View.initial)
  /\ View.progressNotifications (View.handleAll evs View.initial)
     = View.delivered evs
  /\ View.lastProgressNotification (View.handleAll evs View.initial)
     = View.lastOf
         (View.progressNotifications (View.handleAll evs View.initial)).
Proof.
  destruct (ViewFacts.console_after evs) as (Href & Hst & Hlast & _).
  rewrite Href, Hst, Hlast. repeat split.
Qed.

(** X15.  The log text shown is the concatenation, in order, of the chunks
    received since the last reset; how the chunks were grouped into batches
    does not matter: two sequences of events that carry the same chunks
    show the same text. *)
Theorem X15_log_text_ignores_batch_boundaries
    (N : Type) (evs evs' : list (View.ConsoleEvent N)) :
  View.logs (View.handleAll evs View.initial)
  = String.concat "" (View.batched evs)
  /\ (View.batched evs = View.batched evs' ->
      View.logs (View.handleAll evs View.initial)
      = View.logs (View.handleAll evs' View.initial)).
Proof.
  destruct (ViewFacts.console_after evs) as (_ & _ & _ & _ & Hj).
  destruct (ViewFacts.console_after evs') as (_ & _ & _ & _ & Hj').
  split; [exact Hj|]. intros Heq. now rewrite Hj, Hj', Heq.
Qed.

Lemma X15_witness :
  View.logs
    (View.handleAll
       [View.Batch ["a"; "b"]; View.Progress (Some 1); View.Batch ["c"]]
       View.initial)
  = View.logs (@View.handleAll nat [View.Batch ["a"]; View.Batch ["b"; "c"]]
                 View.initial).
Proof.
  apply (proj2 (X15_log_text_ignores_batch_boundaries nat
                  [View.Batch ["a"; "b"]; View.Progress (Some 1);
                   View.Batch ["c"]]
                  [View.Batch ["a"]; View.Batch ["b"; "c"]])).
  reflexivity.
Defined.

Module LuaFacts.
Import View.

Lemma isTX_contains (item : string) :
  isTX item = true <-> exists m, substring m 4 item = "_TX_".
Proof.
  unfold isTX. destruct (index 0 "_TX_" item) as [m|] eqn:Hi; split.
  - intros _. exists m. exact (index_correct1 0 m "_TX_" item Hi).
  - reflexivity.
  - discriminate.
  - intros [m Hm]. exfalso.
    refine (index_correct3 0 m "_TX_" item Hi _ _ Hm); [discriminate|lia].
Qed.

Lemma luaUrl_not_empty (ref : string) : luaUrl ref <> "".
Proof. unfold luaUrl. simpl. discriminate. Qed.

End LuaFacts.

(** X16.  For a source the view knows, the location of the Lua script is
    set without an error; it is non-empty exactly when the name of the
    selected target contains "_TX_" and the source is not Local; and then
    it is the raw GitHub address of src/lua/ELRS.lua at the ref the
    selected variant names (commit, branch, tag or head of the pull
    request), a ref that is not there being written "undefined" and one
    that is [null] "null". *)
Theorem X16_lua_script_is_offered_for_transmitters
    (target : string) (data : View.VersionRefs) :
  In (View.vr_source data) Ui.knownSources ->
  exists location,
    View.luaScriptLocation (Some target) (Some data) = Ok location
    /\ (location <> ""
        <-> (exists m, substring m 4 target = "_TX_")
            /\ View.vr_source data <> Local)
    /\ (location <> "" ->
        location = View.luaUrl (render (View.refOf data))).
Proof.
  intros Hknown. unfold View.luaScriptLocation, View.refOf.
  pose proof (LuaFacts.isTX_contains target) as Htx.
  destruct (View.isTX target); cbn [negb].
  - assert (Hc : exists m, substring m 4 target = "_TX_")
      by (apply Htx; reflexivity).
    destruct (View.vr_source data) eqn:Hs;
      try (simpl in Hknown; exfalso; intuition discriminate);
      eexists; (split; [reflexivity|]); split;
      try (intros _; reflexivity);
      try (split;
           [ intros _; split; [exact Hc|discriminate]
           | intros _; apply LuaFacts.luaUrl_not_empty ]).
    + split; [intros H; now elim H|intros [_ H]; now elim H].
    + intros H. now elim H.
  - exists "". split; [reflexivity|]. split.
    + split; [intros H; now elim H|].
      intros [H _]. apply Htx in H. discriminate.
    + intros H. now elim H.
Qed.

(** A transmitter target and a commit whose hash is [null]. *)
Lemma X16_witness :
  exists location,
    View.luaScriptLocation (Some "HappyModel_TX_ES915TX_via_STLINK")
      (Some (View.mkRefs GitCommit (Val "1.0.0") (Val "") (Nil Null)
               (Nil Null)))
    = Ok location
    /\ (location <> ""
        <-> (exists m, substring m 4 "HappyModel_TX_ES915TX_via_STLINK" = "_TX_")
            /\ GitCommit <> Local)
    /\ (location <> "" ->
        location
        = "https://raw.githubusercontent.com/ExpressLRS/ExpressLRS/null/src/lua/ELRS.lua").
Proof.
  apply (X16_lua_script_is_offered_for_transmitters
           "HappyModel_TX_ES915TX_via_STLINK"
           (View.mkRefs GitCommit (Val "1.0.0") (Val "") (Nil Null)
              (Nil Null))).
  simpl. tauto.
Defined.

Module PortFacts.
Import View.

Lemma find_named (deviceTarget : option string) (l : list Target) found :
  find (named deviceTarget) l = Some found ->
  In found l /\ deviceTarget = Some (tg_name found).
Proof.
  intros H. destruct (find_some _ _ H) as [Hin Hn]. split; [exact Hin|].
  unfold named in Hn. destruct deviceTarget as [n|]; [|discriminate].
  apply String.eqb_eq in Hn. now rewrite Hn.
Qed.

(** The target the effect settles on is a target of one of the devices,
    and bears the selected name. *)
Lemma selectedTarget_sound deviceTargets deviceTarget target :
  selectedTarget deviceTargets deviceTarget = Some target ->
  exists devices device,
    deviceTargets = Some devices /\ In device devices
    /\ In target (targets device)
    /\ deviceTarget = Some (tg_name target).
Proof.
  unfold selectedTarget. destruct deviceTargets as [devices|]; [|discriminate].
  intros H. exists devices.
  assert (G : forall (ds : list Device) acc,
             fold_left
               (fun target device =>
                  match find (named deviceTarget) (targets device) with
                  | Some found => Some found
                  | None => target
                  end) ds acc = Some target ->
             acc = Some target
             \/ exists device,
                  In device ds /\ In target (targets device)
                  /\ deviceTarget = Some (tg_name target)).
  { induction ds as [|d ds IH]; intros acc Hf; simpl in Hf; [now left|].
    destruct (IH _ Hf) as [Hacc|(device & Hin & Ht & Hn)].
    - destruct (find (named deviceTarget) (targets d)) as [found|] eqn:Hfd.
      + inversion Hacc. subst found.
        destruct (find_named _ _ _ Hfd) as [Hin Hn].
        right. exists d. repeat split; simpl; auto.
      + now left.
    - right. exists device. repeat split; simpl; auto. }
  destruct (G devices None H) as [Hacc|(device & Hin & Ht & Hn)];
    [discriminate|].
  exists device. auto.
Qed.

End PortFacts.

(** X17.  The view never asks for a serial port and a WiFi device at once.
    It asks for a serial port only when the selected target is a target of
    a listed device flashed by BetaflightPassthrough or UART, and for a
    WiFi device only when it is one flashed by WIFI; with no target
    selected, or no list of devices, it asks for neither. *)
Theorem X17_serial_and_wifi_exclude_each_other
    (deviceTargets : option (list View.Device)) (deviceTarget : option string) :
  (View.serialPortRequiredFor deviceTargets deviceTarget = true ->
   View.wifiDeviceRequiredFor deviceTargets deviceTarget = false)
  /\ (View.serialPortRequiredFor deviceTargets deviceTarget = true ->
      exists devices device target,
        deviceTargets = Some devices /\ In device devices
        /\ In target (View.targets device)
        /\ deviceTarget = Some (View.tg_name target)
        /\ (View.flashingMethod target = View.BetaflightPassthrough
            \/ View.flashingMethod target = View.UART))
  /\ (View.wifiDeviceRequiredFor deviceTargets deviceTarget = true ->
      exists devices device target,
        deviceTargets = Some devices /\ In device devices
        /\ In target (View.targets device)
        /\ deviceTarget = Some (View.tg_name target)
        /\ View.flashingMethod target = View.WIFI)
  /\ (deviceTargets = None \/ deviceTarget = None ->
      View.serialPortRequiredFor deviceTargets deviceTarget = false
      /\ View.wifiDeviceRequiredFor deviceTargets deviceTarget = false).
Proof.
  unfold View.serialPortRequiredFor, View.wifiDeviceRequiredFor.
  destruct (View.selectedTarget deviceTargets deviceTarget) as [target|] eqn:Hsel.
  - destruct (PortFacts.selectedTarget_sound _ _ _ Hsel)
      as (devices & device & Hd & Hin & Ht & Hn).
    repeat split.
    + destruct (View.flashingMethod target); congruence.
    + intros H. exists devices, device, target. repeat split; auto.
      destruct (View.flashingMethod target); auto; discriminate.
    + intros H. exists devices, device, target. repeat split; auto.
      destruct (View.flashingMethod target); auto; discriminate.
    + destruct H as [H|H]; congruence.
    + destruct H as [H|H]; congruence.
  - repeat split; intros; discriminate.
Qed.

Lemma X17_witness :
  View.wifiDeviceRequiredFor
    (Some [View.mkDevice "HappyModel ES915TX"
             [View.mkTarget "HappyModel_ES915TX_via_UART" View.UART;
              View.mkTarget "HappyModel_ES915TX_via_WIFI" View.WIFI]])
    (Some "HappyModel_ES915TX_via_UART") = false.
Proof.
  apply (proj1 (X17_serial_and_wifi_exclude_each_other
                  (Some [View.mkDevice "HappyModel ES915TX"
                           [View.mkTarget "HappyModel_ES915TX_via_UART" View.UART;
                            View.mkTarget "HappyModel_ES915TX_via_WIFI"
                              View.WIFI]])
                  (Some "HappyModel_ES915TX_via_UART"))).
  reflexivity.
Defined.

Module SendFacts.

Lemma no_errors {A} (l : list A) : Nat.ltb 0 (List.length l) = false -> l = [].
Proof. destruct l; [reflexivity|discriminate]. Qed.

(** A source the validator passes without an error is a known one whose
    required field is filled. *)
Lemma validated_source (data : Ui.FirmwareVersionDataInput) :
  Ui.validateFirmwareVersionData data = Ok [] ->
  In (Ui.source data) Ui.knownSources
  /\ ~ Ui.isBlank (Ui.requiredField data).
Proof.
  rewrite UiFacts.validate_reads. unfold Ui.knownSources.
  destruct (Ui.source data); try discriminate; intros H.
  all: split; [simpl; tauto|].
  all: match type of H with
       | Ui.check ?b ?m = _ =>
           destruct (UiFacts.check_errors b m) as (errors & Hc & Hne)
       end.
  all: rewrite Hc in H; inversion H; subst errors.
  all: intros Hblank; apply UiFacts.filled_blank in Hblank.
  all: apply Hne in Hblank; now apply Hblank.
Qed.

End SendFacts.

(** X18.  [sendJob] sends the mutation only when every check passes: a
    firmware source is selected, it is one of the known variants and its
    required field is filled, a target is selected, the device options are
    there and, in UserInterface mode, the validator of the user defines has
    nothing to say.  The input sent carries that source, that target, the
    job type asked for and the options as they are; the view moves to
    Compiling, shows no error and its console is cleared. *)
Theorem X18_only_a_valid_form_is_sent
    (validate : list UserDefine -> list Exn) (gitRepo : View.GitRepository)
    (N : Type) (ty : BuildJobType) (v v' : View.Form * View.Console N)
    (o : Outcome unit) (input : View.BuildFlashFirmwareInput) :
  View.sendJob validate gitRepo N ty v = (v', o, Some input) ->
  o = Ok tt
  /\ View.viewState (fst v') = View.Compiling
  /\ View.currentJobType (fst v') = ty
  /\ View.firmwareVersionErrors (fst v') = []
  /\ View.deviceTargetErrors (fst v') = []
  /\ View.deviceOptionsValidationErrors (fst v') = Some []
  /\ snd v' = View.initial
  /\ exists data target options,
       View.firmwareVersionData (fst v) = Some data
       /\ View.deviceTarget (fst v) = Some target
       /\ View.deviceOptionsFormData (fst v) = Some options
       /\ In (Ui.source data) Ui.knownSources
       /\ ~ Ui.isBlank (Ui.requiredField data)
       /\ (View.fd_userDefinesMode options = UserInterface ->
           validate (View.fd_userDefineOptions options) = [])
       /\ input
          = View.mkInput ty data target (View.fd_userDefinesTxt options)
              (View.fd_userDefinesMode options)
              (View.fd_userDefineOptions options)
              (View.uploadPort (fst v)) gitRepo.
Proof.
  destruct v as [f c]. unfold View.sendJob. cbn [fst snd View.reset].
  cbn [View.firmwareVersionData View.deviceTarget View.deviceOptionsFormData
       View.setCurrentJobType View.resetForm].
  destruct (View.firmwareVersionData f) as [data|]; [|discriminate].
  destruct (Ui.validateFirmwareVersionData data) as [errors|e] eqn:Hv;
    [|discriminate].
  destruct (Nat.ltb 0 (List.length errors)) eqn:Hlen; [discriminate|].
  apply SendFacts.no_errors in Hlen. subst errors.
  destruct (View.deviceTarget f) as [target|]; [|discriminate].
  destruct (View.deviceOptionsFormData f) as [options|]; [|discriminate].
  match goal with
  | |- context [Nat.ltb 0 (List.length ?errs)] =>
      destruct (Nat.ltb 0 (List.length errs)) eqn:Herrs; [discriminate|]
  end.
  apply SendFacts.no_errors in Herrs.
  intros H. inversion H. subst. clear H.
  destruct (SendFacts.validated_source data Hv) as [Hk Hb].
  repeat split.
  exists data, target, options. repeat split; auto.
  - intros Hmode. rewrite Hmode in Herrs. exact Herrs.
  - f_equal. clear. induction (View.fd_userDefineOptions options) as [|u l IH];
      [reflexivity|]. simpl. rewrite IH. now destruct u.
Qed.

Lemma X18_witness :
  View.viewState
    (fst (fst (fst
       (View.sendJob (fun _ => []) (View.mkGitRepository "" "" "" "" "") nat
          BuildAndFlash
          (View.mkForm View.Configuration Build
             (Some (Ui.mkInput GitTag (Some "1.0.0") None None None None))
             [newError "Git tag is required"]
             (Some "HappyModel_ES915TX_via_UART") []
             (Some (View.mkOptions "" Manual [])) None
             true (Some "/dev/ttyUSB0") false None,
           View.initial)))))
  = View.Compiling.
Proof.
  refine (proj1 (proj2
            (X18_only_a_valid_form_is_sent (fun _ => [])
               (View.mkGitRepository "" "" "" "" "") nat BuildAndFlash
               (View.mkForm View.Configuration Build
                  (Some (Ui.mkInput GitTag (Some "1.0.0") None None None None))
                  [newError "Git tag is required"]
                  (Some "HappyModel_ES915TX_via_UART") []
                  (Some (View.mkOptions "" Manual [])) None
                  true (Some "/dev/ttyUSB0") false None,
                View.initial)
               _ _ _ _))).
  vm_compute. reflexivity.
Defined.

(** X19.  When [sendJob] sends nothing it either throws, which it does only
    for a source outside the known variants, or it stays on the page it was
    on and shows a reason: the errors of the firmware source, of the
    target, or of the device options, at least one of which is not empty. *)
Theorem X19_a_job_not_sent_says_why
    (validate : list UserDefine -> list Exn) (gitRepo : View.GitRepository)
    (N : Type) (ty : BuildJobType) (v v' : View.Form * View.Console N)
    (o : Outcome unit) :
  View.sendJob validate gitRepo N ty v = (v', o, None) ->
  View.viewState (fst v') = View.viewState (fst v)
  /\ match o with
     | Ok _ =>
         View.firmwareVersionErrors (fst v') <> []
         \/ View.deviceTargetErrors (fst v') <> []
         \/ exists errs,
              View.deviceOptionsValidationErrors (fst v') = Some errs
              /\ errs <> []
     | Raise _ =>
         exists data raw,
           View.firmwareVersionData (fst v) = Some data
           /\ Ui.source data = UnknownSource raw
     end.
Proof.
  destruct v as [f c]. unfold View.sendJob. cbn [fst snd View.reset].
  cbn [View.firmwareVersionData View.deviceTarget View.deviceOptionsFormData
       View.setCurrentJobType View.resetForm].
  destruct (View.firmwareVersionData f) as [data|].
  2:{ intros H. inversion H. subst. split; [reflexivity|].
      left. discriminate. }
  destruct (Ui.validateFirmwareVersionData data) as [errors|e] eqn:Hv.
  2:{ intros H. inversion H. subst. split; [reflexivity|].
      unfold Ui.validateFirmwareVersionData, Ui.check in Hv.
      destruct (Ui.source data) eqn:Hs; try discriminate. eauto. }
  destruct (Nat.ltb 0 (List.length errors)) eqn:Hlen.
  { intros H. inversion H. subst. split; [reflexivity|].
    left. simpl. intros ->. discriminate. }
  destruct (View.deviceTarget f) as [target|].
  2:{ intros H. inversion H. subst. split; [reflexivity|].
      right. left. discriminate. }
  destruct (View.deviceOptionsFormData f) as [options|].
  2:{ intros H. inversion H. subst. split; [reflexivity|].
      right. left. discriminate. }
  match goal with
  | |- context [Nat.ltb 0 (List.length ?errs)] =>
      destruct (Nat.ltb 0 (List.length errs)) eqn:Herrs; [|discriminate]
  end.
  intros H. inversion H. subst. split; [reflexivity|].
  right. right. eexists. split; [reflexivity|]. intros Heq.
  rewrite Heq in Herrs. discriminate.
Qed.

Lemma X19_witness :
  View.deviceTargetErrors
    (fst (fst (fst
       (View.sendJob (fun _ => []) (View.mkGitRepository "" "" "" "" "") nat
          Build
          (View.mkForm View.Configuration Build
             (Some (Ui.mkInput GitTag (Some "1.0.0") None None None None))
             [] None [] None None false None false None,
           View.initial)))))
  <> []
  \/ View.firmwareVersionErrors
       (fst (fst (fst
          (View.sendJob (fun _ => []) (View.mkGitRepository "" "" "" "" "")
             nat Build
             (View.mkForm View.Configuration Build
                (Some (Ui.mkInput GitTag (Some "1.0.0") None None None None))
                [] None [] None None false None false None,
              View.initial)))))
     <> []
  \/ exists errs,
       View.deviceOptionsValidationErrors
         (fst (fst (fst
            (View.sendJob (fun _ => []) (View.mkGitRepository "" "" "" "" "")
               nat Build
               (View.mkForm View.Configuration Build
                  (Some (Ui.mkInput GitTag (Some "1.0.0") None None None None))
                  [] None [] None None false None false None,
                View.initial)))))
       = Some errs
       /\ errs <> [].
Proof.
  destruct (X19_a_job_not_sent_says_why (fun _ => [])
              (View.mkGitRepository "" "" "" "" "") nat Build
              (View.mkForm View.Configuration Build
                 (Some (Ui.mkInput GitTag (Some "1.0.0") None None None None))
                 [] None [] None None false None false None,
               View.initial)
              _ (Ok tt) eq_refl) as [_ [H|[H|H]]].
  - right. left. exact H.
  - left. exact H.
  - right. right. exact H.
Defined.

(** X20.  With the two flags as the effect on the selected target sets
    them, an upload port goes out with a job only for a target flashed over
    a serial line or over WiFi: it is the selected serial device for
    BetaflightPassthrough and UART, the selected WiFi device for WIFI, and
    there is none for a target flashed any other way, or when no listed
    target is selected, whatever devices were chosen before. *)
Theorem X20_upload_port_matches_the_flashing_method
    (deviceTargets : option (list View.Device)) (f : View.Form) :
  View.serialPortRequired f
  = View.serialPortRequiredFor deviceTargets (View.deviceTarget f) ->
  View.wifiDeviceRequired f
  = View.wifiDeviceRequiredFor deviceTargets (View.deviceTarget f) ->
  match View.selectedTarget deviceTargets (View.deviceTarget f) with
  | Some target =>
      match View.flashingMethod target with
      | View.BetaflightPassthrough | View.UART =>
          View.uploadPort f = View.serialDevice f
      | View.WIFI => View.uploadPort f = View.wifiDevice f
      | View.OtherFlashingMethod _ => View.uploadPort f = None
      end
  | None => View.uploadPort f = None
  end.
Proof.
  unfold View.uploadPort, View.serialPortRequiredFor,
    View.wifiDeviceRequiredFor.
  intros -> ->.
  destruct (View.selectedTarget deviceTargets (View.deviceTarget f))
    as [target|]; [destruct (View.flashingMethod target)|];
    destruct (View.serialDevice f), (View.wifiDevice f); reflexivity.
Qed.

Lemma X20_witness :
  View.uploadPort
    (View.mkForm View.Configuration Build None [] (Some "DIY_2400_TX_via_STLINK")
       [] None None false (Some "/dev/ttyUSB0") false (Some "10.0.0.1"))
  = None.
Proof.
  apply (X20_upload_port_matches_the_flashing_method
           (Some [View.mkDevice "DIY 2400 TX"
                    [View.mkTarget "DIY_2400_TX_via_STLINK"
                       (View.OtherFlashingMethod "STLink")]])
           (View.mkForm View.Configuration Build None []
              (Some "DIY_2400_TX_via_STLINK") [] None None false
              (Some "/dev/ttyUSB0") false (Some "10.0.0.1")));
    reflexivity.
Defined.

Module NetworkFacts.
Import View.

Section DictFacts.
Context {V : Type}.
Implicit Types d : Dict V.

Lemma own_put_same k v d : own k (put k v d) = Some v.
Proof.
  induction d as [|[k' v'] d IH]; simpl.
  - now rewrite String.eqb_refl.
  - destruct (String.eqb k' k) eqn:E; simpl; rewrite E; auto.
Qed.

Lemma own_put_other k k' v d : k' <> k -> own k' (put k v d) = own k' d.
Proof.
  intros Hne. induction d as [|[k0 v0] d IH]; simpl.
  - destruct (String.eqb k k') eqn:E; [|reflexivity].
    apply String.eqb_eq in E. congruence.
  - destruct (String.eqb k0 k) eqn:E; simpl.
    + apply String.eqb_eq in E. subst k0.
      destruct (String.eqb k k') eqn:E'; [|reflexivity].
      apply String.eqb_eq in E'. congruence.
    + now rewrite IH.
Qed.

Lemma own_remove_same k d : own k (remove k d) = None.
Proof.
  induction d as [|[k' v'] d IH]; simpl; [reflexivity|].
  destruct (String.eqb k' k) eqn:E; simpl; [exact IH|]. now rewrite E.
Qed.

Lemma own_remove_other k k' d : k' <> k -> own k' (remove k d) = own k' d.
Proof.
  intros Hne. induction d as [|[k0 v0] d IH]; simpl; [reflexivity|].
  destruct (String.eqb k0 k) eqn:E; simpl.
  - apply String.eqb_eq in E. subst k0.
    destruct (String.eqb k k') eqn:E'; [|exact IH].
    apply String.eqb_eq in E'. congruence.
  - now rewrite IH.
Qed.

Lemma keys_put k v d :
  forall x, In x (keys (put k v d)) -> x = k \/ In x (keys d).
Proof.
  induction d as [|[k' v'] d IH]; simpl; intros x Hx.
  - destruct Hx as [Hx|[]]. now left.
  - destruct (String.eqb k' k) eqn:E; simpl in Hx.
    + now right.
    + destruct Hx as [Hx|Hx]; [right; now left|].
      destruct (IH _ Hx); [now left|right; now right].
Qed.

Lemma NoDup_put k v d : NoDup (keys d) -> NoDup (keys (put k v d)).
Proof.
  induction d as [|[k' v'] d IH]; simpl; intros H.
  - repeat constructor. simpl. tauto.
  - inversion H as [|? ? Hnin Hnd]. subst.
    destruct (String.eqb k' k) eqn:E; simpl.
    + constructor; assumption.
    + constructor; [|auto]. intros Hin.
      destruct (keys_put _ _ _ _ Hin) as [Heq|Hin']; [|contradiction].
      subst k'. rewrite String.eqb_refl in E. discriminate.
Qed.

Lemma NoDup_remove k d : NoDup (keys d) -> NoDup (keys (remove k d)).
Proof.
  induction d as [|[k' v'] d IH]; simpl; intros H; [constructor|].
  inversion H as [|? ? Hnin Hnd]. subst.
  destruct (String.eqb k' k); simpl; [auto|].
  constructor; [|auto]. intros Hin. apply Hnin.
  unfold keys, remove in *. apply in_map_iff in Hin.
  destruct Hin as ([k0 v0] & Hk & Hin). apply filter_In in Hin.
  apply in_map_iff. exists (k0, v0). tauto.
Qed.

(** An assignment has a result for every name but "__proto__". *)
Lemma set_plain k v d : k <> "__proto__" -> set k v d = Some (put k v d).
Proof.
  intros Hk. unfold set. destruct (String.eqb k "__proto__") eqn:E;
    [|reflexivity].
  apply String.eqb_eq in E. contradiction.
Qed.

Lemma set_result k v d d' : set k v d = Some d' -> d' = put k v d.
Proof.
  unfold set. destruct (String.eqb k "__proto__"); intros H; inversion H.
  reflexivity.
Qed.

End DictFacts.

(** One update that has a result: the names stay distinct, the name of
    the update gets its word, the other names keep theirs. *)
Lemma onMonitorUpdate_step update n n' :
  onMonitorUpdate (Some update) n = Some n' ->
  (NoDup (keys (multicastDnsDevices n)) ->
   NoDup (keys (multicastDnsDevices n')))
  /\ (forall k,
        own k (multicastDnsDevices n')
        = lastWord k [update] (own k (multicastDnsDevices n)))
  /\ multicastDnsNewDevices n'
     = multicastDnsNewDevices n ++ announced [update].
Proof.
  unfold onMonitorUpdate, lastWord, announced.
  cbn [fold_left flat_map].
  destruct (up_type update).
  1,2: destruct (set (mdns_name (up_data update)) (up_data update)
                   (multicastDnsDevices n)) as [copy|] eqn:Hset;
       [|discriminate];
       apply set_result in Hset; subst copy.
  all: intros H; inversion H; subst n'; clear H;
    cbn [multicastDnsDevices multicastDnsNewDevices].
  - split; [now apply NoDup_put|]. split.
    + intros k. destruct (String.eqb (mdns_name (up_data update)) k) eqn:E.
      * apply String.eqb_eq in E. subst k. apply own_put_same.
      * apply own_put_other. intros ->. rewrite String.eqb_refl in E.
        discriminate.
    + now rewrite map_id, app_nil_r.
  - split; [now apply NoDup_put|]. split.
    + intros k. destruct (String.eqb (mdns_name (up_data update)) k) eqn:E.
      * apply String.eqb_eq in E. subst k. apply own_put_same.
      * apply own_put_other. intros ->. rewrite String.eqb_refl in E.
        discriminate.
    + now rewrite app_nil_r.
  - split; [now apply NoDup_remove|]. split.
    + intros k. destruct (String.eqb (mdns_name (up_data update)) k) eqn:E.
      * apply String.eqb_eq in E. subst k. apply own_remove_same.
      * apply own_remove_other. intros ->. rewrite String.eqb_refl in E.
        discriminate.
    + now rewrite app_nil_r.
  - split; [auto|]. split.
    + intros k. now destruct (String.eqb (mdns_name (up_data update)) k).
    + now rewrite app_nil_r.
Qed.

(** An update of a device with a plain name has a result. *)
Lemma onMonitorUpdate_plain update n :
  mdns_name (up_data update) <> "__proto__" ->
  exists n', onMonitorUpdate (Some update) n = Some n'.
Proof.
  intros Hk. unfold onMonitorUpdate.
  destruct (up_type update); rewrite ?(set_plain _ _ _ Hk); eauto.
Qed.

Lemma lastWord_cons k update updates before :
  lastWord k (update :: updates) before
  = lastWord k updates (lastWord k [update] before).
Proof. reflexivity. Qed.

Lemma announced_cons update updates :
  announced (update :: updates) = announced [update] ++ announced updates.
Proof. unfold announced. simpl. now rewrite app_nil_r. Qed.

End NetworkFacts.

Module NetworkRuns.

(** After a sequence of updates that has a result, the names are still
    distinct, each holds its last word, and the notices are those of the
    devices added. *)
Lemma state_after
    (updates : list View.MulticastDnsMonitorUpdate) (n n' : View.Network) :
  View.onMonitorUpdates updates n = Some n' ->
  (NoDup (View.keys (View.multicastDnsDevices n)) ->
   NoDup (View.keys (View.multicastDnsDevices n')))
  /\ (forall k,
        View.own k (View.multicastDnsDevices n')
        = View.lastWord k updates (View.own k (View.multicastDnsDevices n)))
  /\ View.multicastDnsNewDevices n'
     = View.multicastDnsNewDevices n ++ View.announced updates.
Proof.
  revert n. induction updates as [|update updates IH]; intros n H.
  - simpl in H. inversion H. subst n'. simpl.
    repeat split; auto. now rewrite app_nil_r.
  - cbn [View.onMonitorUpdates] in H.
    destruct (View.onMonitorUpdate (Some update) n) as [n1|] eqn:H1;
      [|discriminate].
    destruct (NetworkFacts.onMonitorUpdate_step update n n1 H1)
      as (Hnd1 & Hown1 & Hnew1).
    destruct (IH n1 H) as (Hnd2 & Hown2 & Hnew2).
    split; [auto|]. split.
    + intros k. rewrite Hown2, Hown1.
      now rewrite <- NetworkFacts.lastWord_cons.
    + rewrite Hnew2, Hnew1, (NetworkFacts.announced_cons update updates).
      symmetry. apply app_assoc.
Qed.

(** Updates of devices with plain names have a result. *)
Lemma plain_updates_run
    (updates : list View.MulticastDnsMonitorUpdate) (n : View.Network) :
  View.plainNames updates ->
  exists n', View.onMonitorUpdates updates n = Some n'.
Proof.
  intros Hplain. revert n.
  induction Hplain as [|update updates Hk _ IH]; intros n.
  - exists n. reflexivity.
  - cbn [View.onMonitorUpdates].
    destruct (NetworkFacts.onMonitorUpdate_plain update n Hk) as [n1 ->].
    apply IH.
Qed.

(** The answer of the list query acts on the map as one DeviceUpdated
    for each item listed. *)
Lemma onDevicesList_as_updates
    (items : list View.MulticastDnsInformation) (n : View.Network) :
  View.onDevicesList items n
  = View.onMonitorUpdates (map (View.mkUpdate View.DeviceUpdated) items) n.
Proof.
  unfold View.onDevicesList.
  revert n. induction items as [|item items IH]; intros n.
  - now destruct n.
  - cbn [View.setAll map View.onMonitorUpdates View.onMonitorUpdate
         View.up_type View.up_data].
    destruct (View.set (View.mdns_name item) item
                (View.multicastDnsDevices n)) as [d|]; [|reflexivity].
    rewrite <- IH. reflexivity.
Qed.

Lemma announced_updated (items : list View.MulticastDnsInformation) :
  View.announced (map (View.mkUpdate View.DeviceUpdated) items) = [].
Proof.
  unfold View.announced. induction items as [|item items IH];
    [reflexivity|exact IH].
Qed.

Lemma plain_items (items : list View.MulticastDnsInformation) :
  Forall (fun item => View.mdns_name item <> "__proto__") items ->
  View.plainNames (map (View.mkUpdate View.DeviceUpdated) items).
Proof.
  unfold View.plainNames. intros H. induction H; simpl; constructor; auto.
Qed.

End NetworkRuns.

(** X21.  The map of network devices is a live view keyed by name.  After
    any sequence of monitor updates none of which is about a device called
    "__proto__", each handled in the state the one before left: no name is
    listed twice, each name holds the device of its last DeviceAdded or
    DeviceUpdated, or nothing if a DeviceRemoved came later, names no
    update speaks of keep what they had, and the new-device notices are
    those of the DeviceAdded updates, in order, after the ones already
    there. *)
Theorem X21_network_devices_follow_the_updates
    (updates : list View.MulticastDnsMonitorUpdate) (n : View.Network) :
  View.plainNames updates ->
  NoDup (View.keys (View.multicastDnsDevices n)) ->
  exists n',
    View.onMonitorUpdates updates n = Some n'
    /\ NoDup (View.keys (View.multicastDnsDevices n'))
    /\ (forall k,
          View.own k (View.multicastDnsDevices n')
          = View.lastWord k updates (View.own k (View.multicastDnsDevices n)))
    /\ View.multicastDnsNewDevices n'
       = View.multicastDnsNewDevices n ++ View.announced updates.
Proof.
  intros Hplain Hnd.
  destruct (NetworkRuns.plain_updates_run updates n Hplain) as [n' Hrun].
  destruct (NetworkRuns.state_after updates n n' Hrun) as (Hkeys & Hown & Hnew).
  exists n'. auto.
Qed.

Lemma X21_witness :
  exists n',
    View.onMonitorUpdates
      [View.mkUpdate View.DeviceAdded
         (View.mkMulticastDns "elrs_rx" "10.0.0.7" "DIY_2400_RX");
       View.mkUpdate View.DeviceUpdated
         (View.mkMulticastDns "elrs_rx" "10.0.0.9" "DIY_2400_RX")]
      (View.mkNetwork [] [])
    = Some n'
    /\ View.own "elrs_rx" (View.multicastDnsDevices n')
       = Some (View.mkMulticastDns "elrs_rx" "10.0.0.9" "DIY_2400_RX").
Proof.
  destruct (X21_network_devices_follow_the_updates
              [View.mkUpdate View.DeviceAdded
                 (View.mkMulticastDns "elrs_rx" "10.0.0.7" "DIY_2400_RX");
               View.mkUpdate View.DeviceUpdated
                 (View.mkMulticastDns "elrs_rx" "10.0.0.9" "DIY_2400_RX")]
              (View.mkNetwork [] []))
    as (n' & Hrun & _ & Hown & _).
  - repeat constructor; discriminate.
  - simpl. constructor.
  - exists n'. split; [exact Hrun|]. exact (Hown "elrs_rx").
Defined.

(** X26.  The answer of the list query is taken into the map of network
    devices as if a DeviceUpdated had come for each item, in the order
    listed.  When no item is called "__proto__": names stay distinct, a
    listed name holds the last item listed under it, other names keep what
    they had, and no new-device notice is raised. *)
Theorem X26_listed_devices_enter_the_map
    (items : list View.MulticastDnsInformation) (n : View.Network) :
  Forall (fun item => View.mdns_name item <> "__proto__") items ->
  NoDup (View.keys (View.multicastDnsDevices n)) ->
  exists n',
    View.onDevicesList items n = Some n'
    /\ View.onMonitorUpdates (map (View.mkUpdate View.DeviceUpdated) items) n
       = Some n'
    /\ NoDup (View.keys (View.multicastDnsDevices n'))
    /\ (forall k,
          View.own k (View.multicastDnsDevices n')
          = View.lastWord k (map (View.mkUpdate View.DeviceUpdated) items)
              (View.own k (View.multicastDnsDevices n)))
    /\ View.multicastDnsNewDevices n' = View.multicastDnsNewDevices n.
Proof.
  intros Hplain Hnd. apply NetworkRuns.plain_items in Hplain.
  destruct (NetworkRuns.plain_updates_run _ n Hplain) as [n' Hrun].
  destruct (NetworkRuns.state_after _ n n' Hrun) as (Hkeys & Hown & Hnew).
  exists n'. rewrite NetworkRuns.onDevicesList_as_updates.
  repeat split; auto.
  rewrite Hnew, NetworkRuns.announced_updated. apply app_nil_r.
Qed.

Lemma X26_witness :
  exists n',
    View.onDevicesList
      [View.mkMulticastDns "elrs_tx" "10.0.0.3" "DIY_2400_TX";
       View.mkMulticastDns "elrs_tx" "10.0.0.4" "DIY_2400_TX"]
      (View.mkNetwork [] [])
    = Some n'
    /\ View.own "elrs_tx" (View.multicastDnsDevices n')
       = Some (View.mkMulticastDns "elrs_tx" "10.0.0.4" "DIY_2400_TX").
Proof.
  destruct (X26_listed_devices_enter_the_map
              [View.mkMulticastDns "elrs_tx" "10.0.0.3" "DIY_2400_TX";
               View.mkMulticastDns "elrs_tx" "10.0.0.4" "DIY_2400_TX"]
              (View.mkNetwork [] []))
    as (n' & Hrun & _ & _ & Hown & _).
  - repeat constructor; discriminate.
  - simpl. constructor.
  - exists n'. split; [exact Hrun|]. exact (Hown "elrs_tx").
Defined.

Module WifiFacts.
Import View.

Lemma find_first {A} (p : A -> bool) (l : list A) (x : A) :
  find p l = Some x <-> firstThat p l x.
Proof.
  unfold firstThat. induction l as [|y l IH]; simpl.
  - split; [discriminate|]. intros (before & after & H & _).
    destruct before; discriminate.
  - destruct (p y) eqn:Hy; split.
    + intros H. inversion H. subst y. exists [], l. auto.
    + intros (before & after & H & Hb & Hx).
      destruct before as [|z before]; simpl in H; inversion H; subst.
      * reflexivity.
      * inversion Hb. congruence.
    + intros H. apply IH in H. destruct H as (before & after & -> & Hb & Hx).
      exists (y :: before), after. auto.
    + intros (before & after & H & Hb & Hx).
      destruct before as [|z before]; simpl in H; inversion H; subst.
      * congruence.
      * apply IH. exists before, after. inversion Hb. auto.
Qed.

Lemma find_none {A} (p : A -> bool) (l : list A) :
  find p l = None <-> Forall (fun y => p y = false) l.
Proof.
  induction l as [|y l IH]; simpl.
  - split; auto.
  - destruct (p y) eqn:Hy; split.
    + discriminate.
    + intros H. inversion H. congruence.
    + intros H. constructor; [exact Hy|]. now apply IH.
    + intros H. inversion H. now apply IH.
Qed.

(** The test of [deviceTargets.find] is that a target is found. *)
Lemma offers_found toUpperCase d device :
  match find (builtFor toUpperCase (toUpperCase (mdns_target d)))
          (targets device) with
  | Some _ => true
  | None => false
  end = offers toUpperCase d device.
Proof.
  unfold offers. induction (targets device) as [|t l IH]; simpl;
    [reflexivity|].
  destruct (builtFor toUpperCase (toUpperCase (mdns_target d)) t);
    [reflexivity|exact IH].
Qed.

Lemma find_offers toUpperCase d items :
  find (fun item =>
          match find (builtFor toUpperCase (toUpperCase (mdns_target d)))
                  (targets item) with
          | Some _ => true
          | None => false
          end) items
  = find (offers toUpperCase d) items.
Proof.
  induction items as [|item items IH]; simpl; [reflexivity|].
  rewrite offers_found, IH. reflexivity.
Qed.

Lemma offers_targets toUpperCase d device :
  offers toUpperCase d device = true -> targets device <> [].
Proof. unfold offers. destruct (targets device); [discriminate|discriminate]. Qed.

End WifiFacts.

(** X22.  A device that is gone cannot be selected.  When the last word of
    the updates on a name is that the device is gone, or the name was
    never known, [onWifiDeviceChange] called with that name throws a
    TypeError before it sets anything: the map has nothing under the name
    to read [target] of, or, under a name every object has, something
    whose [target] is [undefined]. *)
Theorem X22_selecting_a_removed_device_throws
    (toUpperCase : string -> string) (unreadable : string -> string)
    (deviceTargets : option (list View.Device))
    (updates : list View.MulticastDnsMonitorUpdate) (n n' : View.Network)
    (k : string) :
  View.onMonitorUpdates updates n = Some n' ->
  View.lastWord k updates (View.own k (View.multicastDnsDevices n)) = None ->
  View.onWifiDeviceChange toUpperCase unreadable deviceTargets
    (View.multicastDnsDevices n') k
  = Raise (typeError
             (unreadable (if inherited k then "toUpperCase" else "target"))).
Proof.
  intros Hrun Hlast.
  destruct (NetworkRuns.state_after updates n n' Hrun) as (_ & Hown & _).
  unfold View.onWifiDeviceChange, View.get. rewrite Hown, Hlast.
  destruct (inherited k); reflexivity.
Qed.

(** A device that came and went. *)
Lemma X22_witness :
  View.onMonitorUpdates
    [View.mkUpdate View.DeviceAdded
       (View.mkMulticastDns "elrs_rx" "10.0.0.7" "DIY_2400_RX");
     View.mkUpdate View.DeviceRemoved
       (View.mkMulticastDns "elrs_rx" "10.0.0.7" "DIY_2400_RX")]
    (View.mkNetwork [] [])
  = Some (View.mkNetwork []
            [View.mkMulticastDns "elrs_rx" "10.0.0.7" "DIY_2400_RX"])
  /\ View.onWifiDeviceChange (fun s => s) (fun p => cannotRead p Undefined)
       None
       (View.multicastDnsDevices
          (View.mkNetwork []
             [View.mkMulticastDns "elrs_rx" "10.0.0.7" "DIY_2400_RX"]))
       "elrs_rx"
     = Raise (typeError (cannotRead "target" Undefined)).
Proof.
  split; [reflexivity|].
  refine ((X22_selecting_a_removed_device_throws (fun s => s)
            (fun p => cannotRead p Undefined) None
            [View.mkUpdate View.DeviceAdded
               (View.mkMulticastDns "elrs_rx" "10.0.0.7" "DIY_2400_RX");
             View.mkUpdate View.DeviceRemoved
               (View.mkMulticastDns "elrs_rx" "10.0.0.7" "DIY_2400_RX")]
            (View.mkNetwork [] [])
            (View.mkNetwork []
               [View.mkMulticastDns "elrs_rx" "10.0.0.7" "DIY_2400_RX"])
            "elrs_rx" _ _)).
  - reflexivity.
  - reflexivity.
Defined.

(** X23.  Selecting a device the map holds never throws, and the WiFi
    device becomes its address.  The target becomes none when no listed
    device has a target whose name starts, letter case aside, with the
    target the device reports.  Otherwise the first listed device that has
    one decides: the target becomes the name of its first WIFI target when
    that name is not empty, and else the name of its first target, or none
    when that name is empty. *)
Theorem X23_selecting_a_known_device
    (toUpperCase : string -> string) (unreadable : string -> string)
    (deviceTargets : option (list View.Device))
    (devices : View.Dict View.MulticastDnsInformation)
    (deviceName : string) (d : View.MulticastDnsInformation) :
  View.get deviceName devices = Own d ->
  exists selected,
    View.onWifiDeviceChange toUpperCase unreadable deviceTargets devices deviceName
    = Ok (selected, View.mdns_ip d)
    /\ (deviceTargets = None -> selected = None)
    /\ (forall items,
          deviceTargets = Some items ->
          Forall (fun device => View.offers toUpperCase d device = false)
            items ->
          selected = None)
    /\ (forall items device,
          deviceTargets = Some items ->
          View.firstThat (View.offers toUpperCase d) items device ->
          (forall target,
             View.firstThat View.isWifi (View.targets device) target ->
             View.tg_name target <> "" ->
             selected = Some (View.tg_name target))
          /\ ((forall target,
                 View.firstThat View.isWifi (View.targets device) target ->
                 View.tg_name target = "") ->
              exists first rest,
                View.targets device = first :: rest
                /\ selected
                   = if isEmpty (View.tg_name first) then None
                     else Some (View.tg_name first))).
Proof.
  intros Hget. unfold View.onWifiDeviceChange. rewrite Hget.
  destruct deviceTargets as [items|].
  2:{ eexists. split; [reflexivity|]. split; [reflexivity|].
      split; intros ? ; discriminate. }
  rewrite WifiFacts.find_offers.
  destruct (find (View.offers toUpperCase d) items) as [device|] eqn:Hfind.
  2:{ eexists. split; [reflexivity|]. split; [discriminate|].
      split; [reflexivity|].
      intros items' device Hitems Hfirst. inversion Hitems. subst items'.
      apply WifiFacts.find_first in Hfirst. congruence. }
  assert (Hne : View.targets device <> []).
  { apply (WifiFacts.offers_targets toUpperCase d).
    apply WifiFacts.find_first in Hfind.
    destruct Hfind as (? & ? & _ & _ & H). exact H. }
  assert (Hthe : forall items' device',
             Some items = Some items' ->
             View.firstThat (View.offers toUpperCase d) items' device' ->
             device' = device).
  { intros items' device' Hitems Hfirst. inversion Hitems. subst items'.
    apply WifiFacts.find_first in Hfirst. congruence. }
  assert (Hnone : forall items',
             Some items = Some items' ->
             Forall (fun x => View.offers toUpperCase d x = false) items' ->
             False).
  { intros items' Hitems Hall. inversion Hitems. subst items'.
    apply WifiFacts.find_none in Hall. congruence. }
  unfold View.find_wifi.
  destruct (find View.isWifi (View.targets device)) as [wifi|] eqn:Hwifi;
    cbn [option_map truthy].
  - destruct (isEmpty (View.tg_name wifi)) eqn:Hempty; cbn [negb].
    + destruct (View.targets device) as [|first rest] eqn:Hts;
        [now elim Hne|].
      eexists. split; [reflexivity|]. split; [discriminate|].
      split; [intros ? Hi Ha; elim (Hnone _ Hi Ha)|].
      intros items' device' Hitems Hfirst.
      rewrite (Hthe _ _ Hitems Hfirst). rewrite Hts. split.
      * intros target Ht Hname. apply WifiFacts.find_first in Ht.
        assert (target = wifi) by congruence. subst target.
        destruct (View.tg_name wifi); [now elim Hname|discriminate].
      * intros _. exists first, rest. split; [reflexivity|].
        cbn [truthy]. now destruct (isEmpty (View.tg_name first)).
    + eexists. split; [reflexivity|]. split; [discriminate|].
      split; [intros ? Hi Ha; elim (Hnone _ Hi Ha)|].
      intros items' device' Hitems Hfirst.
      rewrite (Hthe _ _ Hitems Hfirst). split.
      * intros target Ht _. apply WifiFacts.find_first in Ht.
        congruence.
      * intros Hall. apply WifiFacts.find_first in Hwifi.
        rewrite (Hall _ Hwifi) in Hempty. discriminate.
  - destruct (View.targets device) as [|first rest] eqn:Hts;
      [now elim Hne|].
    eexists. split; [reflexivity|]. split; [discriminate|].
    split; [intros ? Hi Ha; elim (Hnone _ Hi Ha)|].
    intros items' device' Hitems Hfirst.
    rewrite (Hthe _ _ Hitems Hfirst). rewrite Hts. split.
    + intros target Ht _. apply WifiFacts.find_first in Ht. congruence.
    + intros _. exists first, rest. split; [reflexivity|].
      cbn [truthy]. now destruct (isEmpty (View.tg_name first)).
Qed.

(** Two listed devices match; the first one decides, and its WIFI
    target. *)
Lemma X23_witness :
  View.onWifiDeviceChange (fun s => s) (fun p => cannotRead p Undefined)
    (Some [View.mkDevice "DIY 2400 RX"
             [View.mkTarget "DIY_2400_RX_via_UART" View.UART;
              View.mkTarget "DIY_2400_RX_via_WIFI" View.WIFI];
           View.mkDevice "DIY 2400 RX PWM"
             [View.mkTarget "DIY_2400_RX_PWM_via_WIFI" View.WIFI]])
    [("elrs_rx", View.mkMulticastDns "elrs_rx" "10.0.0.7" "DIY_2400_RX")]
    "elrs_rx"
  = Ok (Some "DIY_2400_RX_via_WIFI", "10.0.0.7").
Proof.
  destruct (X23_selecting_a_known_device (fun s => s)
              (fun p => cannotRead p Undefined)
              (Some [View.mkDevice "DIY 2400 RX"
                       [View.mkTarget "DIY_2400_RX_via_UART" View.UART;
                        View.mkTarget "DIY_2400_RX_via_WIFI" View.WIFI];
                     View.mkDevice "DIY 2400 RX PWM"
                       [View.mkTarget "DIY_2400_RX_PWM_via_WIFI" View.WIFI]])
              [("elrs_rx",
                View.mkMulticastDns "elrs_rx" "10.0.0.7" "DIY_2400_RX")]
              "elrs_rx"
              (View.mkMulticastDns "elrs_rx" "10.0.0.7" "DIY_2400_RX")
              eq_refl) as (selected & Hrun & _ & _ & Hfirst).
  destruct (Hfirst _
              (View.mkDevice "DIY 2400 RX"
                 [View.mkTarget "DIY_2400_RX_via_UART" View.UART;
                  View.mkTarget "DIY_2400_RX_via_WIFI" View.WIFI])
              eq_refl) as [Hwifi _].
  - exists [], [View.mkDevice "DIY 2400 RX PWM"
                  [View.mkTarget "DIY_2400_RX_PWM_via_WIFI" View.WIFI]].
    repeat split. constructor.
  - rewrite (Hwifi (View.mkTarget "DIY_2400_RX_via_WIFI" View.WIFI)) in Hrun.
    + exact Hrun.
    + exists [View.mkTarget "DIY_2400_RX_via_UART" View.UART], [].
      repeat split. repeat constructor.
    + discriminate.
Defined.

(* ================================================================== *)
(** ** The device catalog: what is loaded and what is reported *)

Module CatalogReadingFacts.
Import Device CatalogReading.

Lemma mapT_ok_map {A B C} (f : A -> Outcome B) (g : B -> C) (h : A -> C) xs ys :
  (forall x y, f x = Ok y -> g y = h x) ->
  mapT f xs = Ok ys -> map g ys = map h xs.
Proof.
  intros Hfg. revert ys. induction xs as [|x xs IH]; intros ys H; simpl in H.
  - inversion H. reflexivity.
  - destruct (f x) as [y|e] eqn:Hx; [|discriminate].
    destruct (mapT f xs) as [ys'|e]; [|discriminate].
    inversion H. simpl. now rewrite (Hfg _ _ Hx), (IH ys').
Qed.

Section Loading.
Variable FlashingMethod UserDefineKey DeviceType : Enum.

Lemma parseTarget_fields item tg :
  parseTarget FlashingMethod item = Ok tg ->
  tg_name tg = tj_name item
  /\ flashingMethod tg
     = enumGet FlashingMethod (render (tj_flashingMethod item)).
Proof.
  unfold parseTarget.
  destruct (Maybe_truthy (tj_name item)); simpl; [|discriminate].
  destruct (Property_truthy
              (enumGet FlashingMethod (render (tj_flashingMethod item))));
    simpl; [|discriminate].
  intros H. inversion H. auto.
Qed.

Lemma parseUserDefine_value item k :
  parseUserDefine UserDefineKey item = Ok k -> k = enumGet UserDefineKey item.
Proof.
  unfold parseUserDefine.
  destruct (Property_truthy (enumGet UserDefineKey item)); simpl;
    [|discriminate].
  intros H. now inversion H.
Qed.

Lemma parseDevice_fields value d :
  parseDevice FlashingMethod UserDefineKey DeviceType value = Ok d ->
  loadedFrom FlashingMethod UserDefineKey DeviceType value d.
Proof.
  unfold parseDevice, loadedFrom.
  destruct (Maybe_truthy (dj_name value)); simpl; [|discriminate].
  destruct (Maybe_truthy (dj_category value)); simpl; [|discriminate].
  destruct (lacking (dj_targets value)); [discriminate|].
  destruct (lacking (dj_userDefines value)); [discriminate|].
  destruct (mapT (parseTarget FlashingMethod) _) as [ts|e] eqn:Hmt;
    [|discriminate].
  destruct (mapT (parseUserDefine UserDefineKey) _) as [us|e] eqn:Hmu;
    [|discriminate].
  destruct (Property_truthy
              (enumGet DeviceType (render (dj_deviceType value))));
    simpl; [|discriminate].
  intros H. inversion H. subst d. clear H. simpl.
  repeat split.
  - eapply mapT_ok_map; [|exact Hmt].
    intros x y Hxy. exact (proj1 (parseTarget_fields _ _ Hxy)).
  - eapply mapT_ok_map; [|exact Hmt].
    intros x y Hxy. exact (proj2 (parseTarget_fields _ _ Hxy)).
  - rewrite <- (map_id us). eapply mapT_ok_map; [|exact Hmu].
    intros x y Hxy. exact (parseUserDefine_value _ _ Hxy).
Qed.

End Loading.
End CatalogReadingFacts.

(** X24.  A catalog that loads is loaded entry by entry, in order and with
    nothing logged: there are as many devices as entries, and each device
    has the name of its entry as id and as name, its category and wiki
    url, its targets by name in the order given, and, in place of the names
    the entry wrote for flashing methods, user defines and device type,
    what the enum objects hold under these names: the value of the member,
    or what every object inherits under that name. *)
Theorem X24_devices_mirror_the_catalog
    (FlashingMethod UserDefineKey DeviceType : Device.Enum)
    (catalog : list Device.DeviceJSON) log ds :
  Device.loadDevices FlashingMethod UserDefineKey DeviceType catalog
  = (log, Ok ds) ->
  log = []
  /\ Forall2
       (CatalogReading.loadedFrom FlashingMethod UserDefineKey DeviceType)
       catalog ds.
Proof.
  revert log ds. induction catalog as [|v rest IH]; intros log ds H;
    simpl in H.
  - inversion H. split; [reflexivity|constructor].
  - unfold Device.loadDevice in H.
    destruct (Device.parseDevice FlashingMethod UserDefineKey DeviceType v)
      as [d|e] eqn:Hv; [|discriminate].
    destruct (Device.loadDevices FlashingMethod UserDefineKey DeviceType rest)
      as [l' [ds'|e]] eqn:Hr; [|discriminate].
    inversion H. subst. clear H.
    destruct (IH _ _ eq_refl) as [Hl Hf].
    split; [exact Hl|]. constructor; [|exact Hf].
    now apply CatalogReadingFacts.parseDevice_fields.
Qed.

Lemma X24_witness :
  fst (Device.Fixture.load [Device.Fixture.es915tx]) = []
  /\ exists ds,
       Forall2
         (CatalogReading.loadedFrom Device.Fixture.flashingMethods
            Device.Fixture.userDefineKeys Device.Fixture.deviceTypes)
         [Device.Fixture.es915tx] ds.
Proof.
  destruct (Device.Fixture.load [Device.Fixture.es915tx]) as [log [ds|e]] eqn:H.
  - destruct (X24_devices_mirror_the_catalog _ _ _ _ _ _ H) as [Hl Hf].
    split; [exact Hl|]. exists ds. exact Hf.
  - vm_compute in H. discriminate H.
Defined.

(** X25.  When a catalog does not load, the error thrown is about its first
    entry that does not parse: every entry before it parses, the message
    names the device and repeats the message of the parse error, and that
    same message is the one line handed to the logger. *)
Theorem X25_first_bad_entry_is_reported
    (FlashingMethod UserDefineKey DeviceType : Device.Enum)
    (catalog : list Device.DeviceJSON) log e :
  Device.loadDevices FlashingMethod UserDefineKey DeviceType catalog
  = (log, Raise e) ->
  exists good bad rest cause,
    catalog = good ++ bad :: rest
    /\ Forall
         (fun v =>
            exists d,
              Device.parseDevice FlashingMethod UserDefineKey DeviceType v
              = Ok d) good
    /\ Device.parseDevice FlashingMethod UserDefineKey DeviceType bad
       = Raise cause
    /\ e = newError (CatalogReading.issue bad cause)
    /\ log = [CatalogReading.issue bad cause].
Proof.
  revert log. induction catalog as [|v rest IH]; intros log H; simpl in H.
  - discriminate.
  - unfold Device.loadDevice in H.
    destruct (Device.parseDevice FlashingMethod UserDefineKey DeviceType v)
      as [d|cause] eqn:Hv.
    + destruct (Device.loadDevices FlashingMethod UserDefineKey DeviceType rest)
        as [l' [ds'|e']] eqn:Hr; [discriminate|].
      inversion H. subst. clear H.
      destruct (IH _ eq_refl) as (good & bad & rest' & cause & Hc & Hg & Hb & He & Hl).
      exists (v :: good), bad, rest', cause. subst.
      repeat split; auto. constructor; eauto.
    + inversion H. subst. clear H.
      exists [], v, rest, cause. repeat split; auto.
Qed.

Lemma X25_witness :
  exists good bad rest cause,
    [Device.Fixture.es915tx; Device.Fixture.misspelt] = good ++ bad :: rest
    /\ Forall
         (fun v =>
            exists d,
              Device.parseDevice Device.Fixture.flashingMethods
                Device.Fixture.userDefineKeys Device.Fixture.deviceTypes v
              = Ok d) good
    /\ Device.parseDevice Device.Fixture.flashingMethods
         Device.Fixture.userDefineKeys Device.Fixture.deviceTypes bad
       = Raise cause
    /\ snd (Device.Fixture.load
              [Device.Fixture.es915tx; Device.Fixture.misspelt])
       = Raise (newError (CatalogReading.issue bad cause))
    /\ fst (Device.Fixture.load
              [Device.Fixture.es915tx; Device.Fixture.misspelt])
       = [CatalogReading.issue bad cause].
Proof.
  destruct (Device.Fixture.load
              [Device.Fixture.es915tx; Device.Fixture.misspelt])
    as [log [ds|e]] eqn:H.
  - vm_compute in H. discriminate H.
  - destruct (X25_first_bad_entry_is_reported _ _ _ _ _ _ H)
      as (good & bad & rest & cause & Hc & Hg & Hb & He & Hl).
    exists good, bad, rest, cause. subst. auto.
Defined.

(** An entry whose name is [null] is reported as the device "null". *)
Example nameless_entry_is_reported_as_null :
  Device.Fixture.load [Device.Fixture.nameless]
  = ([CatalogReading.issue Device.Fixture.nameless
        (newError "all devices must have a name property!")],
     Raise (newError
              ("Issue encountered while parsing device " ++ Device.dq
               ++ "null" ++ Device.dq
               ++ " in the device configuration file devices.json: "
               ++ "all devices must have a name property!"))).
Proof. vm_compute. reflexivity. Qed.

(** X27.  What the checks of [loadDevices] do guarantee.  Every device of
    a catalog that loads has at least one target and at least one user
    define, and so has every device [getDevices] gives.  The catalog loads
    as a whole or not at all: [loadDevices] throws, and no service is
    constructed, exactly when some entry has no name or no category (or an
    empty one), no target or no user define, a target without a name, or a
    flashing method, a user define or a device type under whose name the
    enum object holds nothing or the empty string. *)
Theorem X27_catalog_loads_whole_or_not_at_all
    (FlashingMethod UserDefineKey DeviceType : Device.Enum)
    (catalog : list Device.DeviceJSON) :
  (forall log ds,
     Device.loadDevices FlashingMethod UserDefineKey DeviceType catalog
     = (log, Ok ds) ->
     Forall Device.wellStocked ds
     /\ List.length ds = List.length catalog)
  /\ (forall log svc,
        Device.newDeviceService FlashingMethod UserDefineKey DeviceType catalog
        = (log, Ok svc) ->
        Forall Device.wellStocked (Device.getDevices svc))
  /\ (Exists (Device.refused FlashingMethod UserDefineKey DeviceType) catalog
      <-> exists log e,
            Device.loadDevices FlashingMethod UserDefineKey DeviceType catalog
            = (log, Raise e)
            /\ Device.newDeviceService FlashingMethod UserDefineKey DeviceType
                 catalog
               = (log, Raise e)).
Proof.
  split; [|split].
  - intros log ds H.
    destruct (DeviceFacts.loadDevices_ok _ _ _ _ _ _ H) as (Hw & _ & Hlen).
    auto.
  - unfold Device.newDeviceService, Device.getDevices. intros log svc H.
    destruct (Device.loadDevices FlashingMethod UserDefineKey DeviceType catalog)
      as [l [ds|e]] eqn:Hl; inversion H. subst. simpl.
    exact (proj1 (DeviceFacts.loadDevices_ok _ _ _ _ _ _ Hl)).
  - unfold Device.newDeviceService.
    destruct (Device.loadDevices FlashingMethod UserDefineKey DeviceType catalog)
      as [l [ds|e]] eqn:Hl; split.
    + intros Hbad. exfalso.
      destruct (DeviceFacts.loadDevices_ok _ _ _ _ _ _ Hl) as (_ & Hsound & _).
      apply Exists_exists in Hbad. destruct Hbad as (v & Hin & Hv).
      exact (proj1 (Forall_forall _ _) Hsound v Hin Hv).
    + intros (log & e & H & _). discriminate H.
    + eauto.
    + intros _. exact (DeviceFacts.loadDevices_raise _ _ _ _ _ _ Hl).
Qed.

(** A catalog of one sound device, and the same with a misspelt flashing
    method added. *)
Lemma X27_witness :
  Forall Device.wellStocked
    (match Device.Fixture.load [Device.Fixture.es915tx] with
     | (_, Ok ds) => ds
     | (_, Raise _) => []
     end)
  /\ exists log e,
       Device.Fixture.load [Device.Fixture.es915tx; Device.Fixture.misspelt]
       = (log, Raise e).
Proof.
  destruct (X27_catalog_loads_whole_or_not_at_all
              Device.Fixture.flashingMethods Device.Fixture.userDefineKeys
              Device.Fixture.deviceTypes [Device.Fixture.es915tx])
    as (Hok & _ & _).
  destruct (X27_catalog_loads_whole_or_not_at_all
              Device.Fixture.flashingMethods Device.Fixture.userDefineKeys
              Device.Fixture.deviceTypes
              [Device.Fixture.es915tx; Device.Fixture.misspelt])
    as (_ & _ & Hbad).
  split.
  - eapply Hok. vm_compute. reflexivity.
  - destruct (proj1 Hbad) as (log & e & H & _).
    + right. left. unfold Device.refused. do 4 right. left.
      eexists. split; [left; reflexivity|]. right. reflexivity.
    + eauto.
Defined.
